(** * ATS resume generator: the adaptive layout-fitting engine

    A shallow embedding of [resume_generator.py] (class [ResumeGenerator]):
    the content-volume estimate, the size tiers chosen from it, the page-count
    heuristic and the bounded shrink loop of [_check_and_adjust_for_page_fit].

    Numbers.  Python [int]s are [Z].  Python [float]s are modelled by the
    rationals [Q] with exact arithmetic, compared up to [Qeq] ([==]): a
    decimal literal such as [0.7] denotes the rational 7/10, and the rounding
    of binary floating point is not modelled.  Comparisons ([>], [max])
    follow Python's: [max a b] is [b] when [b > a] and [a] otherwise.

    Strings are [string]; [len] counts its characters.

    The generator object [self] is a record; a method that only assigns
    attributes is a function to the updated record.  The methods that print
    or save run in a small state-and-exception monad over the generator and
    the output written so far.

    The text that the [_add_*] methods put into the document is not
    modelled: the fitting loop only measures the paragraphs it is given, so
    the paragraphs rendered for a generator are a parameter of section
    [LayoutFitter] and every result holds for any rendering.

    The [while] loop is a fixpoint on an iteration budget ([fuel]); the
    theorems show that a budget of three always suffices and that a larger
    one changes nothing. *)

From Stdlib Require Import ZArith QArith Qminmax Qround Lia Lqa List Ascii String Bool.
Import ListNotations.
Open Scope Q_scope.

(** ** Python built-ins used by the generator *)

Module Py.

(** [len(s)] *)
Definition len (s : string) : Z := Z.of_nat (String.length s).

(** [sum(xs)] over integers: starts at 0 and adds from the left. *)
Definition sum (xs : list Z) : Z := fold_left Z.add xs 0%Z.

(** [int(x)] on a float: truncation toward zero. *)
Definition int (x : Q) : Z := Z.quot (Qnum x) (Zpos (Qden x)).

(** [round(x)] on a float: nearest integer, ties to the even one. *)
Definition round (x : Q) : Z :=
  let f := Qfloor x in
  match Qcompare (x - inject_Z f) 0.5 with
  | Lt => f
  | Gt => (f + 1)%Z
  | Eq => if Z.even f then f else (f + 1)%Z
  end.

(** [a > b] *)
Definition gt (a b : Q) : bool :=
  match Qcompare a b with Gt => true | _ => false end.

(** [max(a, b)]: the first argument unless the second is greater. *)
Definition max (a b : Q) : Q := Qmax a b.

(** [sub in s] on strings. *)
Fixpoint contains (sub s : string) : bool :=
  prefix sub s ||
  match s with
  | EmptyString => false
  | String _ s' => contains sub s'
  end.

(** Truth value of an optional string ([None] and [''] are false). *)
Definition truthy (s : option string) : bool :=
  match s with
  | Some (String _ _) => true
  | _ => false
  end.

(** [s.replace(' ', '_')] *)
Fixpoint replace_space (s : string) : string :=
  match s with
  | EmptyString => EmptyString
  | String c s' =>
      String (if Ascii.eqb c " "%char then "_"%char else c) (replace_space s')
  end.

End Py.

(** ** The part of python-docx the generator relies on

    [docx.shared.Length] is an integer number of English Metric Units
    (914400 per inch, 12700 per point, 635 per twip).  A section stores its
    page margins in twips, so a margin read back from a section is the
    assigned length rounded to a whole number of twips. *)

Module docx.

Definition Length := Z.

Definition Inches (x : Q) : Length := Py.int (x * 914400).
Definition Pt (x : Q) : Length := Py.int (x * 12700).
Definition Twips (n : Z) : Length := (n * 635)%Z.

Definition inches (l : Length) : Q := inject_Z l / 914400.
Definition pt (l : Length) : Q := inject_Z l / 12700.
Definition twips (l : Length) : Z := Py.round (inject_Z l / 635).

(** What [section.top_margin] returns after [section.top_margin = l]. *)
Definition stored_margin (l : Length) : Length := Twips (twips l).

Record Section := {
  top_margin : Length;
  bottom_margin : Length;
  left_margin : Length;
  right_margin : Length
}.

Record Style := {
  style_name : string;
  font_size : Length;
  bold : bool
}.

(** A paragraph as the page estimator sees it: [paragraph.style.name] and
    [paragraph.text]. *)
Record Paragraph := {
  style : string;
  text : string
}.

Record Document := {
  sections : list Section;
  styles : list Style;
  paragraphs : list Paragraph
}.

(** [Document()]: the default template has one section (US Letter, margins
    of 1in and 1.25in) and an empty body. *)
Definition new_Document : Document :=
  {| sections := [ {| top_margin := Inches 1; bottom_margin := Inches 1;
                      left_margin := Inches 1.25; right_margin := Inches 1.25 |} ];
     styles := [];
     paragraphs := [] |}.

End docx.

Import docx.

(** ** The structured resume data *)

(** An entry of [work_experience] or of [internships]. *)
Record Job := {
  title : string;
  company : string;
  location : string;
  start_date : string;
  end_date : string;
  responsibilities : list string;
  achievements : list string
}.

Record Project := {
  project_name : string;
  description : string;
  technologies : list string;
  project_url : option string;
  project_start_date : option string;
  project_end_date : option string
}.

Record Certification := {
  certification_name : string;
  issuer : string;
  date : string;
  expiration_date : option string;
  certification_url : option string
}.

Record Education := {
  degree : string;
  institution : string;
  education_location : string;
  graduation_date : string;
  gpa : option string;
  relevant_courses : option (list string)
}.

(** ** The generator object *)

Record ResumeGenerator := {
  name : string;
  contact_info : list string;
  professional_summary : option string;
  work_experience : list Job;
  (** a [dict]: keys are unique and keep their insertion order *)
  technical_skills : list (string * list string);
  education : list Education;
  internships : list Job;
  projects : list Project;
  certifications : list Certification;
  doc : Document;
  min_font_size : Q;
  max_font_size : Q;
  min_margin : Q;
  max_margin : Q;
  name_font_size : Q;
  heading_font_size : Q;
  normal_font_size : Q;
  margin_size : Q
}.

(** Attribute assignments. *)

Definition set_doc (self : ResumeGenerator) (d : Document) : ResumeGenerator :=
  {| name := name self; contact_info := contact_info self;
     professional_summary := professional_summary self;
     work_experience := work_experience self;
     technical_skills := technical_skills self;
     education := education self; internships := internships self;
     projects := projects self; certifications := certifications self;
     doc := d;
     min_font_size := min_font_size self; max_font_size := max_font_size self;
     min_margin := min_margin self; max_margin := max_margin self;
     name_font_size := name_font_size self;
     heading_font_size := heading_font_size self;
     normal_font_size := normal_font_size self;
     margin_size := margin_size self |}.

Definition set_sizes (self : ResumeGenerator) (n h b m : Q) : ResumeGenerator :=
  {| name := name self; contact_info := contact_info self;
     professional_summary := professional_summary self;
     work_experience := work_experience self;
     technical_skills := technical_skills self;
     education := education self; internships := internships self;
     projects := projects self; certifications := certifications self;
     doc := doc self;
     min_font_size := min_font_size self; max_font_size := max_font_size self;
     min_margin := min_margin self; max_margin := max_margin self;
     name_font_size := n;
     heading_font_size := h;
     normal_font_size := b;
     margin_size := m |}.

(** [_create_styles]: the three paragraph styles, at the current sizes. *)
Definition _create_styles (self : ResumeGenerator) : ResumeGenerator :=
  let d := doc self in
  set_doc self
    {| sections := sections d;
       styles := styles d ++
         [ {| style_name := "ATS Heading";
              font_size := Pt (heading_font_size self); bold := true |};
           {| style_name := "ATS Normal";
              font_size := Pt (normal_font_size self); bold := false |};
           {| style_name := "Name Style";
              font_size := Pt (name_font_size self); bold := true |} ];
       paragraphs := paragraphs d |}.

(** [_setup_document]: all four margins of every section become
    [Inches(self.margin_size)], then the styles are created. *)
Definition _setup_document (self : ResumeGenerator) : ResumeGenerator :=
  let d := doc self in
  let m := stored_margin (Inches (margin_size self)) in
  _create_styles
    (set_doc self
       {| sections :=
            map (fun _ => {| top_margin := m; bottom_margin := m;
                             left_margin := m; right_margin := m |}) (sections d);
          styles := styles d;
          paragraphs := paragraphs d |}).

(** [ResumeGenerator.__init__] *)
Definition __init__ (name' : string) (contact_info' : list string)
    (professional_summary' : option string) : ResumeGenerator :=
  let min_font_size' := 12 in
  let max_font_size' := 14 in
  _setup_document
    {| name := name'; contact_info := contact_info';
       professional_summary := professional_summary';
       work_experience := []; technical_skills := []; education := [];
       internships := []; projects := []; certifications := [];
       doc := new_Document;
       min_font_size := min_font_size'; max_font_size := max_font_size';
       min_margin := 0.5; max_margin := 2.0;
       name_font_size := max_font_size' + 2;
       heading_font_size := max_font_size';
       normal_font_size := min_font_size';
       margin_size := 0.75 |}.

(** ** Filling in the resume *)

Definition set_work_experience (self : ResumeGenerator) (l : list Job) : ResumeGenerator :=
  {| name := name self; contact_info := contact_info self;
     professional_summary := professional_summary self;
     work_experience := l;
     technical_skills := technical_skills self;
     education := education self; internships := internships self;
     projects := projects self; certifications := certifications self;
     doc := doc self;
     min_font_size := min_font_size self; max_font_size := max_font_size self;
     min_margin := min_margin self; max_margin := max_margin self;
     name_font_size := name_font_size self;
     heading_font_size := heading_font_size self;
     normal_font_size := normal_font_size self;
     margin_size := margin_size self |}.

Definition set_technical_skills (self : ResumeGenerator)
    (d : list (string * list string)) : ResumeGenerator :=
  {| name := name self; contact_info := contact_info self;
     professional_summary := professional_summary self;
     work_experience := work_experience self;
     technical_skills := d;
     education := education self; internships := internships self;
     projects := projects self; certifications := certifications self;
     doc := doc self;
     min_font_size := min_font_size self; max_font_size := max_font_size self;
     min_margin := min_margin self; max_margin := max_margin self;
     name_font_size := name_font_size self;
     heading_font_size := heading_font_size self;
     normal_font_size := normal_font_size self;
     margin_size := margin_size self |}.

Definition set_education (self : ResumeGenerator) (l : list Education) : ResumeGenerator :=
  {| name := name self; contact_info := contact_info self;
     professional_summary := professional_summary self;
     work_experience := work_experience self;
     technical_skills := technical_skills self;
     education := l; internships := internships self;
     projects := projects self; certifications := certifications self;
     doc := doc self;
     min_font_size := min_font_size self; max_font_size := max_font_size self;
     min_margin := min_margin self; max_margin := max_margin self;
     name_font_size := name_font_size self;
     heading_font_size := heading_font_size self;
     normal_font_size := normal_font_size self;
     margin_size := margin_size self |}.

Definition set_internships (self : ResumeGenerator) (l : list Job) : ResumeGenerator :=
  {| name := name self; contact_info := contact_info self;
     professional_summary := professional_summary self;
     work_experience := work_experience self;
     technical_skills := technical_skills self;
     education := education self; internships := l;
     projects := projects self; certifications := certifications self;
     doc := doc self;
     min_font_size := min_font_size self; max_font_size := max_font_size self;
     min_margin := min_margin self; max_margin := max_margin self;
     name_font_size := name_font_size self;
     heading_font_size := heading_font_size self;
     normal_font_size := normal_font_size self;
     margin_size := margin_size self |}.

Definition set_projects (self : ResumeGenerator) (l : list Project) : ResumeGenerator :=
  {| name := name self; contact_info := contact_info self;
     professional_summary := professional_summary self;
     work_experience := work_experience self;
     technical_skills := technical_skills self;
     education := education self; internships := internships self;
     projects := l; certifications := certifications self;
     doc := doc self;
     min_font_size := min_font_size self; max_font_size := max_font_size self;
     min_margin := min_margin self; max_margin := max_margin self;
     name_font_size := name_font_size self;
     heading_font_size := heading_font_size self;
     normal_font_size := normal_font_size self;
     margin_size := margin_size self |}.

Definition set_certifications (self : ResumeGenerator)
    (l : list Certification) : ResumeGenerator :=
  {| name := name self; contact_info := contact_info self;
     professional_summary := professional_summary self;
     work_experience := work_experience self;
     technical_skills := technical_skills self;
     education := education self; internships := internships self;
     projects := projects self; certifications := l;
     doc := doc self;
     min_font_size := min_font_size self; max_font_size := max_font_size self;
     min_margin := min_margin self; max_margin := max_margin self;
     name_font_size := name_font_size self;
     heading_font_size := heading_font_size self;
     normal_font_size := normal_font_size self;
     margin_size := margin_size self |}.

(** [achievements or []] *)
Definition or_empty {A} (l : option (list A)) : list A :=
  match l with Some l' => l' | None => [] end.

(** [d[k] = v] on a [dict]: an existing key keeps its place. *)
Fixpoint dict_set {V} (d : list (string * V)) (k : string) (v : V) : list (string * V) :=
  match d with
  | [] => [(k, v)]
  | (k', v') :: d' =>
      if String.eqb k' k then (k, v) :: d' else (k', v') :: dict_set d' k v
  end.

Definition add_work_experience (self : ResumeGenerator)
    (title' company' location' start_date' end_date' : string)
    (responsibilities' : list string) (achievements' : option (list string))
    : ResumeGenerator :=
  set_work_experience self
    (work_experience self ++
       [ {| title := title'; company := company'; location := location';
            start_date := start_date'; end_date := end_date';
            responsibilities := responsibilities';
            achievements := or_empty achievements' |} ]).

Definition add_technical_skills (self : ResumeGenerator)
    (category : string) (skills : list string) : ResumeGenerator :=
  set_technical_skills self (dict_set (technical_skills self) category skills).

Definition add_education (self : ResumeGenerator)
    (degree' institution' location' graduation_date' : string)
    (gpa' : option string) (relevant_courses' : option (list string))
    : ResumeGenerator :=
  set_education self
    (education self ++
       [ {| degree := degree'; institution := institution';
            education_location := location';
            graduation_date := graduation_date';
            gpa := gpa'; relevant_courses := relevant_courses' |} ]).

Definition add_internship (self : ResumeGenerator)
    (title' company' location' start_date' end_date' : string)
    (responsibilities' : list string) (achievements' : option (list string))
    : ResumeGenerator :=
  set_internships self
    (internships self ++
       [ {| title := title'; company := company'; location := location';
            start_date := start_date'; end_date := end_date';
            responsibilities := responsibilities';
            achievements := or_empty achievements' |} ]).

Definition add_project (self : ResumeGenerator)
    (name' description' : string) (technologies' : list string)
    (url' start_date' end_date' : option string) : ResumeGenerator :=
  set_projects self
    (projects self ++
       [ {| project_name := name'; description := description';
            technologies := technologies'; project_url := url';
            project_start_date := start_date';
            project_end_date := end_date' |} ]).

Definition add_certification (self : ResumeGenerator)
    (name' issuer' date' : string) (expiration_date' url' : option string)
    : ResumeGenerator :=
  set_certifications self
    (certifications self ++
       [ {| certification_name := name'; issuer := issuer'; date := date';
            expiration_date := expiration_date';
            certification_url := url' |} ]).

(** ** Content volume *)

(** [_estimate_content_volume]: each [for] loop is a left fold that carries
    the running [volume]. *)
Definition _estimate_content_volume (self : ResumeGenerator) : Q :=
  let volume := 0 in
  (* Count professional summary *)
  let volume :=
    if Py.truthy (professional_summary self)
    then match professional_summary self with
         | Some s => volume + inject_Z (Py.len s) * 0.5
         | None => volume
         end
    else volume in
  (* Count work experience *)
  let volume :=
    fold_left
      (fun volume job =>
         let volume := volume + 100 in
         let volume :=
           fold_left (fun volume resp => volume + inject_Z (Py.len resp) * 0.7)
                     (responsibilities job) volume in
         fold_left (fun volume achievement =>
                      volume + inject_Z (Py.len achievement) * 0.7)
                   (achievements job) volume)
      (work_experience self) volume in
  (* Count skills *)
  let volume :=
    fold_left
      (fun volume '(category, skills) =>
         volume + (inject_Z (Py.len category)
                   + inject_Z (Py.sum (map Py.len skills)) * 0.3))
      (technical_skills self) volume in
  (* Count education *)
  let volume :=
    fold_left (fun volume edu => volume + 80) (education self) volume in
  volume.

(** ** Size tiers *)

(** The branch of [_adjust_font_and_margins] on [content_volume]: the sizes
    and the margin it assigns. *)
Definition size_tier (self : ResumeGenerator) (content_volume : Q) : ResumeGenerator :=
  if Py.gt content_volume 1800 then
    set_sizes self
      (max_font_size self) (min_font_size self + 1) (min_font_size self)
      (min_margin self)
  else if Py.gt content_volume 1500 then
    set_sizes self
      (max_font_size self + 1) (min_font_size self + 1) (min_font_size self)
      0.6
  else if Py.gt content_volume 1200 then
    set_sizes self
      (max_font_size self + 2) (max_font_size self - 1) (min_font_size self)
      0.7
  else if Py.gt content_volume 900 then
    set_sizes self
      (max_font_size self + 2) (max_font_size self) (min_font_size self)
      0.9
  else
    set_sizes self
      (max_font_size self + 2) (max_font_size self) (min_font_size self)
      1.2.

(** ** Page estimate *)

Inductive Exception := IndexError | ZeroDivisionError.

(** Outcome of a call: a value, a Python exception, or the model's loop
    budget running out. *)
Inductive result (A : Type) :=
| Ok (a : A)
| Raise (e : Exception)
| OutOfFuel.

Arguments Ok {A} a.
Arguments Raise {A} e.
Arguments OutOfFuel {A}.

(** [_estimate_page_count(doc)] *)
Definition _estimate_page_count (self : ResumeGenerator) (doc : Document) : result Q :=
  match sections doc with
  | [] => Raise IndexError
  | section :: _ =>
      let page_height_inches := 11 in
      let page_width_inches := 8.5 in
      let page_height_pt := page_height_inches * 72 in
      let margin_top := pt (top_margin section) in
      let margin_bottom := pt (bottom_margin section) in
      let usable_height_pt := page_height_pt - margin_top - margin_bottom in
      let total_content_height :=
        fold_left
          (fun total_content_height paragraph =>
             let para_height :=
               if Py.contains "Heading" (style paragraph) then
                 heading_font_size self * 1.5
               else if Py.contains "Name" (style paragraph) then
                 name_font_size self * 1.5
               else
                 normal_font_size self * 1.2 in
             let text_length := Py.len (text paragraph) in
             let chars_per_line :=
               Py.int ((page_width_inches - inches (left_margin section)
                        - inches (right_margin section)) * 12) in
             let para_height :=
               if (chars_per_line >? 0)%Z then
                 let lines := Z.max 1 (text_length / chars_per_line) in
                 para_height * inject_Z lines
               else para_height in
             total_content_height + para_height)
          (paragraphs doc) 0 in
      if Qeq_bool usable_height_pt 0 then Raise ZeroDivisionError
      else Ok (Py.max 1 (total_content_height / usable_height_pt))
  end.

(** ** Shrinking *)

(** The assignments at the head of the loop body of
    [_check_and_adjust_for_page_fit]. *)
Definition shrink_sizes (self : ResumeGenerator) : ResumeGenerator :=
  let name_font_size' := Py.max (max_font_size self) (name_font_size self * 0.95) in
  let heading_font_size' :=
    Py.max (min_font_size self + 1) (heading_font_size self * 0.95) in
  let normal_font_size' := min_font_size self in
  let margin_size' := Py.max (min_margin self) (margin_size self * 0.9) in
  set_sizes self name_font_size' heading_font_size' normal_font_size' margin_size'.

(** ** Output of a generation pass *)

Inductive Path :=
| temp_file
| output_file (filename : string).

Inductive Message :=
| ContentVolume (content_volume : Q)
| AdjustedFonts (name_size heading_size normal_size : Q)
| AdjustedMargins (margin : Q)
| AdjustmentAttempt (attempts : Z) (page_count : Q)
| AdjustedTo (name_size heading_size normal_size : Q)
| Margins (margin : Q)
| OverflowWarning
| SuccessfullyGenerated (filename : string).

Inductive Event :=
| Print (m : Message)
| Save (d : Document) (p : Path)
| Unlink (p : Path).

(** ** Methods with effects

    A method runs on the generator and the output so far, and either raises
    or returns a value with both updated. *)

Record State := {
  this : ResumeGenerator;
  output : list Event
}.

Definition M (A : Type) : Type := State -> result (A * State).

Definition ret {A} (a : A) : M A := fun st => Ok (a, st).

Definition bind {A B} (m : M A) (k : A -> M B) : M B :=
  fun st =>
    match m st with
    | Ok (a, st') => k a st'
    | Raise e => Raise e
    | OutOfFuel => OutOfFuel
    end.

Notation "x <- m ;; k" := (bind m (fun x => k))
  (at level 61, m at next level, right associativity).
Notation "m ;; k" := (bind m (fun _ => k))
  (at level 61, right associativity).

Definition get_self : M ResumeGenerator := fun st => Ok (this st, st).

Definition update (f : ResumeGenerator -> ResumeGenerator) : M unit :=
  fun st => Ok (tt, {| this := f (this st); output := output st |}).

Definition emit (e : Event) : M unit :=
  fun st => Ok (tt, {| this := this st; output := output st ++ [e] |}).

Definition print (m : Message) : M unit := emit (Print m).

Definition lift {A} (r : result A) : M A :=
  fun st =>
    match r with
    | Ok a => Ok (a, st)
    | Raise e => Raise e
    | OutOfFuel => OutOfFuel
    end.

Definition out_of_fuel {A} : M A := fun _ => OutOfFuel.

(** [_adjust_font_and_margins] *)
Definition _adjust_font_and_margins : M unit :=
  self <- get_self ;;
  let content_volume := _estimate_content_volume self in
  update (fun self => size_tier self content_volume) ;;
  self <- get_self ;;
  print (ContentVolume content_volume) ;;
  print (AdjustedFonts (name_font_size self) (heading_font_size self)
                       (normal_font_size self)) ;;
  print (AdjustedMargins (margin_size self)) ;;
  update (fun self => set_doc self new_Document) ;;
  update _setup_document.

Section LayoutFitter.

(** The paragraphs that [_add_header], [_add_professional_summary],
    [_add_work_experience], [_add_internships], [_add_projects],
    [_add_certifications], [_add_technical_skills] and [_add_education]
    append to [self.doc], in that order, as [doc.paragraphs] reports them.
    The fitting loop only measures them, so they are left arbitrary. *)
Variable rendered_sections : ResumeGenerator -> list Paragraph.

Definition _add_sections (self : ResumeGenerator) : ResumeGenerator :=
  let d := doc self in
  set_doc self
    {| sections := sections d;
       styles := styles d;
       paragraphs := paragraphs d ++ rendered_sections self |}.

(** A trial layout: a fresh document set up for the current sizes and
    filled with every section. *)
Definition relayout (self : ResumeGenerator) : ResumeGenerator :=
  _add_sections (_setup_document (set_doc self new_Document)).

(** The [while] loop of [_check_and_adjust_for_page_fit], with its local
    variables [page_count] and [attempts].  [fuel] bounds the number of
    iterations the model may run; the loop itself only tests its
    condition. *)
Fixpoint shrink_loop (fuel : nat) (max_attempts : Z)
    (page_count : Q) (attempts : Z) : M (Q * Z) :=
  if Py.gt page_count 1 && (attempts <? max_attempts)%Z then
    match fuel with
    | O => out_of_fuel
    | S fuel' =>
        let attempts := (attempts + 1)%Z in
        update shrink_sizes ;;
        update (fun self => set_doc self new_Document) ;;
        update _setup_document ;;
        update _add_sections ;;
        self <- get_self ;;
        emit (Save (doc self) temp_file) ;;
        let doc_check := doc self in
        page_count <- lift (_estimate_page_count self doc_check) ;;
        print (AdjustmentAttempt attempts page_count) ;;
        print (AdjustedTo (name_font_size self) (heading_font_size self)
                          (normal_font_size self)) ;;
        print (Margins (margin_size self)) ;;
        shrink_loop fuel' max_attempts page_count attempts
    end
  else ret (page_count, attempts).

(** [_check_and_adjust_for_page_fit(output_filename)] *)
Definition _check_and_adjust_for_page_fit (fuel : nat)
    (output_filename : string) : M unit :=
  self <- get_self ;;
  emit (Save (doc self) temp_file) ;;
  let doc_check := doc self in
  page_count <- lift (_estimate_page_count self doc_check) ;;
  let attempts := 0%Z in
  let max_attempts := 3%Z in
  r <- shrink_loop fuel max_attempts page_count attempts ;;
  let page_count := fst r in
  (if Py.gt page_count 1 then print OverflowWarning else ret tt) ;;
  emit (Unlink temp_file) ;;
  self <- get_self ;;
  emit (Save (doc self) (output_file output_filename)).

(** [generate_resume(output_filename=None)] *)
Definition generate_resume (fuel : nat) (output_filename : option string)
    : M string :=
  self <- get_self ;;
  let output_filename :=
    if Py.truthy output_filename
    then match output_filename with Some f => f | None => EmptyString end
    else (Py.replace_space (name self) ++ "_Resume.docx")%string in
  _adjust_font_and_margins ;;
  update _add_sections ;;
  _check_and_adjust_for_page_fit fuel output_filename ;;
  print (SuccessfullyGenerated output_filename) ;;
  ret output_filename.

End LayoutFitter.

(** ** Vocabulary of the specification *)

(** The size profile held by the generator. *)
Record SizeProfile := {
  name_size : Q;
  heading_size : Q;
  body_size : Q;
  margin : Q
}.

Definition size_profile (self : ResumeGenerator) : SizeProfile :=
  {| name_size := name_font_size self;
     heading_size := heading_font_size self;
     body_size := normal_font_size self;
     margin := margin_size self |}.

(** The size constraints hold the values [__init__] gives them; no method
    assigns them again. *)
Definition constraints_ok (self : ResumeGenerator) : Prop :=
  min_font_size self = 12 /\ max_font_size self = 14 /\
  min_margin self = 0.5 /\ max_margin self = 2.0.

(** The margin lies between [min_margin] and [max_margin]. *)
Definition margin_in_bounds (self : ResumeGenerator) : Prop :=
  min_margin self <= margin_size self /\ margin_size self <= max_margin self.

(** States of the generator during a generation pass: initialisation, any
    of the [add_*] calls, tier selection for some volume, a shrink step, and
    rebuilding or filling [self.doc]. *)
Inductive reachable : ResumeGenerator -> Prop :=
| reach_init n c s : reachable (__init__ n c s)
| reach_work self t c l s e r a :
    reachable self -> reachable (add_work_experience self t c l s e r a)
| reach_skills self c s :
    reachable self -> reachable (add_technical_skills self c s)
| reach_education self d i l g p c :
    reachable self -> reachable (add_education self d i l g p c)
| reach_internship self t c l s e r a :
    reachable self -> reachable (add_internship self t c l s e r a)
| reach_project self n d t u s e :
    reachable self -> reachable (add_project self n d t u s e)
| reach_certification self n i d e u :
    reachable self -> reachable (add_certification self n i d e u)
| reach_tier self content_volume :
    reachable self -> reachable (size_tier self content_volume)
| reach_shrink self :
    reachable self -> reachable (shrink_sizes self)
| reach_doc self d :
    reachable self -> reachable (set_doc self d).

(** Sum of a list of rationals. *)
Definition Qsum (l : list Q) : Q := fold_right Qplus 0 l.








(** [self2] is [self1] with other projects and certifications. *)
Definition differ_in_projects_and_certifications
    (self1 self2 : ResumeGenerator) : Prop :=
  self2 = set_certifications (set_projects self1 (projects self2))
                             (certifications self2).

(** Role of a rendered paragraph, from its style. *)
Inductive Role := NameRole | HeadingRole | BodyRole.

Definition role (p : Paragraph) : Role :=
  if Py.contains "Heading" (style p) then HeadingRole
  else if Py.contains "Name" (style p) then NameRole
  else BodyRole.

Definition usable_height (s : Section) : Q :=
  11 * 72 - pt (top_margin s) - pt (bottom_margin s).

Definition chars_per_line (s : Section) : Z :=
  Qfloor ((8.5 - inches (left_margin s) - inches (right_margin s)) * 12).

Definition line_height (self : ResumeGenerator) (p : Paragraph) : Q :=
  match role p with
  | NameRole => name_font_size self * 1.5
  | HeadingRole => heading_font_size self * 1.5
  | BodyRole => normal_font_size self * 1.2
  end.

Definition paragraph_height (self : ResumeGenerator) (s : Section)
    (p : Paragraph) : Q :=
  line_height self p
  * inject_Z (Z.max 1 (Py.len (text p) / chars_per_line s)).

Definition total_height (self : ResumeGenerator) (s : Section)
    (ps : list Paragraph) : Q :=
  Qsum (map (paragraph_height self s) ps).

(** max(1, total_height / usable_height) *)
Definition page_estimate (self : ResumeGenerator) (s : Section)
    (ps : list Paragraph) : Q :=
  Qmax 1 (total_height self s ps / usable_height s).

(** The document [_setup_document] lays out for the current sizes on a fresh
    [Document()], holding the paragraphs [ps]. *)
Definition laid_out (self : ResumeGenerator) (ps : list Paragraph) : Document :=
  let d := doc (_setup_document (set_doc self new_Document)) in
  {| sections := sections d; styles := styles d; paragraphs := ps |}.

(** Number of sizing attempts in an output log: each one saves the trial
    layout to the temporary file and measures it. *)
Fixpoint sizing_attempts (log : list Event) : nat :=
  match log with
  | [] => O
  | Save _ temp_file :: log' => S (sizing_attempts log')
  | _ :: log' => sizing_attempts log'
  end.

(** Number of shrink iterations in an output log: each one prints its
    "Adjustment attempt" line. *)
Fixpoint shrink_attempts (log : list Event) : nat :=
  match log with
  | [] => O
  | Print (AdjustmentAttempt _ _) :: log' => S (shrink_attempts log')
  | _ :: log' => shrink_attempts log'
  end.

(** What one iteration of the loop of [_estimate_page_count] adds to
    [total_content_height] for a paragraph. *)
Definition measured_height (self : ResumeGenerator) (section : Section)
    (paragraph : Paragraph) : Q :=
  let para_height :=
    if Py.contains "Heading" (style paragraph) then heading_font_size self * 1.5
    else if Py.contains "Name" (style paragraph) then name_font_size self * 1.5
    else normal_font_size self * 1.2 in
  let chars_per_line :=
    Py.int ((8.5 - inches (left_margin section) - inches (right_margin section)) * 12) in
  if (chars_per_line >? 0)%Z
  then para_height * inject_Z (Z.max 1 (Py.len (text paragraph) / chars_per_line))
  else para_height.

(** Font sizes are not negative. *)
Definition nonnegative_sizes (self : ResumeGenerator) : Prop :=
  0 <= name_font_size self /\ 0 <= heading_font_size self /\
  0 <= normal_font_size self.

(** The generator can be measured: the constraints are in place and the
    margin is within them. *)
Definition well_sized (self : ResumeGenerator) : Prop :=
  constraints_ok self /\ margin_in_bounds self.

(** name >= heading >= body + 1 *)
Definition sizes_ordered (self : ResumeGenerator) : Prop :=
  heading_font_size self <= name_font_size self /\
  normal_font_size self + 1 <= heading_font_size self.

(** The sizes a generation pass keeps to: body at 12, heading between 13 and
    14, name between 14 and 16 and not below the heading, margin between
    0.5in and 1.2in. *)
Definition sizes_invariant (self : ResumeGenerator) : Prop :=
  normal_font_size self = 12 /\
  13 <= heading_font_size self /\ heading_font_size self <= 14 /\
  14 <= name_font_size self /\ name_font_size self <= 16 /\
  heading_font_size self <= name_font_size self /\
  0.5 <= margin_size self /\ margin_size self <= 1.2.

(** A line of sizes printed during a pass shows a body size of 12 and
    name >= heading >= body + 1. *)
Definition printed_sizes_ok (e : Event) : Prop :=
  match e with
  | Print (AdjustedFonts n h b) | Print (AdjustedTo n h b) =>
      b = 12 /\ h <= n /\ b + 1 <= h
  | _ => True
  end.

(** What one iteration of the shrink loop writes to the output: the trial
    layout saved to the temporary file, then the three lines it prints. *)
Definition attempt_log (self : ResumeGenerator) (attempts : Z) (page_count : Q)
    : list Event :=
  [ Save (doc self) temp_file;
    Print (AdjustmentAttempt attempts page_count);
    Print (AdjustedTo (name_font_size self) (heading_font_size self)
                      (normal_font_size self));
    Print (Margins (margin_size self)) ].

(** ** Sample inputs *)

(** A rendering of a short resume. *)
Definition sample_sections (self : ResumeGenerator) : list Paragraph :=
  [ {| style := "Name Style"; text := name self |};
    {| style := "ATS Heading"; text := "EDUCATION" |};
    {| style := "ATS Normal"; text := "BSc | University" |} ].

(** A rendering of two hundred one-line paragraphs. *)
Definition crowded_sections (self : ResumeGenerator) : list Paragraph :=
  repeat {| style := "ATS Normal"; text := "Maintained the build" |} 200.

(** A new generator and nothing printed yet. *)
Definition fresh : State :=
  {| this := __init__ "A B" [] None; output := [] |}.

(** ** Further vocabulary: the rest of the generator *)

(** [d.get(k)] on a [dict]. *)
Fixpoint dict_get {V} (d : list (string * V)) (k : string) : option V :=
  match d with
  | [] => None
  | (k', v) :: d' => if String.eqb k' k then Some v else dict_get d' k
  end.

(** The two generators hold the same resume data. *)
Definition same_data (g g' : ResumeGenerator) : Prop :=
  name g = name g' /\ contact_info g = contact_info g' /\
  professional_summary g = professional_summary g' /\
  work_experience g = work_experience g' /\
  technical_skills g = technical_skills g' /\
  education g = education g' /\ internships g = internships g' /\
  projects g = projects g' /\ certifications g = certifications g'.

(** The two generators hold the same size constraints. *)
Definition same_constraints (g g' : ResumeGenerator) : Prop :=
  min_font_size g = min_font_size g' /\ max_font_size g = max_font_size g' /\
  min_margin g = min_margin g' /\ max_margin g = max_margin g'.

(** The sizes are at their floor: 14/13/12 and a margin of 0.5in. *)
Definition at_floor (self : ResumeGenerator) : Prop :=
  name_font_size self == 14 /\ heading_font_size self == 13 /\
  normal_font_size self == 12 /\ margin_size self == 0.5.

(** A section whose four margins are [t] twips. *)
Definition uniform_section (t : Z) : Section :=
  {| top_margin := Twips t; bottom_margin := Twips t;
     left_margin := Twips t; right_margin := Twips t |}.

(** The two generators hold the same sizes and the same constraints. *)
Definition same_sizes (g g' : ResumeGenerator) : Prop :=
  size_profile g = size_profile g' /\ same_constraints g g'.

(** An event of a sizing attempt: the trial layout saved to the temporary
    file, or one of the three lines an iteration prints. *)
Definition trial_event (e : Event) : Prop :=
  match e with
  | Save _ temp_file => True
  | Print (AdjustmentAttempt _ _) | Print (AdjustedTo _ _ _)
  | Print (Margins _) => True
  | _ => False
  end.

(** The file name [generate_resume] writes to: the one given, unless it is
    missing or empty. *)
Definition output_name (self : ResumeGenerator) (output_filename : option string)
    : string :=
  if Py.truthy output_filename
  then match output_filename with Some f => f | None => EmptyString end
  else (Py.replace_space (name self) ++ "_Resume.docx")%string.


(** The lines [_adjust_font_and_margins] prints. *)
Definition tier_log (self : ResumeGenerator) (content_volume : Q) : list Event :=
  [ Print (ContentVolume content_volume);
    Print (AdjustedFonts (name_font_size self) (heading_font_size self)
                         (normal_font_size self));
    Print (AdjustedMargins (margin_size self)) ].

(** A result with [o] put in front of its output. *)
Definition after_output {A} (o : list Event) (r : result (A * State))
    : result (A * State) :=
  match r with
  | Ok (a, st) => Ok (a, {| this := this st; output := o ++ output st |})
  | Raise e => Raise e
  | OutOfFuel => OutOfFuel
  end.

Section FirstLayout.

Variable rendered_sections : ResumeGenerator -> list Paragraph.

(** The first trial layout of a pass: the tier for the content volume, laid
    out and filled. *)
Definition first_layout (self : ResumeGenerator) : ResumeGenerator :=
  relayout rendered_sections (size_tier self (_estimate_content_volume self)).

(** The rendering reads the resume data only: which paragraphs there are,
    their text and their style names do not depend on the sizes. *)
Definition renders_data_only : Prop :=
  forall g g', same_data g g' -> rendered_sections g = rendered_sections g'.

End FirstLayout.


From Stdlib Require Import Permutation.

(** ** Keyword analysis

    [ats_keyword_analysis] works on text.  A character of a [string] stands
    for the code point of the same number, 0 to 255; [lower] and the
    character classes of [re] are Python's on these code points. *)

(** The code point of [c] lies between [lo] and [hi]. *)
Definition between (lo hi : N) (c : ascii) : bool :=
  (lo <=? N_of_ascii c)%N && (N_of_ascii c <=? hi)%N.

Module str.

(** [c.lower()]: A-Z and the capital letters of U+00C0 to U+00DE (all but
    the multiplication sign U+00D7) move up by 32. *)
Definition lower_char (c : ascii) : ascii :=
  if between 65 90 c || between 192 214 c || between 216 222 c
  then ascii_of_N (N_of_ascii c + 32)
  else c.

(** [s.lower()] *)
Fixpoint lower (s : string) : string :=
  match s with
  | EmptyString => EmptyString
  | String c s' => String (lower_char c) (lower s')
  end.

End str.

Module re.

(** [\w]: letters, digits (also superscripts and fractions) and the
    underscore. *)
Definition word_char (c : ascii) : bool :=
  between 48 57 c || between 65 90 c || between 95 95 c || between 97 122 c
  || between 170 170 c || between 178 179 c || between 181 181 c
  || between 185 186 c || between 188 190 c || between 192 214 c
  || between 216 246 c || between 248 255 c.

(** [[a-zA-Z]] *)
Definition letter (c : ascii) : bool :=
  between 65 90 c || between 97 122 c.

(** [s] cut at every character that is not a word character: the maximal
    runs of word characters, in order (with an empty run between two
    neighbouring cuts and at either end). *)
Fixpoint word_runs (s : string) : list string :=
  match s with
  | EmptyString => [EmptyString]
  | String c s' =>
      if word_char c then
        match word_runs s' with
        | run :: runs => String c run :: runs
        | [] => [String c EmptyString]
        end
      else EmptyString :: word_runs s'
  end.

Fixpoint all_letters (s : string) : bool :=
  match s with
  | EmptyString => true
  | String c s' => letter c && all_letters s'
  end.

(** [re.findall(r'\b[a-zA-Z][a-zA-Z]+\b', s)].  A match starts and ends at
    a word boundary and holds letters only, so it is a whole run of word
    characters; the matches are the runs of at least two characters that
    are all letters. *)
Definition findall_words (s : string) : list string :=
  filter (fun run => (2 <=? String.length run)%nat && all_letters run)
         (word_runs s).

End re.

(** The dictionary [ats_keyword_analysis] returns. *)
Record Analysis := {
  score : Q;
  matched_keywords : list string;
  missing_keywords : list string
}.

Section KeywordAnalysis.

(** [list(set(words))]: the distinct words, in the order the set yields
    them.  Python leaves that order open, so it is a parameter here. *)
Variable set_order : list string -> list string.

(** The keywords: the distinct words of the lowered job description that
    are longer than three characters. *)
Definition job_keywords (job_description : string) : list string :=
  let job_words := re.findall_words (str.lower job_description) in
  filter (fun word => (Py.len word >? 3)%Z) (set_order job_words).

(** The [for] loop over the keywords: each one is appended to the matched
    or to the missing ones. *)
Definition sort_keywords (resume_text : string) (keywords : list string)
    : list string * list string :=
  fold_left
    (fun lists keyword =>
       let '(matched_keywords, missing_keywords) := lists in
       if Py.contains keyword (str.lower resume_text)
       then (matched_keywords ++ [keyword], missing_keywords)
       else (matched_keywords, missing_keywords ++ [keyword]))
    keywords ([], []).

(** [ResumeGenerator.ats_keyword_analysis(job_description, resume_text)] *)
Definition ats_keyword_analysis (job_description resume_text : string)
    : Analysis :=
  let job_keywords := job_keywords job_description in
  let '(matched_keywords, missing_keywords) :=
    sort_keywords resume_text job_keywords in
  let match_percentage :=
    if (Z.of_nat (List.length job_keywords) >? 0)%Z
    then inject_Z (Z.of_nat (List.length matched_keywords))
         / inject_Z (Z.of_nat (List.length job_keywords)) * 100
    else 0 in
  {| score := match_percentage;
     matched_keywords := matched_keywords;
     missing_keywords := missing_keywords |}.

End KeywordAnalysis.

(** A set yields every element once: [order] is a possible iteration
    order. *)
Definition set_iteration (order : list string -> list string) : Prop :=
  forall words, NoDup (order words) /\
                forall word, In word (order words) <-> In word words.

(** [keyword in resume_text.lower()] *)
Definition found_in (resume_text keyword : string) : bool :=
  Py.contains keyword (str.lower resume_text).

(** One order: first occurrences, in the order of the list. *)
Fixpoint first_occurrences (words : list string) : list string :=
  match words with
  | [] => []
  | word :: words' =>
      word :: filter (fun w => negb (String.eqb w word)) (first_occurrences words')
  end.

(** [keyword] occurs in [text] between [before] and [after]. *)
Definition occurs_at (before keyword after text : string) : Prop :=
  text = (before ++ keyword ++ after)%string.

(** The last character of [s], if any. *)
Fixpoint last_char (s : string) : option ascii :=
  match s with
  | EmptyString => None
  | String c EmptyString => Some c
  | String _ s' => last_char s'
  end.

Definition first_char (s : string) : option ascii :=
  match s with
  | EmptyString => None
  | String c _ => Some c
  end.

(** No word character at this place: the text ends here or goes on with
    another character. *)
Definition no_word_char (c : option ascii) : bool :=
  match c with
  | None => true
  | Some c => negb (re.word_char c)
  end.

(** A job description and a resume text. *)
Definition sample_description : string :=
  "Python developer with SQL; python3 and data-driven TEAM work".

Definition sample_resume : string :=
  "Senior PYTHON Developer. Built data pipelines; teamwork.".

(** ** Resumes from JSON data *)

(** What [json.load] returns.  A number is kept as the literal it was read
    from; nothing here looks at it. *)
#[warnings="-register-all"] Inductive JSON :=
| JNull
| JBool (b : bool)
| JNumber (literal : string)
| JString (s : string)
| JArray (items : list JSON)
| JObject (members : list (string * JSON)).

(** [field in data]; on [None], booleans and numbers Python raises
    [TypeError] (the result is [None]). *)
Definition json_in (field : string) (data : JSON) : option bool :=
  match data with
  | JObject members => Some (existsb (String.eqb field) (map fst members))
  | JArray items =>
      Some (existsb (fun item => match item with
                                 | JString s => String.eqb s field
                                 | _ => false
                                 end) items)
  | JString s => Some (Py.contains field s)
  | JNull | JBool _ | JNumber _ => None
  end.

(** Opening and parsing the file: the data, [json.JSONDecodeError], or any
    other exception, with its text. *)
Inductive Loaded :=
| Parsed (data : JSON)
| DecodeError
| OtherError (text : string).

(** The exceptions raised inside the [try] block after parsing. *)
Inductive LoadError :=
| MissingField (field : string)
| NotIterable.

(** The lines [load_resume_from_json] prints. *)
Inductive LoadMessage :=
| SuccessfullyLoaded (json_file : string)
| NotValidJSON (json_file : string)
| ErrorLoading (text : string)
| ErrorLoadingRaised (e : LoadError).

(** The call returns the data or leaves through [sys.exit]. *)
Inductive LoadOutcome :=
| Returned (data : JSON)
| Exited (status : Z).

Definition required_fields : list string :=
  ["name"; "contact_info"; "work_experience"; "technical_skills";
   "education"]%string.

(** The validation loop: the first field that is not in the data raises
    [ValueError]. *)
Fixpoint check_fields (fields : list string) (data : JSON) : option LoadError :=
  match fields with
  | [] => None
  | field :: fields' =>
      match json_in field data with
      | None => Some NotIterable
      | Some false => Some (MissingField field)
      | Some true => check_fields fields' data
      end
  end.

Section Loading.

(** The files: what opening and parsing [json_file] gives. *)
Variable read_json : string -> Loaded.

(** [load_resume_from_json(json_file)]: the line printed and the outcome. *)
Definition load_resume_from_json (json_file : string)
    : LoadMessage * LoadOutcome :=
  match read_json json_file with
  | Parsed data =>
      match check_fields required_fields data with
      | None => (SuccessfullyLoaded json_file, Returned data)
      | Some e => (ErrorLoadingRaised e, Exited 1)
      end
  | DecodeError => (NotValidJSON json_file, Exited 1)
  | OtherError text => (ErrorLoading text, Exited 1)
  end.

End Loading.

(** The keys of a JSON object. *)
Definition has_key (members : list (string * JSON)) (key : string) : Prop :=
  In key (map fst members).

(** An entry of [work_experience] or [internships] in the loaded data; the
    key [achievements] may be missing. *)
Record JobData := {
  data_title : string;
  data_company : string;
  data_location : string;
  data_start_date : string;
  data_end_date : string;
  data_responsibilities : list string;
  data_achievements : option (list string)
}.

(** The loaded data, with values of the types the generator works on.  An
    optional key that is missing is [None]; [technical_skills] is a
    dictionary. *)
Record ResumeData := {
  data_name : string;
  data_contact_info : list string;
  data_professional_summary : option string;
  data_work_experience : list JobData;
  data_internships : option (list JobData);
  data_projects : option (list Project);
  data_technical_skills : list (string * list string);
  data_certifications : option (list Certification);
  data_education : list Education;
  data_output_filename : option string
}.

(** [d.get(key, [])] *)
Definition get_or_empty {A} (value : option (list A)) : option (list A) :=
  match value with
  | Some l => Some l
  | None => Some []
  end.

(** The generator [create_resume_from_json] fills from the loaded data,
    section by section in the order of the code. *)
Definition resume_from_data (data : ResumeData) : ResumeGenerator :=
  let resume :=
    __init__ (data_name data) (data_contact_info data)
      (data_professional_summary data) in
  let resume :=
    fold_left
      (fun resume job =>
         add_work_experience resume (data_title job) (data_company job)
           (data_location job) (data_start_date job) (data_end_date job)
           (data_responsibilities job) (get_or_empty (data_achievements job)))
      (data_work_experience data) resume in
  let resume :=
    match data_internships data with
    | Some internships =>
        fold_left
          (fun resume internship =>
             add_internship resume (data_title internship)
               (data_company internship) (data_location internship)
               (data_start_date internship) (data_end_date internship)
               (data_responsibilities internship)
               (get_or_empty (data_achievements internship)))
          internships resume
    | None => resume
    end in
  let resume :=
    match data_projects data with
    | Some projects =>
        fold_left
          (fun resume project =>
             add_project resume (project_name project) (description project)
               (technologies project) (project_url project)
               (project_start_date project) (project_end_date project))
          projects resume
    | None => resume
    end in
  let resume :=
    fold_left
      (fun resume '(category, skills) =>
         add_technical_skills resume category skills)
      (data_technical_skills data) resume in
  let resume :=
    match data_certifications data with
    | Some certifications =>
        fold_left
          (fun resume cert =>
             add_certification resume (certification_name cert) (issuer cert)
               (date cert) (expiration_date cert) (certification_url cert))
          certifications resume
    | None => resume
    end in
  fold_left
    (fun resume edu =>
       add_education resume (degree edu) (institution edu)
         (education_location edu) (graduation_date edu) (gpa edu)
         (relevant_courses edu))
    (data_education data) resume.

Section FromData.

Variable rendered_sections : ResumeGenerator -> list Paragraph.

(** [create_resume_from_json], from the loaded [data] on: the resume is
    filled and generated under the file name of the data, if any. *)
Definition create_resume_from_json (fuel : nat) (data : ResumeData)
    (printed : list Event) : result (string * State) :=
  generate_resume rendered_sections fuel (data_output_filename data)
    {| this := resume_from_data data; output := printed |}.

End FromData.

(** The entry the generator keeps for a job of the data. *)
Definition job_of (job : JobData) : Job :=
  {| title := data_title job; company := data_company job;
     location := data_location job; start_date := data_start_date job;
     end_date := data_end_date job;
     responsibilities := data_responsibilities job;
     achievements := or_empty (data_achievements job) |}.

(** A small resume as loaded data. *)
Definition sample_data : ResumeData :=
  {| data_name := "Ada Lovelace";
     data_contact_info := ["ada@example.org"%string];
     data_professional_summary := None;
     data_work_experience :=
       [ {| data_title := "Analyst"; data_company := "Engines";
            data_location := "London"; data_start_date := "1842";
            data_end_date := "1843";
            data_responsibilities := ["Wrote notes"%string];
            data_achievements := None |} ];
     data_internships := None;
     data_projects := None;
     data_technical_skills := [("Maths"%string, ["Analysis"%string])];
     data_certifications := None;
     data_education := [];
     data_output_filename := Some "ada.docx"%string |}.
(** * Verification *)

(** ** Arithmetic of the Python built-ins *)




Lemma gt_true (a b : Q) : Py.gt a b = true <-> b < a.
Proof.
  unfold Py.gt. rewrite Qgt_alt.
  destruct (a ?= b); split; intros H; congruence.
Qed.

Lemma gt_false (a b : Q) : Py.gt a b = false <-> a <= b.
Proof.
  unfold Py.gt. rewrite Qle_alt.
  destruct (a ?= b); split; intros H; congruence.
Qed.

(** ** Content volume *)

(** A loop that adds a weight per element computes the sum of the weights. *)
Lemma fold_left_weights {A} (step : Q -> A -> Q) (w : A -> Q) :
  (forall acc x, step acc x == acc + w x) ->
  forall l acc, fold_left step l acc == acc + Qsum (map w l).
Proof.
  intros Hstep l. induction l as [|x l IH]; intros acc; simpl.
  - ring.
  - rewrite IH, Hstep. ring.
Qed.







(** C8: project and certification entries contribute nothing to the content
    volume: two resumes that differ only in their projects and
    certifications have the same estimate. *)
Theorem projects_certifications_not_counted (self1 self2 : ResumeGenerator) :
  differ_in_projects_and_certifications self1 self2 ->
  _estimate_content_volume self1 = _estimate_content_volume self2.
Proof.
  unfold differ_in_projects_and_certifications. intros ->. reflexivity.
Qed.

Lemma projects_certifications_not_counted_witness :
  let self1 :=
    add_work_experience (__init__ "A B" [] (Some "Engineer"%string))
      "Dev" "ACME" "Remote" "2020" "2021" ["Built tools"%string] None in
  let self2 :=
    add_certification
      (add_project self1 "Site" "A web site" ["HTML"%string] None None None)
      "Cert" "Board" "2022" None None in
  differ_in_projects_and_certifications self1 self2 /\
  _estimate_content_volume self1 = _estimate_content_volume self2.
Proof.
  cbv zeta. split.
  - reflexivity.
  - apply projects_certifications_not_counted. reflexivity.
Defined.

(** ** Size tiers *)

Lemma size_tier_cases (self : ResumeGenerator) (v : Q) :
  constraints_ok self ->
  (1800 < v /\ size_profile (size_tier self v)
               = {| name_size := 14; heading_size := 13; body_size := 12; margin := 0.5 |})
  \/ (1500 < v /\ v <= 1800 /\ size_profile (size_tier self v)
               = {| name_size := 15; heading_size := 13; body_size := 12; margin := 0.6 |})
  \/ (1200 < v /\ v <= 1500 /\ size_profile (size_tier self v)
               = {| name_size := 16; heading_size := 13; body_size := 12; margin := 0.7 |})
  \/ (900 < v /\ v <= 1200 /\ size_profile (size_tier self v)
               = {| name_size := 16; heading_size := 14; body_size := 12; margin := 0.9 |})
  \/ (v <= 900 /\ size_profile (size_tier self v)
               = {| name_size := 16; heading_size := 14; body_size := 12; margin := 1.2 |}).
Proof.
  intros (Hmin & Hmax & Hmargin & _).
  unfold size_tier, size_profile.
  destruct (Py.gt v 1800) eqn:H1; [apply gt_true in H1 | apply gt_false in H1].
  { left. simpl. rewrite Hmin, Hmax, Hmargin. split; [assumption | reflexivity]. }
  destruct (Py.gt v 1500) eqn:H2; [apply gt_true in H2 | apply gt_false in H2].
  { right; left. simpl. rewrite Hmin, Hmax. repeat split; assumption || reflexivity. }
  destruct (Py.gt v 1200) eqn:H3; [apply gt_true in H3 | apply gt_false in H3].
  { right; right; left. simpl. rewrite Hmin, Hmax. repeat split; assumption || reflexivity. }
  destruct (Py.gt v 900) eqn:H4; [apply gt_true in H4 | apply gt_false in H4].
  { right; right; right; left. simpl. rewrite Hmin, Hmax.
    repeat split; assumption || reflexivity. }
  right; right; right; right. simpl. rewrite Hmin, Hmax.
  split; [assumption | reflexivity].
Qed.

(** C2: for every volume score [v], tier selection returns exactly
    (14, 13, 12, 0.5in) if v > 1800; (15, 13, 12, 0.6in) if 1500 < v <= 1800;
    (16, 13, 12, 0.7in) if 1200 < v <= 1500; (16, 14, 12, 0.9in) if
    900 < v <= 1200; (16, 14, 12, 1.2in) if v <= 900; and for v1 <= v2 the
    profile selected for v2 has name size, heading size and margin no larger
    than the profile selected for v1. *)
Theorem size_tier_table (self : ResumeGenerator) :
  constraints_ok self ->
  (forall v,
     (1800 < v ->
      size_profile (size_tier self v)
      = {| name_size := 14; heading_size := 13; body_size := 12; margin := 0.5 |}) /\
     (1500 < v /\ v <= 1800 ->
      size_profile (size_tier self v)
      = {| name_size := 15; heading_size := 13; body_size := 12; margin := 0.6 |}) /\
     (1200 < v /\ v <= 1500 ->
      size_profile (size_tier self v)
      = {| name_size := 16; heading_size := 13; body_size := 12; margin := 0.7 |}) /\
     (900 < v /\ v <= 1200 ->
      size_profile (size_tier self v)
      = {| name_size := 16; heading_size := 14; body_size := 12; margin := 0.9 |}) /\
     (v <= 900 ->
      size_profile (size_tier self v)
      = {| name_size := 16; heading_size := 14; body_size := 12; margin := 1.2 |})) /\
  (forall v1 v2,
     v1 <= v2 ->
     name_font_size (size_tier self v2) <= name_font_size (size_tier self v1) /\
     heading_font_size (size_tier self v2) <= heading_font_size (size_tier self v1) /\
     margin_size (size_tier self v2) <= margin_size (size_tier self v1)).
Proof.
  intros Hc. split.
  - intros v.
    destruct (size_tier_cases self v Hc)
      as [(H1 & E) | [(H1 & H2 & E) | [(H1 & H2 & E) | [(H1 & H2 & E) | (H1 & E)]]]];
      repeat split; intros; try exact E; exfalso; lra.
  - intros v1 v2 Hle.
    change (name_size (size_profile (size_tier self v2))
            <= name_size (size_profile (size_tier self v1)) /\
            heading_size (size_profile (size_tier self v2))
            <= heading_size (size_profile (size_tier self v1)) /\
            margin (size_profile (size_tier self v2))
            <= margin (size_profile (size_tier self v1))).
    destruct (size_tier_cases self v1 Hc)
      as [(H1 & E1) | [(H1 & H1' & E1) | [(H1 & H1' & E1) | [(H1 & H1' & E1) | (H1 & E1)]]]];
    destruct (size_tier_cases self v2 Hc)
      as [(H2 & E2) | [(H2 & H2' & E2) | [(H2 & H2' & E2) | [(H2 & H2' & E2) | (H2 & E2)]]]];
    rewrite E1, E2; simpl; try (exfalso; lra);
      repeat split; unfold Qle; simpl; lia.
Qed.

Lemma size_tier_table_witness :
  let self := __init__ "A B" [] None in
  constraints_ok self /\
  size_profile (size_tier self 2000)
  = {| name_size := 14; heading_size := 13; body_size := 12; margin := 0.5 |}.
Proof.
  cbv zeta. split.
  - repeat split.
  - apply (size_tier_table (__init__ "A B" [] None)).
    + repeat split.
    + reflexivity.
Defined.

(** ** Page estimate *)

Lemma int_floor (x : Q) : 0 <= x -> Py.int x = Qfloor x.
Proof.
  destruct x as [n d]. unfold Py.int, Qfloor, Qle. simpl. intros H.
  apply Z.quot_div_nonneg; lia.
Qed.

Lemma int_bounds (x : Q) :
  0 <= x -> inject_Z (Py.int x) <= x /\ x < inject_Z (Py.int x + 1).
Proof.
  intros H. rewrite (int_floor x H). split.
  - apply Qfloor_le.
  - apply Qlt_floor.
Qed.

Lemma round_bounds (x : Q) :
  x - 0.5 <= inject_Z (Py.round x) /\ inject_Z (Py.round x) <= x + 0.5.
Proof.
  unfold Py.round.
  pose proof (Qfloor_le x) as Hlo. pose proof (Qlt_floor x) as Hhi.
  rewrite inject_Z_plus in Hhi.
  destruct (Qcompare (x - inject_Z (Qfloor x)) 0.5) eqn:Hc.
  - apply Qeq_alt in Hc.
    destruct (Z.even (Qfloor x)); rewrite ?inject_Z_plus;
      change (inject_Z 1) with 1 in *; split; lra.
  - apply Qlt_alt in Hc. change (inject_Z 1) with 1 in *. split; lra.
  - apply Qgt_alt in Hc. rewrite inject_Z_plus.
    change (inject_Z 1) with 1 in *. split; lra.
Qed.

(** An integer between two integer bounds given as rationals. *)
Lemma inject_Z_between (z lo hi : Z) :
  inject_Z lo - 1 < inject_Z z -> inject_Z z < inject_Z hi + 1 ->
  (lo <= z <= hi)%Z.
Proof.
  intros Hlo Hhi. split.
  - destruct (Z_le_gt_dec lo z) as [|Hgt]; [assumption|exfalso].
    assert (inject_Z z <= inject_Z (lo - 1)) as H by (rewrite <- Zle_Qle; lia).
    unfold Z.sub in H. rewrite inject_Z_plus in H.
    change (inject_Z (- (1))) with (- (1)) in H. lra.
  - destruct (Z_le_gt_dec z hi) as [|Hgt]; [assumption|exfalso].
    assert (inject_Z (hi + 1) <= inject_Z z) as H by (rewrite <- Zle_Qle; lia).
    rewrite inject_Z_plus in H. change (inject_Z 1) with 1 in H. lra.
Qed.

(** A margin between 0.5in and 2in is stored as 720 to 2880 twips. *)
Lemma stored_margin_twips (m : Q) :
  0.5 <= m -> m <= 2.0 ->
  exists t, stored_margin (Inches m) = Twips t /\ (720 <= t <= 2880)%Z.
Proof.
  intros Hlo Hhi. exists (twips (Inches m)). split; [reflexivity|].
  unfold twips, Inches.
  destruct (int_bounds (m * 914400)) as [Hi1 Hi2]; [lra|].
  rewrite inject_Z_plus in Hi2. change (inject_Z 1) with 1 in Hi2.
  assert (457200 <= Py.int (m * 914400) <= 1828800)%Z as [He1 He2].
  { apply inject_Z_between.
    - change (inject_Z 457200) with 457200. lra.
    - change (inject_Z 1828800) with 1828800. lra. }
  rewrite Zle_Qle in He1, He2.
  change (inject_Z 457200) with 457200 in He1.
  change (inject_Z 1828800) with 1828800 in He2.
  pose proof (round_bounds (inject_Z (Py.int (m * 914400)) / 635)) as [Hr1 Hr2].
  set (e := inject_Z (Py.int (m * 914400))) in *.
  assert (e / 635 == e * (1 # 635)) as Hdiv by (field).
  set (q := e / 635) in *.
  apply inject_Z_between.
  - change (inject_Z 720) with 720. lra.
  - change (inject_Z 2880) with 2880. lra.
Qed.

Lemma pt_Twips (t : Z) : pt (Twips t) == inject_Z t / 20.
Proof.
  unfold pt, Twips. rewrite inject_Z_mult. change (inject_Z 635) with 635. field.
Qed.

Lemma inches_Twips (t : Z) : inches (Twips t) == inject_Z t / 1440.
Proof.
  unfold inches, Twips. rewrite inject_Z_mult. change (inject_Z 635) with 635. field.
Qed.

Lemma twips_bounds_Q (t : Z) :
  (720 <= t <= 2880)%Z -> 720 <= inject_Z t /\ inject_Z t <= 2880.
Proof.
  intros [H1 H2]. split.
  - change 720 with (inject_Z 720). rewrite <- Zle_Qle. assumption.
  - change 2880 with (inject_Z 2880). rewrite <- Zle_Qle. assumption.
Qed.

(** With all four margins between 0.5in and 2in the usable height is
    positive and a line holds at least 54 characters. *)
Lemma section_geometry (t : Z) :
  (720 <= t <= 2880)%Z ->
  let s := {| top_margin := Twips t; bottom_margin := Twips t;
              left_margin := Twips t; right_margin := Twips t |} in
  0 < usable_height s /\ (54 <= chars_per_line s)%Z.
Proof.
  intros Ht s. apply twips_bounds_Q in Ht. destruct Ht as [H1 H2].
  unfold usable_height, chars_per_line, s.
  cbn [top_margin bottom_margin left_margin right_margin].
  rewrite !pt_Twips.
  assert (inject_Z t / 20 == inject_Z t * (1 # 20)) as -> by field.
  split; [lra|].
  rewrite <- (Qfloor_Z 54). apply Qfloor_resp_le.
  rewrite !inches_Twips.
  assert (inject_Z t / 1440 == inject_Z t * (1 # 1440)) as -> by field.
  change (inject_Z 54) with 54. lra.
Qed.

Lemma laid_out_sections (self : ResumeGenerator) (ps : list Paragraph) :
  sections (laid_out self ps)
  = [ let m := stored_margin (Inches (margin_size self)) in
      {| top_margin := m; bottom_margin := m;
         left_margin := m; right_margin := m |} ].
Proof. reflexivity. Qed.

Lemma measured_height_formula (self : ResumeGenerator) (s : Section) (p : Paragraph) :
  (0 < chars_per_line s)%Z ->
  measured_height self s p == paragraph_height self s p.
Proof.
  intros Hpos. unfold measured_height, paragraph_height, line_height, role.
  assert (0 <= (8.5 - inches (left_margin s) - inches (right_margin s)) * 12) as Hx.
  { pose proof (Qfloor_le ((8.5 - inches (left_margin s) - inches (right_margin s)) * 12)) as Hf.
    fold (chars_per_line s) in Hf.
    assert (inject_Z 1 <= inject_Z (chars_per_line s)) as H1
      by (rewrite <- Zle_Qle; lia).
    change (inject_Z 1) with 1 in H1. lra. }
  rewrite (int_floor _ Hx). fold (chars_per_line s).
  destruct (Z.gtb_spec (chars_per_line s) 0) as [_|Hle]; [|lia].
  destruct (Py.contains "Heading" (style p));
    [|destruct (Py.contains "Name" (style p))]; reflexivity.
Qed.

(** The loop of [_estimate_page_count] sums the measured heights. *)
Lemma estimate_page_count_sum (self : ResumeGenerator) (s : Section)
    (rest : list Section) (sty : list Style) (ps : list Paragraph) :
  ~ usable_height s == 0 ->
  exists pages,
    _estimate_page_count self
      {| sections := s :: rest; styles := sty; paragraphs := ps |} = Ok pages /\
    pages == Qmax 1 (Qsum (map (measured_height self s) ps) / usable_height s).
Proof.
  intros Hu. unfold _estimate_page_count.
  cbn [sections paragraphs]. cbv zeta.
  change (11 * 72 - pt (top_margin s) - pt (bottom_margin s))
    with (usable_height s).
  destruct (Qeq_bool (usable_height s) 0) eqn:Hz.
  - apply Qeq_bool_eq in Hz. contradiction.
  - eexists. split; [reflexivity|].
    unfold Py.max.
    rewrite (fold_left_weights _ (measured_height self s))
      by (intros; reflexivity).
    rewrite Qplus_0_l. reflexivity.
Qed.

Lemma measured_total_height (self : ResumeGenerator) (s : Section)
    (ps : list Paragraph) :
  (0 < chars_per_line s)%Z ->
  Qsum (map (measured_height self s) ps) == total_height self s ps.
Proof.
  intros Hc. unfold total_height. induction ps as [|p ps IH].
  - reflexivity.
  - cbn [map Qsum fold_right]. unfold Qsum in IH. rewrite IH.
    rewrite (measured_height_formula self s p Hc). reflexivity.
Qed.

Lemma estimate_page_count_formula (self : ResumeGenerator) (s : Section)
    (rest : list Section) (sty : list Style) (ps : list Paragraph) :
  (0 < chars_per_line s)%Z -> ~ usable_height s == 0 ->
  exists pages,
    _estimate_page_count self
      {| sections := s :: rest; styles := sty; paragraphs := ps |} = Ok pages /\
    pages == page_estimate self s ps /\ 1 <= pages.
Proof.
  intros Hc Hu.
  destruct (estimate_page_count_sum self s rest sty ps Hu) as (pages & Hrun & Heq).
  exists pages. split; [assumption|].
  pose proof (measured_total_height self s ps Hc) as Hsum.
  split.
  - rewrite Heq. unfold page_estimate. rewrite Hsum. reflexivity.
  - rewrite Heq. apply Q.le_max_l.
Qed.

(** The estimate of a laid-out document, for a margin within bounds. *)
Lemma laid_out_page_estimate (self : ResumeGenerator) (ps : list Paragraph) :
  constraints_ok self -> margin_in_bounds self ->
  exists section pages,
    sections (laid_out self ps) = [section] /\
    _estimate_page_count self (laid_out self ps) = Ok pages /\
    pages == page_estimate self section ps /\
    1 <= pages /\ ~ pages == 0.
Proof.
  intros (_ & _ & Hmin & Hmax) [Hlo Hhi]. rewrite Hmin in Hlo. rewrite Hmax in Hhi.
  destruct (stored_margin_twips (margin_size self) Hlo Hhi) as (t & Ht & Hrange).
  destruct (section_geometry t Hrange) as [Hu Hc].
  set (s := {| top_margin := Twips t; bottom_margin := Twips t;
               left_margin := Twips t; right_margin := Twips t |}) in *.
  assert (laid_out self ps
          = {| sections := [s]; styles := styles (laid_out self ps);
               paragraphs := ps |}) as Hdoc.
  { unfold laid_out at 1. cbv zeta. f_equal.
    change (sections (doc (_setup_document (set_doc self new_Document))))
      with (sections (laid_out self ps)).
    rewrite laid_out_sections. cbv zeta. rewrite Ht. reflexivity. }
  destruct (estimate_page_count_formula self s [] (styles (laid_out self ps)) ps)
    as (pages & Hrun & Heq & Hge); [lia | lra |].
  exists s, pages. rewrite Hdoc at 1 2. cbn [sections].
  repeat split; try assumption. lra.
Qed.



Lemma Qsum_app (l1 l2 : list Q) : Qsum (l1 ++ l2) == Qsum l1 + Qsum l2.
Proof.
  unfold Qsum. induction l1 as [|x l1 IH]; simpl.
  - ring.
  - rewrite IH. ring.
Qed.

Lemma Qsum_nonneg (l : list Q) : (forall x, In x l -> 0 <= x) -> 0 <= Qsum l.
Proof.
  unfold Qsum. induction l as [|x l IH]; intros H; simpl.
  - lra.
  - assert (0 <= x) by (apply H; left; reflexivity).
    assert (0 <= fold_right Qplus 0 l) by (apply IH; intros; apply H; right; assumption).
    lra.
Qed.

Lemma line_base_nonneg (self : ResumeGenerator) (p : Paragraph) :
  nonnegative_sizes self ->
  0 <= (if Py.contains "Heading" (style p) then heading_font_size self * 1.5
        else if Py.contains "Name" (style p) then name_font_size self * 1.5
        else normal_font_size self * 1.2).
Proof.
  intros (Hn & Hh & Hb).
  destruct (Py.contains "Heading" (style p));
    [|destruct (Py.contains "Name" (style p))]; lra.
Qed.

Lemma measured_height_monotone (self : ResumeGenerator) (s : Section)
    (p p' : Paragraph) :
  nonnegative_sizes self ->
  style p' = style p ->
  (String.length (text p) <= String.length (text p'))%nat ->
  0 <= measured_height self s p /\
  measured_height self s p <= measured_height self s p'.
Proof.
  intros Hsizes Hstyle Hlen.
  pose proof (line_base_nonneg self p Hsizes) as Hbase.
  unfold measured_height. cbv zeta. rewrite Hstyle.
  set (base := if Py.contains "Heading" (style p) then _ else _) in *.
  set (cpl := Py.int _).
  destruct (Z.gtb_spec cpl 0) as [Hpos|Hneg].
  - assert (Py.len (text p) / cpl <= Py.len (text p') / cpl)%Z as Hdiv
      by (apply Z.div_le_mono; unfold Py.len; lia).
    assert (1 <= Z.max 1 (Py.len (text p) / cpl))%Z as H1 by lia.
    assert (Z.max 1 (Py.len (text p) / cpl) <= Z.max 1 (Py.len (text p') / cpl))%Z
      as H2 by lia.
    rewrite Zle_Qle in H1, H2. change (inject_Z 1) with 1 in H1.
    split; nra.
  - split; lra.
Qed.

Lemma pages_monotone (a b u : Q) :
  0 <= a -> a <= b -> ~ u == 0 -> Qmax 1 (a / u) <= Qmax 1 (b / u).
Proof.
  intros Ha Hab Hu.
  destruct (Qlt_le_dec 0 u) as [Hpos|Hneg].
  - apply Q.max_le_compat_l. unfold Qdiv.
    apply Qmult_le_compat_r; [assumption|].
    apply Qlt_le_weak, Qinv_lt_0_compat. assumption.
  - assert (u < 0) as Hlt by (apply Qle_lteq in Hneg; destruct Hneg; [assumption|contradiction]).
    assert (0 < / (- u)) as Hinv by (apply Qinv_lt_0_compat; lra).
    assert (forall x, 0 <= x -> x / u <= 0) as Hnonpos.
    { intros x Hx. assert (x / u == - (x * / (- u))) as -> by (field; assumption).
      assert (0 <= x * / (- u)) by (apply Qmult_le_0_compat; lra). lra. }
    rewrite (Q.max_l 1 (a / u)) by (pose proof (Hnonpos a Ha); lra).
    rewrite (Q.max_l 1 (b / u)) by (assert (0 <= b) as Hb by lra;
                                     pose proof (Hnonpos b Hb); lra).
    lra.
Qed.

(** C9: the page estimator is monotone in text length: of two rendered
    documents that are identical except that one paragraph's text is strictly
    longer in the second, with the same (non-negative) sizes and the same
    margins, the second has an estimated page count at least that of the
    first. *)
Theorem page_estimate_monotone_in_text_length
    (self : ResumeGenerator) (section : Section) (rest : list Section)
    (sty : list Style) (before after : list Paragraph) (p p' : Paragraph) :
  nonnegative_sizes self ->
  ~ usable_height section == 0 ->
  style p' = style p ->
  (String.length (text p) < String.length (text p'))%nat ->
  exists pages pages',
    _estimate_page_count self
      {| sections := section :: rest; styles := sty;
         paragraphs := before ++ p :: after |} = Ok pages /\
    _estimate_page_count self
      {| sections := section :: rest; styles := sty;
         paragraphs := before ++ p' :: after |} = Ok pages' /\
    pages <= pages'.
Proof.
  intros Hsizes Hu Hstyle Hlen.
  destruct (estimate_page_count_sum self section rest sty (before ++ p :: after) Hu)
    as (pages & Hrun & Heq).
  destruct (estimate_page_count_sum self section rest sty (before ++ p' :: after) Hu)
    as (pages' & Hrun' & Heq').
  exists pages, pages'. split; [assumption|]. split; [assumption|].
  rewrite Heq, Heq'.
  rewrite !map_app, !Qsum_app. cbn [map].
  change (Qsum (?x :: ?l)) with (x + Qsum l).
  destruct (measured_height_monotone self section p p' Hsizes Hstyle) as [H0 Hle];
    [lia|].
  assert (forall l, 0 <= Qsum (map (measured_height self section) l)) as Hnonneg.
  { intros l. apply Qsum_nonneg. intros x Hin.
    apply in_map_iff in Hin. destruct Hin as (q & <- & _).
    apply (measured_height_monotone self section q q Hsizes eq_refl). lia. }
  pose proof (Hnonneg before). pose proof (Hnonneg after).
  apply pages_monotone; [lra | lra | assumption].
Qed.

Lemma page_estimate_monotone_in_text_length_witness :
  let self := __init__ "A B" [] None in
  let section := {| top_margin := Inches 1; bottom_margin := Inches 1;
                    left_margin := Inches 4; right_margin := Inches 4 |} in
  let p := {| style := "ATS Normal"; text := "short" |} in
  let p' := {| style := "ATS Normal"; text := "a longer text" |} in
  exists pages pages',
    _estimate_page_count self
      {| sections := [section]; styles := [];
         paragraphs := [] ++ p :: [] |} = Ok pages /\
    _estimate_page_count self
      {| sections := [section]; styles := [];
         paragraphs := [] ++ p' :: [] |} = Ok pages' /\
    pages <= pages'.
Proof.
  cbv zeta.
  apply (page_estimate_monotone_in_text_length (__init__ "A B" [] None)).
  - repeat split; unfold Qle; simpl; lia.
  - intros H. discriminate H.
  - reflexivity.
  - simpl. lia.
Defined.

(** ** Invariants of the size profile *)

Lemma max_floor (a b : Q) : a <= Py.max a b.
Proof. apply Q.le_max_l. Qed.

Lemma max_ceiling (a b c : Q) : a <= c -> b <= c -> Py.max a b <= c.
Proof. apply Q.max_lub. Qed.

(** No method assigns the constraints. *)
Lemma reachable_constraints (self : ResumeGenerator) :
  reachable self -> constraints_ok self.
Proof.
  induction 1; try assumption.
  - repeat split.
  - unfold size_tier.
    destruct (Py.gt content_volume 1800); [assumption|].
    destruct (Py.gt content_volume 1500); [assumption|].
    destruct (Py.gt content_volume 1200); [assumption|].
    destruct (Py.gt content_volume 900); assumption.
Qed.

Lemma size_tier_margin (self : ResumeGenerator) (v : Q) :
  constraints_ok self ->
  0.5 <= margin_size (size_tier self v) /\ margin_size (size_tier self v) <= 1.2.
Proof.
  intros Hc.
  change (margin_size (size_tier self v))
    with (margin (size_profile (size_tier self v))).
  destruct (size_tier_cases self v Hc)
    as [(_ & E) | [(_ & _ & E) | [(_ & _ & E) | [(_ & _ & E) | (_ & E)]]]];
    rewrite E; simpl; split; unfold Qle; simpl; lia.
Qed.

Lemma size_tier_well_sized (self : ResumeGenerator) (v : Q) :
  constraints_ok self -> well_sized (size_tier self v).
Proof.
  intros Hc.
  assert (constraints_ok (size_tier self v)) as Hc'.
  { unfold size_tier.
    destruct (Py.gt v 1800); [assumption|].
    destruct (Py.gt v 1500); [assumption|].
    destruct (Py.gt v 1200); [assumption|].
    destruct (Py.gt v 900); assumption. }
  split; [assumption|].
  destruct (size_tier_margin self v Hc) as [Hlo Hhi].
  destruct Hc' as (_ & _ & Hmin & Hmax).
  unfold margin_in_bounds. rewrite Hmin, Hmax. split; lra.
Qed.

Lemma shrink_sizes_well_sized (self : ResumeGenerator) :
  well_sized self -> well_sized (shrink_sizes self).
Proof.
  intros [Hc [Hlo Hhi]]. split; [assumption|].
  destruct Hc as (_ & _ & Hmin & Hmax).
  unfold margin_in_bounds, shrink_sizes. cbn [min_margin max_margin margin_size set_sizes].
  rewrite Hmin, Hmax in *. split.
  - apply max_floor.
  - apply max_ceiling; lra.
Qed.

Lemma init_sizes_invariant n c s : sizes_invariant (__init__ n c s).
Proof. unfold sizes_invariant. simpl. repeat split; unfold Qle; simpl; lia. Qed.

Lemma size_tier_sizes_invariant (self : ResumeGenerator) (v : Q) :
  constraints_ok self -> sizes_invariant (size_tier self v).
Proof.
  intros Hc. unfold sizes_invariant.
  change (normal_font_size (size_tier self v))
    with (body_size (size_profile (size_tier self v))).
  change (heading_font_size (size_tier self v))
    with (heading_size (size_profile (size_tier self v))).
  change (name_font_size (size_tier self v))
    with (name_size (size_profile (size_tier self v))).
  change (margin_size (size_tier self v))
    with (margin (size_profile (size_tier self v))).
  destruct (size_tier_cases self v Hc)
    as [(_ & E) | [(_ & _ & E) | [(_ & _ & E) | [(_ & _ & E) | (_ & E)]]]];
    rewrite E; simpl; repeat split; unfold Qle; simpl; lia.
Qed.

Lemma shrink_sizes_invariant (self : ResumeGenerator) :
  constraints_ok self -> sizes_invariant self -> sizes_invariant (shrink_sizes self).
Proof.
  intros (Hmin & Hmax & Hmargin & _) (Hb & Hh1 & Hh2 & Hn1 & Hn2 & Hhn & Hm1 & Hm2).
  unfold sizes_invariant, shrink_sizes.
  cbn [normal_font_size heading_font_size name_font_size margin_size set_sizes].
  rewrite Hmin, Hmax, Hmargin.
  assert (12 + 1 == 13) as H13 by reflexivity.
  pose proof (max_floor 14 (name_font_size self * 0.95)).
  pose proof (max_floor (12 + 1) (heading_font_size self * 0.95)).
  pose proof (max_floor 0.5 (margin_size self * 0.9)).
  repeat split; try lra; apply max_ceiling; lra.
Qed.

(** A shrink step keeps name >= heading >= body + 1. *)
Lemma shrink_sizes_ordered (self : ResumeGenerator) :
  constraints_ok self -> sizes_ordered self -> sizes_ordered (shrink_sizes self).
Proof.
  intros (Hmin & Hmax & _) [Hhn _].
  unfold sizes_ordered, shrink_sizes.
  cbn [normal_font_size heading_font_size name_font_size set_sizes].
  rewrite Hmin, Hmax.
  pose proof (max_floor 14 (name_font_size self * 0.95)).
  pose proof (Q.le_max_r 14 (name_font_size self * 0.95)).
  split.
  - apply max_ceiling; unfold Py.max in *; lra.
  - apply max_floor.
Qed.

Lemma sizes_invariant_ordered (self : ResumeGenerator) :
  sizes_invariant self -> sizes_ordered self.
Proof.
  intros (Hb & Hh1 & _ & _ & _ & Hhn & _). unfold sizes_ordered.
  rewrite Hb. split; assumption.
Qed.

(** The sizes of a reachable generator. *)
Lemma reachable_sizes (self : ResumeGenerator) :
  reachable self -> sizes_invariant self.
Proof.
  induction 1 as [ n c s | | | | | | | self v Hr IH | self Hr IH | ];
    try assumption.
  - apply init_sizes_invariant.
  - apply size_tier_sizes_invariant, reachable_constraints, Hr.
  - apply shrink_sizes_invariant; [apply reachable_constraints, Hr | exact IH].
Qed.

Lemma sizes_invariant_well_sized (self : ResumeGenerator) :
  constraints_ok self -> sizes_invariant self -> well_sized self.
Proof.
  intros Hc (_ & _ & _ & _ & _ & _ & Hlo & Hhi).
  split; [assumption|].
  destruct Hc as (_ & _ & Hmin & Hmax).
  unfold margin_in_bounds. rewrite Hmin, Hmax. split; lra.
Qed.

Lemma reachable_well_sized (self : ResumeGenerator) :
  reachable self -> well_sized self.
Proof.
  intros Hr. pose proof (reachable_constraints self Hr) as Hc.
  split; [assumption|].
  destruct Hc as (_ & _ & Hmin & Hmax).
  destruct (reachable_sizes self Hr) as (_ & _ & _ & _ & _ & _ & Hlo & Hhi).
  unfold margin_in_bounds. rewrite Hmin, Hmax. split; lra.
Qed.

(** C6: the body font size never drops below 12pt during a generation pass:
    in every reachable state of the generator (after initialisation, after
    tier selection for any volume, after every shrink attempt) it is at
    least 12; in particular tier selection for any volume and a further
    shrink step leave it at least 12. *)
Theorem body_font_never_below_12 (self : ResumeGenerator) :
  reachable self ->
  12 <= normal_font_size self /\
  (forall content_volume, 12 <= normal_font_size (size_tier self content_volume)) /\
  12 <= normal_font_size (shrink_sizes self).
Proof.
  intros Hr.
  assert (forall g, reachable g -> 12 <= normal_font_size g) as Hfloor.
  { intros g Hg. destruct (reachable_sizes g Hg) as (-> & _). lra. }
  split; [|split].
  - apply Hfloor, Hr.
  - intros v. apply Hfloor, reach_tier, Hr.
  - apply Hfloor, reach_shrink, Hr.
Qed.

Lemma body_font_never_below_12_witness :
  let self := shrink_sizes (size_tier (__init__ "A B" [] None) 2000) in
  reachable self /\ 12 <= normal_font_size self.
Proof.
  cbv zeta.
  assert (reachable (shrink_sizes (size_tier (__init__ "A B" [] None) 2000))) as Hr
    by (apply reach_shrink, reach_tier, reach_init).
  split; [exact Hr|].
  exact (proj1 (body_font_never_below_12 _ Hr)).
Defined.

(** C10: the ordering name >= heading >= body + 1 is an invariant of the
    size profile: it holds after initialisation (16/14/12), in every
    reachable state of the generator, after tier selection for every volume,
    and every shrink step preserves it; the name size stays at least 14 and
    the heading size between 13 and 14. *)
Theorem font_size_ordering (self : ResumeGenerator) :
  reachable self ->
  (forall n c s,
     name_font_size (__init__ n c s) = 16 /\
     heading_font_size (__init__ n c s) = 14 /\
     normal_font_size (__init__ n c s) = 12) /\
  sizes_ordered self /\
  (forall content_volume, sizes_ordered (size_tier self content_volume)) /\
  sizes_ordered (shrink_sizes self) /\
  (forall g, constraints_ok g -> sizes_ordered g -> sizes_ordered (shrink_sizes g)) /\
  14 <= name_font_size self /\
  13 <= heading_font_size self /\ heading_font_size self <= 14.
Proof.
  intros Hr.
  assert (forall g, reachable g -> sizes_ordered g) as Hord
    by (intros g Hg; apply sizes_invariant_ordered, reachable_sizes, Hg).
  destruct (reachable_sizes self Hr) as (_ & Hh1 & Hh2 & Hn1 & _).
  split; [intros; repeat split|].
  split; [apply Hord, Hr|].
  split; [intros v; apply Hord, reach_tier, Hr|].
  split; [apply Hord, reach_shrink, Hr|].
  split; [exact shrink_sizes_ordered|].
  repeat split; assumption.
Qed.

Lemma font_size_ordering_witness :
  let self := shrink_sizes (size_tier (__init__ "A B" [] None) 1000) in
  reachable self /\ sizes_ordered self.
Proof.
  cbv zeta.
  assert (reachable (shrink_sizes (size_tier (__init__ "A B" [] None) 1000))) as Hr
    by (apply reach_shrink, reach_tier, reach_init).
  split; [exact Hr|].
  exact (proj1 (proj2 (font_size_ordering _ Hr))).
Defined.

(** ** The fitting loop *)

Lemma sizing_attempts_app (l1 l2 : list Event) :
  sizing_attempts (l1 ++ l2) = (sizing_attempts l1 + sizing_attempts l2)%nat.
Proof.
  induction l1 as [|e l1 IH]; [reflexivity|].
  destruct e as [m|d [|f]|p]; simpl; rewrite IH; reflexivity.
Qed.

Lemma shrink_attempts_app (l1 l2 : list Event) :
  shrink_attempts (l1 ++ l2) = (shrink_attempts l1 + shrink_attempts l2)%nat.
Proof.
  induction l1 as [|e l1 IH]; [reflexivity|].
  destruct e as [[]|d q|p]; simpl; rewrite IH; reflexivity.
Qed.

Lemma sizes_invariant_printed (self : ResumeGenerator) :
  sizes_invariant self ->
  normal_font_size self = 12 /\
  heading_font_size self <= name_font_size self /\
  normal_font_size self + 1 <= heading_font_size self.
Proof.
  intros Hs. destruct (sizes_invariant_ordered self Hs) as [Hhn Hbh].
  destruct Hs as (Hb & _). split; [exact Hb|]. split; assumption.
Qed.

(** Split a conjunction into its stated parts, without unfolding them. *)
Ltac split_all := repeat match goal with |- _ /\ _ => split end.

Section LayoutFitterProofs.

Variable rendered_sections : ResumeGenerator -> list Paragraph.

Lemma relayout_doc (self : ResumeGenerator) :
  doc (relayout rendered_sections self)
  = laid_out self (rendered_sections (_setup_document (set_doc self new_Document))).
Proof. reflexivity. Qed.

Lemma relayout_reachable (self : ResumeGenerator) :
  reachable self -> reachable (relayout rendered_sections self).
Proof.
  intros H. unfold relayout, _add_sections, _setup_document, _create_styles.
  repeat apply reach_doc. assumption.
Qed.

(** A trial layout of a well-sized generator can be measured. *)
Lemma relayout_measured (self : ResumeGenerator) :
  well_sized self ->
  exists pages,
    _estimate_page_count (relayout rendered_sections self)
      (doc (relayout rendered_sections self)) = Ok pages /\
    1 <= pages.
Proof.
  intros [Hc Hm]. rewrite relayout_doc.
  destruct (laid_out_page_estimate self
              (rendered_sections (_setup_document (set_doc self new_Document))) Hc Hm)
    as (s & pages & _ & Hrun & _ & Hge & _).
  exists pages. split; [exact Hrun | exact Hge].
Qed.

(** The loop leaves when its condition fails. *)
Lemma shrink_loop_exit (fuel : nat) (max_attempts : Z) (page_count : Q)
    (attempts : Z) (st : State) :
  Py.gt page_count 1 && (attempts <? max_attempts)%Z = false ->
  shrink_loop rendered_sections fuel max_attempts page_count attempts st
  = Ok ((page_count, attempts), st).
Proof.
  intros H. destruct fuel; cbn [shrink_loop]; rewrite H; reflexivity.
Qed.

(** One iteration: shrink, lay out and measure again, report, and go on. *)
Lemma shrink_loop_step (fuel : nat) (max_attempts : Z) (page_count : Q)
    (attempts : Z) (st : State) :
  Py.gt page_count 1 && (attempts <? max_attempts)%Z = true ->
  shrink_loop rendered_sections (S fuel) max_attempts page_count attempts st
  = match _estimate_page_count (relayout rendered_sections (shrink_sizes (this st)))
            (doc (relayout rendered_sections (shrink_sizes (this st)))) with
    | Ok page_count' =>
        shrink_loop rendered_sections fuel max_attempts page_count' (attempts + 1)
          {| this := relayout rendered_sections (shrink_sizes (this st));
             output :=
               output st
               ++ attempt_log (relayout rendered_sections (shrink_sizes (this st)))
                    (attempts + 1) page_count' |}
    | Raise e => Raise e
    | OutOfFuel => OutOfFuel
    end.
Proof.
  intros H. cbn [shrink_loop]. rewrite H.
  unfold bind, update, get_self, emit, print, lift. cbn [this output].
  change (_add_sections rendered_sections
            (_setup_document (set_doc (shrink_sizes (this st)) new_Document)))
    with (relayout rendered_sections (shrink_sizes (this st))).
  destruct (_estimate_page_count _ _); try reflexivity.
  unfold emit. cbn [this output].
  unfold attempt_log. rewrite <- !app_assoc. reflexivity.
Qed.

Lemma loop_condition_false (page_count : Q) (attempts : Z) :
  (attempts <= 3)%Z ->
  Py.gt page_count 1 && (attempts <? 3)%Z = false ->
  1 < page_count -> attempts = 3%Z.
Proof.
  intros Hle Hcond Hgt. apply andb_false_iff in Hcond.
  destruct Hcond as [Hc|Hc].
  - apply gt_false in Hc. lra.
  - apply Z.ltb_ge in Hc. lia.
Qed.

(** The loop from [attempts] on: it returns within [3 - attempts]
    iterations, each one a sizing attempt on a well-sized trial layout,
    and leaves with the estimate of the layout it keeps. *)
Lemma shrink_loop_run (fuel : nat) :
  forall (page_count : Q) (attempts : Z) (st : State),
    (0 <= attempts <= 3)%Z ->
    (Z.to_nat (3 - attempts) <= fuel)%nat ->
    constraints_ok (this st) ->
    sizes_invariant (this st) ->
    _estimate_page_count (this st) (doc (this st)) = Ok page_count ->
    exists page_count' attempts' st' new,
      shrink_loop rendered_sections fuel 3 page_count attempts st
      = Ok ((page_count', attempts'), st') /\
      output st' = output st ++ new /\
      (attempts <= attempts' <= 3)%Z /\
      sizing_attempts new = Z.to_nat (attempts' - attempts) /\
      shrink_attempts new = Z.to_nat (attempts' - attempts) /\
      (1 < page_count' -> attempts' = 3%Z) /\
      constraints_ok (this st') /\
      sizes_invariant (this st') /\
      Forall printed_sizes_ok new /\
      _estimate_page_count (this st') (doc (this st')) = Ok page_count' /\
      ~ In (Print OverflowWarning) new /\
      (forall d f, ~ In (Save d (output_file f)) new) /\
      (reachable (this st) -> reachable (this st')).
Proof.
  induction fuel as [|fuel IH]; intros page_count attempts st Hatt Hfuel Hc Hs Hpc;
    destruct (Py.gt page_count 1 && (attempts <? 3)%Z) eqn:Hcond.
  - apply andb_true_iff in Hcond. destruct Hcond as [_ Hlt].
    apply Z.ltb_lt in Hlt. lia.
  - exists page_count, attempts, st, [].
    rewrite (shrink_loop_exit _ _ _ _ _ Hcond), app_nil_r, Z.sub_diag.
    split_all; try assumption; try reflexivity; try lia;
      try (intros; intros []); try (intros; assumption);
      try apply (loop_condition_false _ _ (proj2 Hatt) Hcond);
      try apply Forall_nil.
  - rewrite (shrink_loop_step _ _ _ _ _ Hcond).
    apply andb_true_iff in Hcond. destruct Hcond as [_ Hlt].
    apply Z.ltb_lt in Hlt.
    pose proof (shrink_sizes_invariant _ Hc Hs) as Hs'.
    assert (well_sized (shrink_sizes (this st))) as Hws
      by (apply shrink_sizes_well_sized, sizes_invariant_well_sized; assumption).
    destruct (relayout_measured _ Hws) as (pages & Hrun & _).
    rewrite Hrun.
    set (self' := relayout rendered_sections (shrink_sizes (this st))) in *.
    destruct (IH pages (attempts + 1)%Z
                {| this := self';
                   output := output st ++ attempt_log self' (attempts + 1) pages |})
      as (pc' & att' & st' & new & Hloop & Hout & Hrange & Hsz & Hsh & Hexh
          & Hc'' & Hs'' & Hprinted & Hpc' & Hwarn & Hsave & Hreach);
      [lia | lia | exact Hc | exact Hs' | exact Hrun |].
    exists pc', att', st', (attempt_log self' (attempts + 1) pages ++ new).
    cbn [this output] in *.
    split; [exact Hloop|].
    split; [rewrite Hout, app_assoc; reflexivity|].
    split; [lia|].
    split; [rewrite sizing_attempts_app, Hsz; cbn [attempt_log sizing_attempts]; lia|].
    split; [rewrite shrink_attempts_app, Hsh; cbn [attempt_log shrink_attempts]; lia|].
    split; [exact Hexh|].
    split; [exact Hc''|].
    split; [exact Hs''|].
    split.
    { apply Forall_app. split; [|exact Hprinted].
      unfold attempt_log.
      apply Forall_cons; [exact I|]. apply Forall_cons; [exact I|].
      apply Forall_cons; [exact (sizes_invariant_printed _ Hs')|].
      apply Forall_cons; [exact I|]. apply Forall_nil. }
    split; [exact Hpc'|].
    split; [|split].
    + intros Hin. apply in_app_or in Hin. destruct Hin as [Hin|Hin].
      * cbn [attempt_log In] in Hin.
        destruct Hin as [H|[H|[H|[H|[]]]]]; discriminate H.
      * exact (Hwarn Hin).
    + intros d f Hin. apply in_app_or in Hin. destruct Hin as [Hin|Hin].
      * cbn [attempt_log In] in Hin.
        destruct Hin as [H|[H|[H|[H|[]]]]]; discriminate H.
      * exact (Hsave d f Hin).
    + intros Hr. apply Hreach. apply relayout_reachable, reach_shrink, Hr.
  - exists page_count, attempts, st, [].
    rewrite (shrink_loop_exit _ _ _ _ _ Hcond), app_nil_r, Z.sub_diag.
    split_all; try assumption; try reflexivity; try lia;
      try (intros; intros []); try (intros; assumption);
      try apply (loop_condition_false _ _ (proj2 Hatt) Hcond);
      try apply Forall_nil.
Qed.

(** More fuel does not change a result. *)
Lemma shrink_loop_fuel (fuel : nat) :
  forall (max_attempts : Z) (page_count : Q) (attempts : Z) (st : State) r,
    shrink_loop rendered_sections fuel max_attempts page_count attempts st = Ok r ->
    forall fuel', (fuel <= fuel')%nat ->
    shrink_loop rendered_sections fuel' max_attempts page_count attempts st = Ok r.
Proof.
  induction fuel as [|fuel IH]; intros max_attempts page_count attempts st r Hrun fuel' Hle;
    destruct (Py.gt page_count 1 && (attempts <? max_attempts)%Z) eqn:Hcond.
  - cbn [shrink_loop] in Hrun. rewrite Hcond in Hrun. discriminate Hrun.
  - rewrite (shrink_loop_exit _ _ _ _ _ Hcond) in Hrun.
    rewrite (shrink_loop_exit _ _ _ _ _ Hcond). assumption.
  - destruct fuel' as [|fuel']; [lia|].
    rewrite (shrink_loop_step _ _ _ _ _ Hcond) in Hrun.
    rewrite (shrink_loop_step _ _ _ _ _ Hcond).
    destruct (_estimate_page_count _ _); try discriminate Hrun.
    apply (IH _ _ _ _ _ Hrun). lia.
  - rewrite (shrink_loop_exit _ _ _ _ _ Hcond) in Hrun.
    rewrite (shrink_loop_exit _ _ _ _ _ Hcond). assumption.
Qed.

(** [_check_and_adjust_for_page_fit] on a well-sized, measurable layout:
    it returns, having saved the layout it ends with, after one sizing
    attempt per loop iteration and one before the loop. *)
Lemma check_and_adjust_run (fuel : nat) (output_filename : string) (st : State)
    (page_count : Q) :
  (3 <= fuel)%nat ->
  constraints_ok (this st) ->
  sizes_invariant (this st) ->
  _estimate_page_count (this st) (doc (this st)) = Ok page_count ->
  exists st' events pages,
    _check_and_adjust_for_page_fit rendered_sections fuel output_filename st
    = Ok (tt, st') /\
    _estimate_page_count (this st') (doc (this st')) = Ok pages /\
    output st'
    = output st ++ events
      ++ (if Py.gt pages 1 then [Print OverflowWarning] else [])
      ++ [Unlink temp_file; Save (doc (this st')) (output_file output_filename)] /\
    sizing_attempts events = S (shrink_attempts events) /\
    (shrink_attempts events <= 3)%nat /\
    (1 < pages -> shrink_attempts events = 3%nat) /\
    ~ In (Print OverflowWarning) events /\
    sizes_invariant (this st') /\
    Forall printed_sizes_ok events /\
    (reachable (this st) -> reachable (this st')).
Proof.
  intros Hfuel Hc Hs Hpc.
  destruct (shrink_loop_run fuel page_count 0
              {| this := this st;
                 output := output st ++ [Save (doc (this st)) temp_file] |})
    as (pc' & att' & st' & new & Hloop & Hout & Hrange & Hsz & Hsh & Hexh
        & _ & Hs' & Hprinted & Hpc' & Hwarn & _ & Hreach);
    [lia | simpl; lia | exact Hc | exact Hs | exact Hpc |].
  cbn [this output] in *.
  unfold _check_and_adjust_for_page_fit, bind, get_self, emit, lift.
  cbn [this output]. rewrite Hpc, Hloop. cbn [fst].
  exists {| this := this st';
            output := (output st ++ [Save (doc (this st)) temp_file]) ++ new
              ++ (if Py.gt pc' 1 then [Print OverflowWarning] else [])
              ++ [Unlink temp_file;
                  Save (doc (this st')) (output_file output_filename)] |},
    (Save (doc (this st)) temp_file :: new), pc'.
  cbn [this output].
  split.
  { destruct (Py.gt pc' 1); unfold print, emit, ret; cbn [this output];
      rewrite Hout, <- !app_assoc; reflexivity. }
  split; [exact Hpc'|].
  split; [rewrite <- !app_assoc; reflexivity|].
  cbn [sizing_attempts shrink_attempts]. rewrite Hsz, Hsh.
  split; [reflexivity|].
  split; [lia|].
  split; [intros Hgt; rewrite (Hexh Hgt); reflexivity|].
  split; [intros [H|H]; [discriminate H | exact (Hwarn H)]|].
  split; [exact Hs'|].
  split; [|exact Hreach].
  constructor; [exact I | exact Hprinted].
Qed.

(** [generate_resume] from any generator whose constraints are in place. *)
Lemma generate_resume_run (fuel : nat) (output_filename : option string)
    (st : State) :
  (3 <= fuel)%nat ->
  constraints_ok (this st) ->
  exists filename st' events pages,
    generate_resume rendered_sections fuel output_filename st
    = Ok (filename, st') /\
    _estimate_page_count (this st') (doc (this st')) = Ok pages /\
    output st'
    = output st ++ events
      ++ (if Py.gt pages 1 then [Print OverflowWarning] else [])
      ++ [Unlink temp_file; Save (doc (this st')) (output_file filename);
          Print (SuccessfullyGenerated filename)] /\
    sizing_attempts events = S (shrink_attempts events) /\
    (shrink_attempts events <= 3)%nat /\
    (1 < pages -> shrink_attempts events = 3%nat) /\
    ~ In (Print OverflowWarning) events /\
    sizes_invariant (this st') /\
    Forall printed_sizes_ok events /\
    (reachable (this st) -> reachable (this st')).
Proof.
  intros Hfuel Hc.
  set (v := _estimate_content_volume (this st)).
  pose proof (size_tier_sizes_invariant (this st) v Hc) as Hs.
  assert (constraints_ok (size_tier (this st) v)) as Hc'
    by (apply (size_tier_well_sized (this st) v Hc)).
  pose proof (size_tier_well_sized (this st) v Hc) as Hws.
  destruct (relayout_measured _ Hws) as (pc & Hpc & _).
  set (filename :=
         if Py.truthy output_filename
         then match output_filename with Some f => f | None => EmptyString end
         else (Py.replace_space (name (this st)) ++ "_Resume.docx")%string).
  set (self1 := relayout rendered_sections (size_tier (this st) v)) in *.
  set (prints := [Print (ContentVolume v);
                  Print (AdjustedFonts (name_font_size (size_tier (this st) v))
                           (heading_font_size (size_tier (this st) v))
                           (normal_font_size (size_tier (this st) v)));
                  Print (AdjustedMargins (margin_size (size_tier (this st) v)))]).
  destruct (check_and_adjust_run fuel filename
              {| this := self1; output := output st ++ prints |} pc Hfuel)
    as (st' & events & pages & Hrun & Hpages & Hout & Hsz & Hsh & Hexh & Hwarn
        & Hs' & Hprinted & Hreach);
    [exact Hc' | exact Hs | exact Hpc |].
  cbn [this output] in *.
  exists filename,
    {| this := this st';
       output := output st' ++ [Print (SuccessfullyGenerated filename)] |},
    (prints ++ events), pages.
  cbn [this output].
  split.
  { unfold generate_resume, _adjust_font_and_margins, bind, get_self, update,
      print, emit, ret.
    cbn [this output].
    fold v. fold filename.
    change (_add_sections rendered_sections
              (_setup_document (set_doc (size_tier (this st) v) new_Document)))
      with self1.
    replace (((output st ++ [Print (ContentVolume v)])
              ++ [Print (AdjustedFonts (name_font_size (size_tier (this st) v))
                        (heading_font_size (size_tier (this st) v))
                        (normal_font_size (size_tier (this st) v)))])
             ++ [Print (AdjustedMargins (margin_size (size_tier (this st) v)))])
      with (output st ++ prints)
      by (unfold prints; rewrite <- !app_assoc; reflexivity).
    rewrite Hrun. reflexivity. }
  split; [exact Hpages|].
  split.
  { rewrite Hout, <- !app_assoc. cbn [app].
    destruct (Py.gt pages 1); cbn [app]; reflexivity. }
  rewrite sizing_attempts_app, shrink_attempts_app.
  change (sizing_attempts prints) with 0%nat.
  change (shrink_attempts prints) with 0%nat.
  cbn [Nat.add].
  split; [exact Hsz|].
  split; [exact Hsh|].
  split; [exact Hexh|].
  split.
  { intros Hin. apply in_app_or in Hin. destruct Hin as [Hin|Hin].
    - cbn [prints In] in Hin. destruct Hin as [H|[H|[H|[]]]]; discriminate H.
    - exact (Hwarn Hin). }
  split; [exact Hs'|].
  split.
  { apply Forall_app. split; [|exact Hprinted].
    unfold prints.
    apply Forall_cons; [exact I|].
    apply Forall_cons; [exact (sizes_invariant_printed _ Hs)|].
    apply Forall_cons; [exact I|]. apply Forall_nil. }
  intros Hr. apply Hreach. unfold self1.
  apply relayout_reachable, reach_tier, Hr.
Qed.

(** More fuel does not change the result of [generate_resume]. *)
Lemma generate_resume_fuel (fuel fuel' : nat) (output_filename : option string)
    (st : State) r :
  generate_resume rendered_sections fuel output_filename st = Ok r ->
  (fuel <= fuel')%nat ->
  generate_resume rendered_sections fuel' output_filename st = Ok r.
Proof.
  unfold generate_resume, _adjust_font_and_margins, _check_and_adjust_for_page_fit,
    bind, get_self, update, print, emit, lift.
  cbn [this output]. intros Hrun Hle.
  destruct (_estimate_page_count _ _); try discriminate Hrun.
  destruct (shrink_loop rendered_sections fuel _ _ _ _) as [[r0 st0]| |] eqn:Hloop;
    try discriminate Hrun.
  rewrite (shrink_loop_fuel _ _ _ _ _ _ Hloop fuel' Hle). exact Hrun.
Qed.

(** C4: on every shrink iteration (the loop condition holds and the loop
    goes round once more), the size profile of the layout that is measured
    next is: name size max(14, name * 0.95), heading size
    max(13, heading * 0.95), body size 12, margin max(0.5, margin * 0.9);
    the loop continues from that layout, and measuring it succeeds when the
    margin was within bounds. *)
Theorem shrink_iteration_profile (fuel : nat) (max_attempts : Z)
    (page_count : Q) (attempts : Z) (st : State) :
  constraints_ok (this st) ->
  Py.gt page_count 1 && (attempts <? max_attempts)%Z = true ->
  let self' := relayout rendered_sections (shrink_sizes (this st)) in
  size_profile self'
  = {| name_size := Qmax 14 (name_font_size (this st) * 0.95);
       heading_size := Qmax 13 (heading_font_size (this st) * 0.95);
       body_size := 12;
       margin := Qmax 0.5 (margin_size (this st) * 0.9) |} /\
  shrink_loop rendered_sections (S fuel) max_attempts page_count attempts st
  = match _estimate_page_count self' (doc self') with
    | Ok page_count' =>
        shrink_loop rendered_sections fuel max_attempts page_count' (attempts + 1)
          {| this := self';
             output := output st ++ attempt_log self' (attempts + 1) page_count' |}
    | Raise e => Raise e
    | OutOfFuel => OutOfFuel
    end /\
  (margin_in_bounds (this st) ->
   exists page_count', _estimate_page_count self' (doc self') = Ok page_count').
Proof.
  intros Hc Hcond self'. split; [|split].
  - destruct Hc as (Hmin & Hmax & Hmargin & _).
    unfold self', size_profile, shrink_sizes, Py.max.
    cbn [relayout _add_sections _setup_document _create_styles set_doc set_sizes
         name_font_size heading_font_size normal_font_size margin_size].
    rewrite Hmin, Hmax, Hmargin. reflexivity.
  - apply shrink_loop_step, Hcond.
  - intros Hm.
    destruct (relayout_measured (shrink_sizes (this st))) as (pc & Hpc & _).
    + apply shrink_sizes_well_sized. split; assumption.
    + exists pc. exact Hpc.
Qed.

(** C5: for every input, the fitting loop performs at most 4 sizing
    attempts (the initial one and at most 3 shrink iterations) and then
    terminates: with a budget of 3 iterations or more [generate_resume]
    returns, the budget does not affect the result, and its output holds
    between 1 and 4 sizing attempts, of which all but the first are shrink
    iterations. *)
Theorem fitting_loop_bounded (fuel : nat) (output_filename : option string)
    (st : State) :
  (3 <= fuel)%nat ->
  constraints_ok (this st) ->
  exists filename st' new,
    generate_resume rendered_sections fuel output_filename st = Ok (filename, st') /\
    generate_resume rendered_sections 3 output_filename st = Ok (filename, st') /\
    output st' = output st ++ new /\
    (1 <= sizing_attempts new <= 4)%nat /\
    (shrink_attempts new <= 3)%nat /\
    sizing_attempts new = S (shrink_attempts new).
Proof.
  intros Hfuel Hc.
  destruct (generate_resume_run 3 output_filename st (le_n 3) Hc)
    as (filename & st' & events & pages & Hrun & _ & Hout & Hsz & Hsh & _).
  exists filename, st',
    (events ++ (if Py.gt pages 1 then [Print OverflowWarning] else [])
     ++ [Unlink temp_file; Save (doc (this st')) (output_file filename);
         Print (SuccessfullyGenerated filename)]).
  split; [exact (generate_resume_fuel 3 fuel _ _ _ Hrun Hfuel)|].
  split; [exact Hrun|].
  split; [exact Hout|].
  rewrite !sizing_attempts_app, !shrink_attempts_app.
  destruct (Py.gt pages 1); cbn [sizing_attempts shrink_attempts]; lia.
Qed.

(** C7: if the page estimate is still greater than 1 after the 3 shrink
    attempts, generation still succeeds: [generate_resume] returns the
    file name, the output ends with the overflow warning (printed exactly
    when the final estimate exceeds 1, and nowhere before), the removal of
    the temporary file, the current layout saved under the output name and
    the success message; a final estimate above 1 means all 3 shrink
    attempts were made. *)
Theorem overflow_is_not_fatal (fuel : nat) (output_filename : option string)
    (st : State) :
  (3 <= fuel)%nat ->
  constraints_ok (this st) ->
  exists filename st' events pages,
    generate_resume rendered_sections fuel output_filename st = Ok (filename, st') /\
    _estimate_page_count (this st') (doc (this st')) = Ok pages /\
    output st'
    = output st ++ events
      ++ (if Py.gt pages 1 then [Print OverflowWarning] else [])
      ++ [Unlink temp_file; Save (doc (this st')) (output_file filename);
          Print (SuccessfullyGenerated filename)] /\
    ~ In (Print OverflowWarning) events /\
    (1 < pages -> shrink_attempts events = 3%nat).
Proof.
  intros Hfuel Hc.
  destruct (generate_resume_run fuel output_filename st Hfuel Hc)
    as (filename & st' & events & pages & Hrun & Hpages & Hout & _ & _ & Hexh
        & Hwarn & _).
  exists filename, st', events, pages.
  split_all; assumption.
Qed.

(** A generation pass keeps the generator among the reachable states. *)
Lemma generate_resume_reachable (fuel : nat) (output_filename : option string)
    (st : State) :
  (3 <= fuel)%nat ->
  reachable (this st) ->
  exists filename st',
    generate_resume rendered_sections fuel output_filename st = Ok (filename, st') /\
    reachable (this st').
Proof.
  intros Hfuel Hr.
  destruct (generate_resume_run fuel output_filename st Hfuel
              (reachable_constraints _ Hr))
    as (filename & st' & events & pages & Hrun & _ & _ & _ & _ & _ & _ & _ & _
        & Hreach).
  exists filename, st'. split; [exact Hrun | exact (Hreach Hr)].
Qed.

(** During a generation pass every line of sizes that is printed shows a
    body size of 12 and name >= heading >= body + 1, and the pass ends with
    sizes within the invariant. *)
Lemma generate_resume_sizes (fuel : nat) (output_filename : option string)
    (st : State) :
  (3 <= fuel)%nat ->
  constraints_ok (this st) ->
  exists filename st' new,
    generate_resume rendered_sections fuel output_filename st = Ok (filename, st') /\
    output st' = output st ++ new /\
    Forall printed_sizes_ok new /\
    sizes_invariant (this st').
Proof.
  intros Hfuel Hc.
  destruct (generate_resume_run fuel output_filename st Hfuel Hc)
    as (filename & st' & events & pages & Hrun & _ & Hout & _ & _ & _ & _ & Hs
        & Hprinted & _).
  exists filename, st',
    (events ++ (if Py.gt pages 1 then [Print OverflowWarning] else [])
     ++ [Unlink temp_file; Save (doc (this st')) (output_file filename);
         Print (SuccessfullyGenerated filename)]).
  split; [exact Hrun|]. split; [exact Hout|]. split; [|exact Hs].
  apply Forall_app. split; [exact Hprinted|].
  apply Forall_app. split.
  - destruct (Py.gt pages 1); repeat constructor.
  - repeat constructor.
Qed.

End LayoutFitterProofs.

(** ** The theorems at sample inputs *)

Lemma shrink_iteration_profile_witness :
  let st := {| this := size_tier (__init__ "A B" [] None) 1000; output := [] |} in
  constraints_ok (this st) /\
  Py.gt 2 1 && (0 <? 3)%Z = true /\
  size_profile (relayout crowded_sections (shrink_sizes (this st)))
  = {| name_size := Qmax 14 (name_font_size (this st) * 0.95);
       heading_size := Qmax 13 (heading_font_size (this st) * 0.95);
       body_size := 12;
       margin := Qmax 0.5 (margin_size (this st) * 0.9) |}.
Proof.
  cbv zeta.
  assert (constraints_ok (size_tier (__init__ "A B" [] None) 1000)) as Hc
    by (repeat split).
  assert (Py.gt 2 1 && (0 <? 3)%Z = true) as Hcond by reflexivity.
  split; [exact Hc|]. split; [exact Hcond|].
  exact (proj1 (shrink_iteration_profile crowded_sections 2 3 2 0
                  {| this := size_tier (__init__ "A B" [] None) 1000; output := [] |}
                  Hc Hcond)).
Defined.

Lemma fitting_loop_bounded_witness :
  (3 <= 3)%nat /\ constraints_ok (this fresh) /\
  exists filename st' new,
    generate_resume crowded_sections 3 None fresh = Ok (filename, st') /\
    generate_resume crowded_sections 3 None fresh = Ok (filename, st') /\
    output st' = output fresh ++ new /\
    (1 <= sizing_attempts new <= 4)%nat /\
    (shrink_attempts new <= 3)%nat /\
    sizing_attempts new = S (shrink_attempts new).
Proof.
  split; [lia|]. split; [repeat split|].
  apply (fitting_loop_bounded crowded_sections 3 None fresh).
  - lia.
  - repeat split.
Defined.

Lemma overflow_is_not_fatal_witness :
  (3 <= 3)%nat /\ constraints_ok (this fresh) /\
  exists filename st' events pages,
    generate_resume crowded_sections 3 None fresh = Ok (filename, st') /\
    _estimate_page_count (this st') (doc (this st')) = Ok pages /\
    output st'
    = output fresh ++ events
      ++ (if Py.gt pages 1 then [Print OverflowWarning] else [])
      ++ [Unlink temp_file; Save (doc (this st')) (output_file filename);
          Print (SuccessfullyGenerated filename)] /\
    ~ In (Print OverflowWarning) events /\
    (1 < pages -> shrink_attempts events = 3%nat).
Proof.
  split; [lia|]. split; [repeat split|].
  apply (overflow_is_not_fatal crowded_sections 3 None fresh).
  - lia.
  - repeat split.
Defined.

(** A crowded resume: four sizing attempts, then the warning, and the file
    is still written. *)
Example crowded_resume_overflows :
  match generate_resume crowded_sections 3 None fresh with
  | Ok (filename, st') =>
      filename = "A_B_Resume.docx"%string /\
      sizing_attempts (output st') = 4%nat /\
      shrink_attempts (output st') = 3%nat /\
      In (Print OverflowWarning) (output st') /\
      In (Save (doc (this st')) (output_file filename)) (output st') /\
      normal_font_size (this st') = 12
  | _ => False
  end.
Proof.
  vm_compute. split_all; try reflexivity.
  - do 16 right. left. reflexivity.
  - do 18 right. left. reflexivity.
Qed.

(** The same resume needs all three iterations: a budget of two is not
    enough. *)
Example crowded_resume_needs_three_iterations :
  generate_resume crowded_sections 2 None fresh = OutOfFuel.
Proof. vm_compute. reflexivity. Qed.

(** A short resume is accepted at the first attempt, without warning. *)
Example short_resume_fits :
  match generate_resume sample_sections 3 (Some "out.docx"%string) fresh with
  | Ok (filename, st') =>
      filename = "out.docx"%string /\
      sizing_attempts (output st') = 1%nat /\
      shrink_attempts (output st') = 0%nat /\
      ~ In (Print OverflowWarning) (output st') /\
      margin_size (this st') = 1.2
  | _ => False
  end.
Proof.
  vm_compute. split_all; try reflexivity.
  intros H. repeat (destruct H as [H|H]; [discriminate H|]). exact H.
Qed.

(** * Further properties of the generator *)

(** ** Filling in the resume and the content volume *)




Lemma dict_get_set_same {V} (d : list (string * V)) (k : string) (v : V) :
  dict_get (dict_set d k v) k = Some v.
Proof.
  induction d as [|[k' v'] d IH]; cbn [dict_set dict_get].
  - rewrite String.eqb_refl. reflexivity.
  - destruct (String.eqb k' k) eqn:E; cbn [dict_get].
    + rewrite String.eqb_refl. reflexivity.
    + rewrite E. exact IH.
Qed.

Lemma dict_get_set_other {V} (d : list (string * V)) (k k' : string) (v : V) :
  k' <> k -> dict_get (dict_set d k v) k' = dict_get d k'.
Proof.
  intros Hne. induction d as [|[k0 v0] d IH]; cbn [dict_set dict_get].
  - destruct (String.eqb_spec k k'); [congruence | reflexivity].
  - destruct (String.eqb_spec k0 k) as [->|Hk]; cbn [dict_get].
    + destruct (String.eqb_spec k k'); [congruence | reflexivity].
    + rewrite IH. reflexivity.
Qed.

Lemma dict_set_keys {V} (d : list (string * V)) (k : string) (v : V) :
  map fst (dict_set d k v)
  = if existsb (String.eqb k) (map fst d) then map fst d else map fst d ++ [k].
Proof.
  induction d as [|[k0 v0] d IH]; cbn [dict_set map fst existsb app].
  - reflexivity.
  - rewrite (String.eqb_sym k k0).
    destruct (String.eqb_spec k0 k) as [->|Hk]; cbn [map fst orb].
    + reflexivity.
    + rewrite IH. destruct (existsb (String.eqb k) (map fst d)); reflexivity.
Qed.

Lemma dict_set_NoDup {V} (d : list (string * V)) (k : string) (v : V) :
  NoDup (map fst d) -> NoDup (map fst (dict_set d k v)).
Proof.
  intros Hd. rewrite dict_set_keys.
  destruct (existsb (String.eqb k) (map fst d)) eqn:E; [assumption|].
  apply NoDup_app; [assumption | repeat constructor; intros [] |].
  intros x Hx [Heq|[]]. subst x.
  assert (existsb (String.eqb k) (map fst d) = true) as Hex
    by (apply existsb_exists; exists k; split; [assumption | apply String.eqb_refl]).
  congruence.
Qed.

Lemma reachable_skills_unique (self : ResumeGenerator) :
  reachable self -> NoDup (map fst (technical_skills self)).
Proof.
  induction 1 as [ | | self c s Hr IH | | | | | self v Hr IH | | ];
    try assumption.
  - constructor.
  - apply dict_set_NoDup, IH.
  - unfold size_tier.
    destruct (Py.gt v 1800); [assumption|].
    destruct (Py.gt v 1500); [assumption|].
    destruct (Py.gt v 1200); [assumption|].
    destruct (Py.gt v 900); assumption.
Qed.

(** X3: the skills are a dictionary: after [add_technical_skills(c, s)] the
    category [c] maps to [s], every other category keeps its skills, and in
    every reachable generator each category occurs once (a category added
    again keeps its place and only its last skills). *)
Theorem skills_are_a_dictionary (self : ResumeGenerator)
    (category : string) (skills : list string) :
  reachable self ->
  let self' := add_technical_skills self category skills in
  dict_get (technical_skills self') category = Some skills /\
  (forall other, other <> category ->
     dict_get (technical_skills self') other
     = dict_get (technical_skills self) other) /\
  NoDup (map fst (technical_skills self')) /\
  (dict_get (technical_skills self) category <> None ->
   map fst (technical_skills self') = map fst (technical_skills self)).
Proof.
  intros Hr self'. unfold self'.
  cbn [add_technical_skills set_technical_skills technical_skills].
  split; [apply dict_get_set_same|].
  split; [intros other Hne; apply dict_get_set_other, Hne|].
  split; [apply dict_set_NoDup, reachable_skills_unique, Hr|].
  intros Hin. rewrite dict_set_keys.
  destruct (existsb (String.eqb category) (map fst (technical_skills self))) eqn:E;
    [reflexivity|exfalso].
  apply Hin. clear Hin Hr self'.
  induction (technical_skills self) as [|[k0 v0] d IH]; [reflexivity|].
  cbn [map fst existsb] in E. apply orb_false_iff in E. destruct E as [E1 E2].
  cbn [dict_get]. rewrite String.eqb_sym, E1. apply IH, E2.
Qed.

Lemma skills_are_a_dictionary_witness :
  let self :=
    add_technical_skills (__init__ "A B" [] None) "Languages" ["Python"%string] in
  reachable self /\
  dict_get (technical_skills (add_technical_skills self "Languages" ["Rocq"%string]))
    "Languages"
  = Some ["Rocq"%string].
Proof.
  cbv zeta.
  assert (reachable (add_technical_skills (__init__ "A B" [] None) "Languages"
                       ["Python"%string])) as Hr
    by (apply reach_skills, reach_init).
  split; [exact Hr|].
  exact (proj1 (skills_are_a_dictionary _ "Languages" ["Rocq"%string] Hr)).
Defined.










(** ** Shrinking *)

Lemma Qmax_left (a b : Q) : b <= a -> Py.max a b == a.
Proof. apply Q.max_l. Qed.

Lemma Qmax_right (a b : Q) : a <= b -> Py.max a b == b.
Proof. apply Q.max_r. Qed.

(** A shrink step goes down, or stays. *)
Lemma shrink_sizes_descend (self : ResumeGenerator) :
  constraints_ok self -> sizes_invariant self ->
  name_font_size (shrink_sizes self) <= name_font_size self /\
  heading_font_size (shrink_sizes self) <= heading_font_size self /\
  normal_font_size (shrink_sizes self) = normal_font_size self /\
  margin_size (shrink_sizes self) <= margin_size self /\
  (0.5 < margin_size self -> margin_size (shrink_sizes self) < margin_size self).
Proof.
  intros (Hmin & Hmax & Hmargin & _) (Hb & Hh1 & Hh2 & Hn1 & Hn2 & Hhn & Hm1 & Hm2).
  unfold shrink_sizes.
  cbn [normal_font_size heading_font_size name_font_size margin_size set_sizes].
  rewrite Hmin, Hmax, Hmargin, Hb.
  assert (12 + 1 == 13) as H13 by reflexivity.
  split; [apply max_ceiling; lra|].
  split; [apply max_ceiling; lra|].
  split; [reflexivity|].
  split; [apply max_ceiling; lra|].
  intros Hgt. apply Q.max_lub_lt; lra.
Qed.

(** X5: a shrink step never enlarges anything: within the size invariant the
    name size, the heading size and the margin do not grow, the body size
    stays 12, and a margin above 0.5in gets strictly smaller. *)
Theorem shrink_never_enlarges (self : ResumeGenerator) :
  constraints_ok self -> sizes_invariant self ->
  name_font_size (shrink_sizes self) <= name_font_size self /\
  heading_font_size (shrink_sizes self) <= heading_font_size self /\
  normal_font_size (shrink_sizes self) = normal_font_size self /\
  margin_size (shrink_sizes self) <= margin_size self /\
  (0.5 < margin_size self -> margin_size (shrink_sizes self) < margin_size self).
Proof. apply shrink_sizes_descend. Qed.

Lemma shrink_never_enlarges_witness :
  let self := size_tier (__init__ "A B" [] None) 1000 in
  constraints_ok self /\ sizes_invariant self /\
  margin_size (shrink_sizes self) <= margin_size self.
Proof.
  cbv zeta.
  assert (constraints_ok (size_tier (__init__ "A B" [] None) 1000)) as Hc
    by (repeat split).
  assert (sizes_invariant (size_tier (__init__ "A B" [] None) 1000)) as Hs
    by (unfold sizes_invariant; simpl; repeat split; unfold Qle; simpl; lia).
  split; [exact Hc|]. split; [exact Hs|].
  exact (proj1 (proj2 (proj2 (proj2 (shrink_never_enlarges _ Hc Hs))))).
Defined.

(** X6: the floor is a fixed point: once the sizes are 14/13/12 with a 0.5in
    margin, a shrink step leaves them there, so further attempts measure the
    same profile again. *)
Theorem shrink_at_floor_changes_nothing (self : ResumeGenerator) :
  constraints_ok self -> at_floor self -> at_floor (shrink_sizes self).
Proof.
  intros (Hmin & Hmax & Hmargin & _) (Hn & Hh & Hb & Hm).
  unfold at_floor, shrink_sizes.
  cbn [normal_font_size heading_font_size name_font_size margin_size set_sizes].
  rewrite Hmin, Hmax, Hmargin.
  assert (12 + 1 == 13) as H13 by reflexivity.
  split; [apply Qmax_left; lra|].
  split; [rewrite Qmax_left; lra|].
  split; [reflexivity|].
  apply Qmax_left; lra.
Qed.

Lemma shrink_at_floor_changes_nothing_witness :
  let self := size_tier (__init__ "A B" [] None) 2000 in
  constraints_ok self /\ at_floor self /\ at_floor (shrink_sizes self).
Proof.
  cbv zeta.
  assert (constraints_ok (size_tier (__init__ "A B" [] None) 2000)) as Hc
    by (repeat split).
  assert (at_floor (size_tier (__init__ "A B" [] None) 2000)) as Hf
    by (repeat split).
  split; [exact Hc|]. split; [exact Hf|].
  exact (shrink_at_floor_changes_nothing _ Hc Hf).
Defined.


(** ** The page estimate at the edges *)



Lemma measured_height_nonneg (self : ResumeGenerator) (s : Section) (p : Paragraph) :
  nonnegative_sizes self -> 0 <= measured_height self s p.
Proof.
  intros H. apply (measured_height_monotone self s p p H eq_refl). lia.
Qed.

Lemma measured_total_nonneg (self : ResumeGenerator) (s : Section)
    (ps : list Paragraph) :
  nonnegative_sizes self -> 0 <= Qsum (map (measured_height self s) ps).
Proof.
  intros H. apply Qsum_nonneg. intros x Hin.
  apply in_map_iff in Hin. destruct Hin as (q & <- & _).
  apply measured_height_nonneg, H.
Qed.


(** X8: content only adds pages: inserting further paragraphs anywhere in a
    document never lowers its estimate (non-negative font sizes, same
    margins), and a document without paragraphs is estimated at exactly one
    page. *)
Theorem more_paragraphs_never_lower_estimate
    (self : ResumeGenerator) (section : Section) (rest : list Section)
    (sty : list Style) (before extra after : list Paragraph) :
  nonnegative_sizes self ->
  ~ usable_height section == 0 ->
  exists pages pages' empty_pages,
    _estimate_page_count self
      {| sections := section :: rest; styles := sty;
         paragraphs := before ++ after |} = Ok pages /\
    _estimate_page_count self
      {| sections := section :: rest; styles := sty;
         paragraphs := before ++ extra ++ after |} = Ok pages' /\
    pages <= pages' /\
    _estimate_page_count self
      {| sections := section :: rest; styles := sty; paragraphs := [] |}
    = Ok empty_pages /\
    empty_pages == 1.
Proof.
  intros Hsizes Hu.
  destruct (estimate_page_count_sum self section rest sty (before ++ after) Hu)
    as (p & Hp & Heq).
  destruct (estimate_page_count_sum self section rest sty
              (before ++ extra ++ after) Hu) as (p' & Hp' & Heq').
  destruct (estimate_page_count_sum self section rest sty [] Hu)
    as (p0 & Hp0 & Heq0).
  exists p, p', p0.
  split; [exact Hp|]. split; [exact Hp'|]. split.
  - rewrite Heq, Heq'. rewrite !map_app, !Qsum_app.
    pose proof (measured_total_nonneg self section before Hsizes).
    pose proof (measured_total_nonneg self section extra Hsizes).
    pose proof (measured_total_nonneg self section after Hsizes).
    apply pages_monotone; [lra | lra | exact Hu].
  - split; [exact Hp0|]. rewrite Heq0. cbn [map Qsum fold_right].
    apply Q.max_l. unfold Qdiv. rewrite Qmult_0_l. lra.
Qed.

Lemma more_paragraphs_never_lower_estimate_witness :
  let self := __init__ "A B" [] None in
  let section := {| top_margin := Inches 1; bottom_margin := Inches 1;
                    left_margin := Inches 1; right_margin := Inches 1 |} in
  let p := {| style := "ATS Normal"; text := "one line" |} in
  exists pages pages' empty_pages,
    _estimate_page_count self
      {| sections := [section]; styles := []; paragraphs := [p] ++ [] |}
    = Ok pages /\
    _estimate_page_count self
      {| sections := [section]; styles := [];
         paragraphs := [p] ++ repeat p 100 ++ [] |} = Ok pages' /\
    pages <= pages' /\
    _estimate_page_count self
      {| sections := [section]; styles := []; paragraphs := [] |}
    = Ok empty_pages /\
    empty_pages == 1.
Proof.
  cbv zeta.
  apply (more_paragraphs_never_lower_estimate (__init__ "A B" [] None)).
  - repeat split; unfold Qle; simpl; lia.
  - intros H. discriminate H.
Defined.

(** X9: on a page too narrow for a single character (the left and right
    margins leave less than 1/12in, so [chars_per_line] is not positive) the
    estimator skips line wrapping: the estimate depends on the paragraphs'
    styles only, not on their texts. *)
Theorem narrow_page_ignores_text (self : ResumeGenerator) (section : Section)
    (rest : list Section) (sty : list Style) (ps ps' : list Paragraph) :
  (Py.int ((8.5 - inches (left_margin section) - inches (right_margin section)) * 12)
   <= 0)%Z ->
  map style ps = map style ps' ->
  _estimate_page_count self
    {| sections := section :: rest; styles := sty; paragraphs := ps |}
  = _estimate_page_count self
      {| sections := section :: rest; styles := sty; paragraphs := ps' |}.
Proof.
  intros Hnarrow Hstyles.
  assert (forall p,
            measured_height self section p
            = if Py.contains "Heading" (style p) then heading_font_size self * 1.5
              else if Py.contains "Name" (style p) then name_font_size self * 1.5
              else normal_font_size self * 1.2) as Hm.
  { intros p. unfold measured_height. cbv zeta.
    destruct (Z.gtb_spec
                (Py.int ((8.5 - inches (left_margin section)
                          - inches (right_margin section)) * 12)) 0);
      [lia | reflexivity]. }
  assert (forall acc,
            fold_left (fun total p => total + measured_height self section p) ps acc
            = fold_left (fun total p => total + measured_height self section p) ps' acc)
    as Hfold.
  { revert ps' Hstyles. induction ps as [|p ps IH]; intros [|p' ps'] Hst acc;
      try discriminate Hst; [reflexivity|].
    cbn [map] in Hst. injection Hst as Hp Hrest.
    cbn [fold_left]. rewrite (Hm p), (Hm p'), Hp. apply IH, Hrest. }
  unfold _estimate_page_count. cbn [sections paragraphs]. cbv zeta.
  change (fun (total_content_height : Q) (paragraph : Paragraph) =>
            total_content_height + _)
    with (fun total p => total + measured_height self section p).
  rewrite (Hfold 0). reflexivity.
Qed.

Lemma narrow_page_ignores_text_witness :
  let self := __init__ "A B" [] None in
  let section := {| top_margin := Inches 1; bottom_margin := Inches 1;
                    left_margin := Inches 4.25; right_margin := Inches 4.25 |} in
  _estimate_page_count self
    {| sections := [section]; styles := [];
       paragraphs := [ {| style := "ATS Normal"; text := "short" |} ] |}
  = _estimate_page_count self
      {| sections := [section]; styles := [];
         paragraphs := [ {| style := "ATS Normal";
                            text := "a much longer line of text" |} ] |}.
Proof.
  cbv zeta.
  apply (narrow_page_ignores_text (__init__ "A B" [] None)).
  - vm_compute. discriminate.
  - reflexivity.
Defined.

(** ** Smaller sizes, fewer pages *)

Lemma int_monotone (x y : Q) : 0 <= x -> x <= y -> (Py.int x <= Py.int y)%Z.
Proof.
  intros Hx Hxy. rewrite (int_floor x Hx), (int_floor y) by lra.
  apply Qfloor_resp_le, Hxy.
Qed.

(** Read a comparison of rationals as an order fact. *)
Ltac compare_spec H :=
  match type of H with
  | _ = Eq => apply Qeq_alt in H
  | _ = Lt => apply Qlt_alt in H
  | _ = Gt => apply Qgt_alt in H
  end.

Lemma round_monotone (x y : Q) : x <= y -> (Py.round x <= Py.round y)%Z.
Proof.
  intros Hxy. unfold Py.round.
  pose proof (Qfloor_resp_le x y Hxy) as Hf.
  pose proof (Qfloor_le x) as Hx1. pose proof (Qlt_floor x) as Hx2.
  pose proof (Qfloor_le y) as Hy1. pose proof (Qlt_floor y) as Hy2.
  rewrite inject_Z_plus in Hx2, Hy2. change (inject_Z 1) with 1 in *.
  destruct (Z_lt_le_dec (Qfloor x) (Qfloor y)) as [Hlt|Hge].
  - destruct (Qcompare (x - inject_Z (Qfloor x)) 0.5);
      destruct (Qcompare (y - inject_Z (Qfloor y)) 0.5);
      destruct (Z.even (Qfloor x)); destruct (Z.even (Qfloor y)); lia.
  - assert (Qfloor x = Qfloor y) as E by lia. rewrite E in *.
    destruct (Qcompare (x - inject_Z (Qfloor y)) 0.5) eqn:Cx;
      destruct (Qcompare (y - inject_Z (Qfloor y)) 0.5) eqn:Cy;
      compare_spec Cx; compare_spec Cy;
      destruct (Z.even (Qfloor y)); try lia; exfalso; lra.
Qed.

(** The stored margin grows with the margin. *)
Lemma stored_margin_monotone (m m' : Q) :
  0 <= m' -> m' <= m -> (twips (Inches m') <= twips (Inches m))%Z.
Proof.
  intros H0 Hle. unfold twips, Inches. apply round_monotone.
  assert (Py.int (m' * 914400) <= Py.int (m * 914400))%Z as Hi
    by (apply int_monotone; lra).
  rewrite Zle_Qle in Hi.
  unfold Qdiv. apply Qmult_le_compat_r; [exact Hi | discriminate].
Qed.

Lemma Qsum_le {A} (f g : A -> Q) (l : list A) :
  (forall x, f x <= g x) -> Qsum (map f l) <= Qsum (map g l).
Proof.
  intros H. unfold Qsum. induction l as [|x l IH]; cbn [map fold_right].
  - lra.
  - pose proof (H x). lra.
Qed.

Lemma quotient_le (a a' u u' : Q) :
  0 <= a' -> a' <= a -> 0 < u -> u <= u' -> a' / u' <= a / u.
Proof.
  intros Ha' Ha Hu Hu'.
  apply Qle_shift_div_r; [lra|].
  assert (a / u * u == a) as E by (field; lra).
  assert (0 <= a / u) as Hq
    by (unfold Qdiv; apply Qmult_le_0_compat; [lra|];
        apply Qlt_le_weak, Qinv_lt_0_compat; exact Hu).
  set (q := a / u) in *. nra.
Qed.

Lemma laid_out_uniform (self : ResumeGenerator) (ps : list Paragraph) :
  laid_out self ps
  = {| sections := [uniform_section (twips (Inches (margin_size self)))];
       styles := styles (laid_out self ps);
       paragraphs := ps |}.
Proof. reflexivity. Qed.

Lemma margin_twips_range (m : Q) :
  0.5 <= m -> m <= 2.0 -> (720 <= twips (Inches m) <= 2880)%Z.
Proof.
  intros Hlo Hhi.
  destruct (stored_margin_twips m Hlo Hhi) as (t & Ht & Hrange).
  unfold stored_margin, Twips in Ht. lia.
Qed.

Lemma uniform_geometry (t : Z) :
  (720 <= t <= 2880)%Z ->
  0 < usable_height (uniform_section t) /\
  (54 <= chars_per_line (uniform_section t))%Z.
Proof. apply section_geometry. Qed.

Lemma uniform_geometry_monotone (t t' : Z) :
  (t' <= t)%Z ->
  usable_height (uniform_section t) <= usable_height (uniform_section t') /\
  (chars_per_line (uniform_section t) <= chars_per_line (uniform_section t'))%Z.
Proof.
  intros Hle. rewrite Zle_Qle in Hle.
  unfold usable_height, chars_per_line, uniform_section.
  cbn [top_margin bottom_margin left_margin right_margin].
  split.
  - rewrite !pt_Twips.
    assert (inject_Z t / 20 == inject_Z t * (1 # 20)) as -> by field.
    assert (inject_Z t' / 20 == inject_Z t' * (1 # 20)) as -> by field.
    lra.
  - apply Qfloor_resp_le. rewrite !inches_Twips.
    assert (inject_Z t / 1440 == inject_Z t * (1 # 1440)) as -> by field.
    assert (inject_Z t' / 1440 == inject_Z t' * (1 # 1440)) as -> by field.
    lra.
Qed.

Lemma line_height_le (g g' : ResumeGenerator) (p : Paragraph) :
  nonnegative_sizes g' ->
  name_font_size g' <= name_font_size g ->
  heading_font_size g' <= heading_font_size g ->
  normal_font_size g' <= normal_font_size g ->
  0 <= line_height g' p /\ line_height g' p <= line_height g p.
Proof.
  intros (Hn & Hh & Hb) Hn' Hh' Hb'. unfold line_height.
  destruct (role p); split; lra.
Qed.

Lemma paragraph_height_le (g g' : ResumeGenerator) (s s' : Section) (p : Paragraph) :
  nonnegative_sizes g' ->
  name_font_size g' <= name_font_size g ->
  heading_font_size g' <= heading_font_size g ->
  normal_font_size g' <= normal_font_size g ->
  (0 < chars_per_line s)%Z -> (chars_per_line s <= chars_per_line s')%Z ->
  0 <= paragraph_height g' s' p /\
  paragraph_height g' s' p <= paragraph_height g s p.
Proof.
  intros Hs Hn Hh Hb Hpos Hc.
  destruct (line_height_le g g' p Hs Hn Hh Hb) as [H0 Hle].
  unfold paragraph_height.
  assert (Py.len (text p) / chars_per_line s' <= Py.len (text p) / chars_per_line s)%Z
    as Hdiv by (apply Z.div_le_compat_l; unfold Py.len; lia).
  assert (1 <= Z.max 1 (Py.len (text p) / chars_per_line s'))%Z as H1 by lia.
  assert (Z.max 1 (Py.len (text p) / chars_per_line s')
          <= Z.max 1 (Py.len (text p) / chars_per_line s))%Z as H2 by lia.
  rewrite Zle_Qle in H1, H2. change (inject_Z 1) with 1 in H1.
  split; nra.
Qed.

(** Of two profiles within the margin bounds, the one with the smaller sizes
    and margin gives the smaller estimate for the same paragraphs. *)
Lemma smaller_profile_smaller_estimate (g g' : ResumeGenerator)
    (ps : list Paragraph) :
  0.5 <= margin_size g' -> margin_size g' <= margin_size g ->
  margin_size g <= 2.0 ->
  nonnegative_sizes g' ->
  name_font_size g' <= name_font_size g ->
  heading_font_size g' <= heading_font_size g ->
  normal_font_size g' <= normal_font_size g ->
  exists pages pages',
    _estimate_page_count g (laid_out g ps) = Ok pages /\
    _estimate_page_count g' (laid_out g' ps) = Ok pages' /\
    pages' <= pages.
Proof.
  intros Hm1 Hm2 Hm3 Hs Hn Hh Hb.
  rewrite (laid_out_uniform g ps), (laid_out_uniform g' ps).
  set (t := twips (Inches (margin_size g))).
  set (t' := twips (Inches (margin_size g'))).
  assert (720 <= t <= 2880)%Z as Ht by (apply margin_twips_range; lra).
  assert (720 <= t' <= 2880)%Z as Ht' by (apply margin_twips_range; lra).
  assert (t' <= t)%Z as Htt by (apply stored_margin_monotone; lra).
  destruct (uniform_geometry t Ht) as [Hu Hc].
  destruct (uniform_geometry t' Ht') as [Hu' Hc'].
  destruct (uniform_geometry_monotone t t' Htt) as [Hum Hcm].
  destruct (estimate_page_count_sum g (uniform_section t) []
              (styles (laid_out g ps)) ps) as (p & Hp & Heq); [lra|].
  destruct (estimate_page_count_sum g' (uniform_section t') []
              (styles (laid_out g' ps)) ps) as (p' & Hp' & Heq'); [lra|].
  exists p, p'. split; [exact Hp|]. split; [exact Hp'|].
  rewrite Heq, Heq'.
  rewrite (measured_total_height g (uniform_section t) ps) by lia.
  rewrite (measured_total_height g' (uniform_section t') ps) by lia.
  unfold total_height.
  assert (forall x, 0 <= paragraph_height g' (uniform_section t') x) as H0
    by (intros x; apply (paragraph_height_le g g' (uniform_section t)
                           (uniform_section t') x); assumption || lia).
  assert (Qsum (map (paragraph_height g' (uniform_section t')) ps)
          <= Qsum (map (paragraph_height g (uniform_section t)) ps)) as Hsum
    by (apply Qsum_le; intros x;
        apply (paragraph_height_le g g' (uniform_section t) (uniform_section t') x);
        assumption || lia).
  assert (0 <= Qsum (map (paragraph_height g' (uniform_section t')) ps)) as Hnn.
  { apply Qsum_nonneg. intros x Hin. apply in_map_iff in Hin.
    destruct Hin as (q & <- & _). apply H0. }
  apply Q.max_le_compat_l. apply quotient_le; assumption.
Qed.

(** X10: a shrink step never raises the page estimate: for the same
    paragraphs, the layout for the shrunk sizes is estimated at no more
    pages than the layout for the sizes before. *)
Theorem shrink_never_raises_estimate (self : ResumeGenerator)
    (ps : list Paragraph) :
  constraints_ok self -> sizes_invariant self ->
  exists pages pages',
    _estimate_page_count self (laid_out self ps) = Ok pages /\
    _estimate_page_count (shrink_sizes self) (laid_out (shrink_sizes self) ps)
    = Ok pages' /\
    pages' <= pages.
Proof.
  intros Hc Hs.
  destruct (shrink_sizes_descend self Hc Hs) as (Hn & Hh & Hb & Hm & _).
  pose proof (shrink_sizes_invariant self Hc Hs)
    as (Hb' & Hh1 & _ & Hn1 & _ & _ & Hm1 & _).
  destruct Hs as (_ & _ & _ & _ & _ & _ & _ & Hm2).
  apply smaller_profile_smaller_estimate; try assumption; try lra.
  - unfold nonnegative_sizes. rewrite Hb'. repeat split; lra.
  - rewrite Hb. lra.
Qed.

Lemma shrink_never_raises_estimate_witness :
  let self := size_tier (__init__ "A B" [] None) 1000 in
  constraints_ok self /\ sizes_invariant self /\
  exists pages pages',
    _estimate_page_count self (laid_out self (crowded_sections self)) = Ok pages /\
    _estimate_page_count (shrink_sizes self)
      (laid_out (shrink_sizes self) (crowded_sections self)) = Ok pages' /\
    pages' <= pages.
Proof.
  cbv zeta.
  assert (constraints_ok (size_tier (__init__ "A B" [] None) 1000)) as Hc
    by (repeat split).
  assert (sizes_invariant (size_tier (__init__ "A B" [] None) 1000)) as Hs
    by (unfold sizes_invariant; simpl; repeat split; unfold Qle; simpl; lia).
  split; [exact Hc|]. split; [exact Hs|].
  exact (shrink_never_raises_estimate _ _ Hc Hs).
Defined.

(** ** A generation pass, step by step *)


Lemma contains_app_suffix (sub s t : string) :
  Py.contains sub s = true -> Py.contains sub (s ++ t) = true.
Proof.
  revert sub. induction s as [|c s IH]; intros sub H.
  - cbn [Py.contains] in H. rewrite orb_false_r in H.
    destruct sub; [|discriminate H].
    destruct t; reflexivity.
  - cbn [Py.contains append] in *. apply orb_true_iff in H.
    apply orb_true_iff. destruct H as [H|H].
    + left. clear IH. revert c s H.
      induction sub as [|a sub IHs]; intros c s H; [reflexivity|].
      cbn [prefix append] in *. destruct (ascii_dec a c); [|discriminate H].
      destruct s as [|c' s]; cbn [append].
      * destruct sub; [destruct t; reflexivity | discriminate H].
      * apply IHs, H.
    + right. apply IH, H.
Qed.

Section LayoutFitterFurther.

Variable rendered_sections : ResumeGenerator -> list Paragraph.

(** The rule for the shrink loop: what holds at the start and is kept by
    every iteration holds when the loop returns, and then the loop condition
    is false. *)
Lemma shrink_loop_rule (Inv : Q -> Z -> State -> Prop) (max_attempts : Z) :
  (forall page_count attempts st page_count',
     Py.gt page_count 1 && (attempts <? max_attempts)%Z = true ->
     Inv page_count attempts st ->
     _estimate_page_count (relayout rendered_sections (shrink_sizes (this st)))
       (doc (relayout rendered_sections (shrink_sizes (this st))))
     = Ok page_count' ->
     Inv page_count' (attempts + 1)%Z
       {| this := relayout rendered_sections (shrink_sizes (this st));
          output :=
            output st
            ++ attempt_log (relayout rendered_sections (shrink_sizes (this st)))
                 (attempts + 1) page_count' |}) ->
  forall fuel page_count attempts st page_count' attempts' st',
    Inv page_count attempts st ->
    shrink_loop rendered_sections fuel max_attempts page_count attempts st
    = Ok ((page_count', attempts'), st') ->
    Inv page_count' attempts' st' /\
    Py.gt page_count' 1 && (attempts' <? max_attempts)%Z = false.
Proof.
  intros Hstep fuel.
  induction fuel as [|fuel IH]; intros pc att st pc' att' st' Hinv Hrun;
    destruct (Py.gt pc 1 && (att <? max_attempts)%Z) eqn:Hcond.
  - cbn [shrink_loop] in Hrun. rewrite Hcond in Hrun. discriminate Hrun.
  - rewrite (shrink_loop_exit _ _ _ _ _ _ Hcond) in Hrun.
    injection Hrun as <- <- <-. split; assumption.
  - rewrite (shrink_loop_step _ _ _ _ _ _ Hcond) in Hrun.
    destruct (_estimate_page_count _ _) as [pc1| |] eqn:Hest;
      try discriminate Hrun.
    apply (IH _ _ _ _ _ _ (Hstep _ _ _ _ Hcond Hinv Hest) Hrun).
  - rewrite (shrink_loop_exit _ _ _ _ _ _ Hcond) in Hrun.
    injection Hrun as <- <- <-. split; assumption.
Qed.

(** [generate_resume], unfolded up to the loop. *)
Lemma generate_resume_unfold (fuel : nat) (output_filename : option string)
    (st : State) :
  let v := _estimate_content_volume (this st) in
  let g1 := relayout rendered_sections (size_tier (this st) v) in
  let f := output_name (this st) output_filename in
  let o1 := output st ++ tier_log (size_tier (this st) v) v
            ++ [Save (doc g1) temp_file] in
  generate_resume rendered_sections fuel output_filename st
  = match _estimate_page_count g1 (doc g1) with
    | Ok page_count =>
        match shrink_loop rendered_sections fuel 3 page_count 0
                {| this := g1; output := o1 |} with
        | Ok ((page_count', attempts'), st') =>
            Ok (f, {| this := this st';
                      output :=
                        output st'
                        ++ (if Py.gt page_count' 1 then [Print OverflowWarning]
                            else [])
                        ++ [Unlink temp_file;
                            Save (doc (this st')) (output_file f);
                            Print (SuccessfullyGenerated f)] |})
        | Raise e => Raise e
        | OutOfFuel => OutOfFuel
        end
    | Raise e => Raise e
    | OutOfFuel => OutOfFuel
    end.
Proof.
  cbv zeta.
  unfold generate_resume, _adjust_font_and_margins, _check_and_adjust_for_page_fit,
    bind, get_self, update, print, emit, lift, ret.
  cbn [this output].
  change (_add_sections rendered_sections
            (_setup_document
               (set_doc (size_tier (this st) (_estimate_content_volume (this st)))
                  new_Document)))
    with (relayout rendered_sections
            (size_tier (this st) (_estimate_content_volume (this st)))).
  fold (output_name (this st) output_filename).
  set (g1 := relayout rendered_sections _).
  destruct (_estimate_page_count g1 (doc g1)) as [pc| |]; try reflexivity.
  unfold tier_log. rewrite <- !app_assoc. cbn [app].
  destruct (shrink_loop rendered_sections fuel 3 pc 0 _) as [[[pc' att'] st']| |];
    try reflexivity.
  cbn [fst]. destruct (Py.gt pc' 1); cbn [this output];
    rewrite <- ?app_assoc; reflexivity.
Qed.

Lemma same_sizes_shrink (g g' : ResumeGenerator) :
  same_sizes g g' ->
  same_sizes (relayout rendered_sections (shrink_sizes g)) (shrink_sizes g').
Proof.
  intros [Hp (H1 & H2 & H3 & H4)].
  unfold size_profile in Hp. injection Hp as Hn Hh Hb Hm.
  unfold same_sizes, same_constraints, size_profile, shrink_sizes.
  cbn [relayout _add_sections _setup_document _create_styles set_doc set_sizes
       name_font_size heading_font_size normal_font_size margin_size
       min_font_size max_font_size min_margin max_margin].
  rewrite Hn, Hh, Hm, H1, H2, H3, H4. repeat split.
Qed.

Lemma relayout_laid_out (g : ResumeGenerator) :
  exists ps, doc (relayout rendered_sections g)
             = laid_out (relayout rendered_sections g) ps.
Proof. eexists. reflexivity. Qed.

(** What the shrink loop keeps, from the first trial layout [g1] on: the
    resume data; sizes that are those of [g1] shrunk once per iteration; a
    document laid out for the current sizes; an output that only grows by
    sizing attempts. *)
Lemma shrink_loop_keeps (fuel : nat) (g1 : ResumeGenerator) (o1 : list Event)
    (page_count page_count' : Q) (attempts' : Z) (st' : State) :
  shrink_loop rendered_sections fuel 3 page_count 0
    {| this := relayout rendered_sections g1; output := o1 |}
  = Ok ((page_count', attempts'), st') ->
  (0 <= attempts' <= 3)%Z /\
  same_data (this st') g1 /\
  same_sizes (this st') (Nat.iter (Z.to_nat attempts') shrink_sizes g1) /\
  (exists ps, doc (this st') = laid_out (this st') ps) /\
  (exists evs, output st' = o1 ++ evs /\ Forall trial_event evs /\
               shrink_attempts evs = Z.to_nat attempts' /\
               List.length evs = (4 * Z.to_nat attempts')%nat) /\
  Py.gt page_count' 1 && (attempts' <? 3)%Z = false.
Proof.
  intros Hrun.
  pose (Inv := fun (pc : Q) (att : Z) (st : State) =>
    (0 <= att <= 3)%Z /\
    same_data (this st) g1 /\
    same_sizes (this st) (Nat.iter (Z.to_nat att) shrink_sizes g1) /\
    (exists ps, doc (this st) = laid_out (this st) ps) /\
    (exists evs, output st = o1 ++ evs /\ Forall trial_event evs /\
                 shrink_attempts evs = Z.to_nat att /\
                 List.length evs = (4 * Z.to_nat att)%nat)).
  assert (forall pc att st pc1,
            Py.gt pc 1 && (att <? 3)%Z = true -> Inv pc att st ->
            _estimate_page_count (relayout rendered_sections (shrink_sizes (this st)))
              (doc (relayout rendered_sections (shrink_sizes (this st)))) = Ok pc1 ->
            Inv pc1 (att + 1)%Z
              {| this := relayout rendered_sections (shrink_sizes (this st));
                 output :=
                   output st
                   ++ attempt_log (relayout rendered_sections (shrink_sizes (this st)))
                        (att + 1) pc1 |}) as Hstep.
  { intros pc att st pc1 Hcond
      (Hatt & Hdata & Hsizes & _ & (evs & Hout & Htrial & Hcount & Hlen)) _.
    apply andb_true_iff in Hcond. destruct Hcond as [_ Hlt].
    apply Z.ltb_lt in Hlt.
    unfold Inv. cbn [this output].
    split; [lia|].
    split; [exact Hdata|].
    split.
    { replace (Z.to_nat (att + 1)) with (S (Z.to_nat att)) by lia.
      cbn [Nat.iter nat_rect]. apply same_sizes_shrink, Hsizes. }
    split; [apply relayout_laid_out|].
    exists (evs ++ attempt_log (relayout rendered_sections (shrink_sizes (this st)))
                     (att + 1) pc1).
    split; [rewrite Hout, app_assoc; reflexivity|].
    split.
    - apply Forall_app. split; [exact Htrial|].
      unfold attempt_log. repeat (apply Forall_cons; [exact I|]). apply Forall_nil.
    - split.
      + rewrite shrink_attempts_app, Hcount. cbn [attempt_log shrink_attempts]. lia.
      + rewrite length_app, Hlen. cbn [attempt_log List.length]. lia. }
  assert (Inv page_count 0%Z
            {| this := relayout rendered_sections g1; output := o1 |}) as Hinit.
  { unfold Inv. cbn [this output].
    split; [lia|].
    split; [repeat split|].
    split; [repeat split|].
    split; [apply relayout_laid_out|].
    exists []. rewrite app_nil_r. split_all; try reflexivity. apply Forall_nil. }
  destruct (shrink_loop_rule Inv 3 Hstep fuel _ _ _ _ _ _ Hinit Hrun)
    as [(H1 & H2 & H3 & H4 & H5) Hcond].
  split; [exact H1|]. split; [exact H2|]. split; [exact H3|].
  split; [exact H4|]. split; [exact H5 | exact Hcond].
Qed.

(** The steps of [generate_resume] from a generator whose constraints are in
    place: the tier layout is measured, the loop returns, and the pass ends
    as [generate_resume_unfold] says. *)
Lemma generate_resume_steps (fuel : nat) (output_filename : option string)
    (st : State) :
  (3 <= fuel)%nat -> constraints_ok (this st) ->
  let v := _estimate_content_volume (this st) in
  let g1 := relayout rendered_sections (size_tier (this st) v) in
  let f := output_name (this st) output_filename in
  let o1 := output st ++ tier_log (size_tier (this st) v) v
            ++ [Save (doc g1) temp_file] in
  exists page_count page_count' attempts' stl,
    _estimate_page_count g1 (doc g1) = Ok page_count /\
    shrink_loop rendered_sections fuel 3 page_count 0 {| this := g1; output := o1 |}
    = Ok ((page_count', attempts'), stl) /\
    generate_resume rendered_sections fuel output_filename st
    = Ok (f, {| this := this stl;
                output :=
                  output stl
                  ++ (if Py.gt page_count' 1 then [Print OverflowWarning] else [])
                  ++ [Unlink temp_file;
                      Save (doc (this stl)) (output_file f);
                      Print (SuccessfullyGenerated f)] |}) /\
    _estimate_page_count (this stl) (doc (this stl)) = Ok page_count' /\
    (1 < page_count' -> attempts' = 3%Z) /\
    sizes_invariant (this stl).
Proof.
  intros Hfuel Hc v g1 f o1.
  pose proof (size_tier_sizes_invariant (this st) v Hc) as Hs.
  assert (constraints_ok (size_tier (this st) v)) as Hc'
    by (apply (size_tier_well_sized (this st) v Hc)).
  destruct (relayout_measured rendered_sections (size_tier (this st) v))
    as (pc & Hpc & _); [apply sizes_invariant_well_sized; assumption|].
  fold g1 in Hpc.
  destruct (shrink_loop_run rendered_sections fuel pc 0 {| this := g1; output := o1 |})
    as (pc' & att' & stl & new & Hloop & _ & _ & _ & _ & Hexh & _ & Hs' & _ & Hpc' & _);
    [lia | simpl; lia | exact Hc' | exact Hs | exact Hpc |].
  exists pc, pc', att', stl.
  split; [exact Hpc|]. split; [exact Hloop|].
  split.
  { rewrite generate_resume_unfold. cbv zeta. fold v. fold g1. rewrite Hpc.
    fold f. fold o1. rewrite Hloop. reflexivity. }
  split; [exact Hpc'|]. split; [exact Hexh | exact Hs'].
Qed.

(** X11: when the first layout already fits (its estimate is not above 1),
    [generate_resume] keeps the sizes of the tier: it makes no shrink
    attempt and prints no warning; it saves that layout to the temporary
    file, removes the file, saves the same layout under the output name and
    returns. *)
Theorem first_layout_that_fits_is_kept (fuel : nat)
    (output_filename : option string) (st : State) (page_count : Q) :
  _estimate_page_count (first_layout rendered_sections (this st))
    (doc (first_layout rendered_sections (this st))) = Ok page_count ->
  page_count <= 1 ->
  generate_resume rendered_sections fuel output_filename st
  = Ok (output_name (this st) output_filename,
        {| this := first_layout rendered_sections (this st);
           output :=
             output st
             ++ tier_log (size_tier (this st) (_estimate_content_volume (this st)))
                  (_estimate_content_volume (this st))
             ++ [ Save (doc (first_layout rendered_sections (this st))) temp_file;
                  Unlink temp_file;
                  Save (doc (first_layout rendered_sections (this st)))
                    (output_file (output_name (this st) output_filename));
                  Print (SuccessfullyGenerated
                           (output_name (this st) output_filename)) ] |}).
Proof.
  intros Hest Hfit. rewrite generate_resume_unfold. cbv zeta.
  unfold first_layout in *. rewrite Hest.
  apply gt_false in Hfit.
  rewrite shrink_loop_exit by (rewrite Hfit; reflexivity).
  rewrite Hfit. cbn [this output]. rewrite <- !app_assoc. reflexivity.
Qed.




(** ** The file name, the data and the log of a pass *)


Lemma same_data_refl (g : ResumeGenerator) : same_data g g.
Proof. repeat split. Qed.

Lemma same_data_trans (g1 g2 g3 : ResumeGenerator) :
  same_data g1 g2 -> same_data g2 g3 -> same_data g1 g3.
Proof.
  unfold same_data. intros H1 H2.
  destruct H1 as (?&?&?&?&?&?&?&?&?), H2 as (?&?&?&?&?&?&?&?&?).
  split_all; congruence.
Qed.

Lemma same_constraints_trans (g1 g2 g3 : ResumeGenerator) :
  same_constraints g1 g2 -> same_constraints g2 g3 -> same_constraints g1 g3.
Proof.
  unfold same_constraints. intros (?&?&?&?) (?&?&?&?).
  split_all; congruence.
Qed.

Lemma size_tier_same (self : ResumeGenerator) (content_volume : Q) :
  same_data (size_tier self content_volume) self /\
  same_constraints (size_tier self content_volume) self.
Proof.
  unfold size_tier.
  repeat match goal with |- context [Py.gt ?a ?b] => destruct (Py.gt a b) end;
    split; repeat split.
Qed.

Lemma shrink_sizes_same (n : nat) (self : ResumeGenerator) :
  same_data (Nat.iter n shrink_sizes self) self /\
  same_constraints (Nat.iter n shrink_sizes self) self.
Proof.
  induction n as [|n [IHd IHc]]; [split; repeat split|].
  cbn [Nat.iter nat_rect]. split.
  - apply same_data_trans with (Nat.iter n shrink_sizes self); [|exact IHd].
    repeat split.
  - apply same_constraints_trans with (Nat.iter n shrink_sizes self); [|exact IHc].
    repeat split.
Qed.


(** X15: a generation pass changes the sizes and the document only: the
    resume data (name, contact details, summary and the six lists) and the
    four size constraints are the same afterwards. *)
Theorem generate_resume_keeps_data (fuel : nat)
    (output_filename : option string) (st : State) :
  (3 <= fuel)%nat -> constraints_ok (this st) ->
  exists filename st',
    generate_resume rendered_sections fuel output_filename st = Ok (filename, st') /\
    same_data (this st') (this st) /\
    same_constraints (this st') (this st).
Proof.
  intros Hfuel Hc.
  destruct (generate_resume_steps fuel output_filename st Hfuel Hc)
    as (pc & pc' & att' & stl & _ & Hloop & Hrun & _).
  destruct (shrink_loop_keeps _ _ _ _ _ _ _ Hloop)
    as (_ & Hdata & [_ Hcons] & _).
  eexists _, _. split; [exact Hrun|]. cbn [this].
  destruct (size_tier_same (this st) (_estimate_content_volume (this st)))
    as [Hd0 Hc0].
  split.
  - apply same_data_trans with (1 := Hdata), Hd0.
  - apply same_constraints_trans with (1 := Hcons).
    apply same_constraints_trans with (2 := Hc0).
    apply shrink_sizes_same.
Qed.

(** X16: everything a pass writes, in order: the three lines of
    [_adjust_font_and_margins] for the tier; the first trial layout saved
    to the temporary file; then only events of shrink attempts (a trial
    layout saved to the temporary file and the three lines of the attempt),
    as many as attempts were made; the warning, exactly when the final
    estimate is above one page; the removal of the temporary file; the
    final layout saved under the output name; the success line.  So the
    output file is written once, at the end, and after the temporary file
    is removed nothing is saved to it. *)
Theorem generate_resume_log (fuel : nat) (output_filename : option string)
    (st : State) :
  (3 <= fuel)%nat -> constraints_ok (this st) ->
  exists filename st' pages trials,
    generate_resume rendered_sections fuel output_filename st = Ok (filename, st') /\
    _estimate_page_count (this st') (doc (this st')) = Ok pages /\
    output st'
    = output st
      ++ tier_log (size_tier (this st) (_estimate_content_volume (this st)))
           (_estimate_content_volume (this st))
      ++ [Save (doc (first_layout rendered_sections (this st))) temp_file]
      ++ trials
      ++ (if Py.gt pages 1 then [Print OverflowWarning] else [])
      ++ [Unlink temp_file; Save (doc (this st')) (output_file filename);
          Print (SuccessfullyGenerated filename)] /\
    Forall trial_event trials /\
    (List.length trials = 4 * shrink_attempts trials)%nat /\
    (shrink_attempts trials <= 3)%nat.
Proof.
  intros Hfuel Hc.
  destruct (generate_resume_steps fuel output_filename st Hfuel Hc)
    as (pc & pc' & att' & stl & Hpc & Hloop & Hrun & Hpc' & Hexh & Hs').
  destruct (shrink_loop_keeps _ _ _ _ _ _ _ Hloop)
    as (Hatt & _ & _ & _ & (evs & Hout & Htrial & Hcount & Hlen) & Hcond).
  eexists _, _, pc', evs.
  split; [exact Hrun|]. cbn [this output].
  split; [exact Hpc'|].
  split; [rewrite Hout; unfold first_layout; rewrite <- !app_assoc; reflexivity|].
  split; [exact Htrial|].
  rewrite Hlen, Hcount. split; lia.
Qed.

(** ** A pass starts from the data, not from earlier sizes *)

(** The tier layout is determined by the resume data and the constraints:
    the sizes and the document held before play no part. *)
Lemma tier_layout_data_only (g g' : ResumeGenerator) :
  same_data g g' -> same_constraints g g' ->
  _estimate_content_volume g = _estimate_content_volume g' /\
  (forall v, relayout rendered_sections (size_tier g v)
             = relayout rendered_sections (size_tier g' v)) /\
  (forall v, tier_log (size_tier g v) v = tier_log (size_tier g' v) v) /\
  (forall f, output_name g f = output_name g' f).
Proof.
  destruct g, g'. unfold same_data, same_constraints.
  cbn [name contact_info professional_summary work_experience technical_skills
       education internships projects certifications
       min_font_size max_font_size min_margin max_margin].
  intros (?&?&?&?&?&?&?&?&?) (?&?&?&?). subst.
  split; [reflexivity|].
  split; [|split].
  - intros v. unfold size_tier.
    repeat match goal with |- context [Py.gt ?a ?b] => destruct (Py.gt a b) end;
      reflexivity.
  - intros v. unfold size_tier.
    repeat match goal with |- context [Py.gt ?a ?b] => destruct (Py.gt a b) end;
      reflexivity.
  - intros f. reflexivity.
Qed.

(** The loop carries the output it is given along unchanged. *)
Lemma shrink_loop_frame (fuel : nat) (max_attempts : Z) :
  forall (page_count : Q) (attempts : Z) (g : ResumeGenerator) (o o' : list Event),
    shrink_loop rendered_sections fuel max_attempts page_count attempts
      {| this := g; output := o ++ o' |}
    = after_output o
        (shrink_loop rendered_sections fuel max_attempts page_count attempts
           {| this := g; output := o' |}).
Proof.
  induction fuel as [|fuel IH]; intros pc att g o o';
    destruct (Py.gt pc 1 && (att <? max_attempts)%Z) eqn:Hcond.
  - cbn [shrink_loop]. rewrite Hcond. reflexivity.
  - rewrite !(shrink_loop_exit _ _ _ _ _ _ Hcond). reflexivity.
  - rewrite !(shrink_loop_step _ _ _ _ _ _ Hcond). cbn [this output].
    destruct (_estimate_page_count _ _) as [pc1| |]; try reflexivity.
    rewrite <- app_assoc. apply IH.
  - rewrite !(shrink_loop_exit _ _ _ _ _ _ Hcond). reflexivity.
Qed.

(** So does a whole pass. *)
Lemma generate_resume_frame (fuel : nat) (output_filename : option string)
    (st : State) :
  generate_resume rendered_sections fuel output_filename st
  = after_output (output st)
      (generate_resume rendered_sections fuel output_filename
         {| this := this st; output := [] |}).
Proof.
  rewrite !generate_resume_unfold. cbv zeta. cbn [this output app].
  destruct (_estimate_page_count _ _) as [pc| |]; try reflexivity.
  rewrite shrink_loop_frame.
  destruct (shrink_loop rendered_sections fuel 3 pc 0 _) as [[[pc' att'] st']| |];
    try reflexivity.
  cbn [after_output this output]. rewrite <- !app_assoc. reflexivity.
Qed.

Lemma generate_resume_data_only (fuel : nat) (output_filename : option string)
    (g g' : ResumeGenerator) :
  same_data g g' -> same_constraints g g' ->
  generate_resume rendered_sections fuel output_filename {| this := g; output := [] |}
  = generate_resume rendered_sections fuel output_filename
      {| this := g'; output := [] |}.
Proof.
  intros Hd Hc.
  destruct (tier_layout_data_only g g' Hd Hc) as (Ev & El & Et & En).
  rewrite !generate_resume_unfold. cbv zeta. cbn [this output app].
  rewrite <- Ev, <- El, <- Et, <- En. reflexivity.
Qed.

Lemma after_output_ok {A} (o : list Event) (r : result (A * State)) (a : A)
    (st' : State) :
  after_output o r = Ok (a, st') ->
  exists new, r = Ok (a, {| this := this st'; output := new |}) /\
              output st' = o ++ new.
Proof.
  destruct r as [[a0 s0]| |]; try discriminate.
  cbn [after_output]. intros H. injection H as <- <-.
  exists (output s0). destruct s0. split; reflexivity.
Qed.

Lemma generate_resume_transfer (fuel : nat) (output_filename : option string)
    (st1 st2 : State) (filename : string) (st1' : State) :
  same_data (this st1) (this st2) -> same_constraints (this st1) (this st2) ->
  generate_resume rendered_sections fuel output_filename st1 = Ok (filename, st1') ->
  exists new,
    generate_resume rendered_sections fuel output_filename st2
    = Ok (filename, {| this := this st1'; output := output st2 ++ new |}) /\
    output st1' = output st1 ++ new.
Proof.
  intros Hd Hc Hrun.
  rewrite generate_resume_frame in Hrun.
  apply after_output_ok in Hrun. destruct Hrun as (new & Hrun & Hout).
  exists new. split; [|exact Hout].
  rewrite generate_resume_frame, <- (generate_resume_data_only _ _ _ _ Hd Hc), Hrun.
  reflexivity.
Qed.

Lemma same_data_sym (g g' : ResumeGenerator) : same_data g g' -> same_data g' g.
Proof. unfold same_data. intros (?&?&?&?&?&?&?&?&?). split_all; congruence. Qed.

Lemma same_constraints_sym (g g' : ResumeGenerator) :
  same_constraints g g' -> same_constraints g' g.
Proof. unfold same_constraints. intros (?&?&?&?). split_all; congruence. Qed.

(** A pass that returns leaves the data and the constraints as they were. *)
Lemma generate_resume_same (fuel : nat) (output_filename : option string)
    (st : State) (filename : string) (st' : State) :
  generate_resume rendered_sections fuel output_filename st = Ok (filename, st') ->
  same_data (this st') (this st) /\ same_constraints (this st') (this st).
Proof.
  rewrite generate_resume_unfold. cbv zeta.
  destruct (_estimate_page_count _ _) as [pc| |]; try discriminate.
  destruct (shrink_loop rendered_sections fuel 3 pc 0 _)
    as [[[pc' att'] stl]| |] eqn:Hloop; try discriminate.
  intros H. injection H as _ <-. cbn [this].
  destruct (shrink_loop_keeps _ _ _ _ _ _ _ Hloop)
    as (_ & Hdata & [_ Hcons] & _).
  destruct (size_tier_same (this st) (_estimate_content_volume (this st)))
    as [Hd0 Hc0].
  split.
  - apply same_data_trans with (1 := Hdata), Hd0.
  - apply same_constraints_trans with (1 := Hcons).
    apply same_constraints_trans with (2 := Hc0).
    apply shrink_sizes_same.
Qed.

(** X17: a pass starts over from the resume data: the sizes, the margin and
    the document the generator holds beforehand have no influence.  Two
    generators with the same data and constraints get the same file name,
    end as the same generator and write the same events. *)
Theorem pass_depends_on_data_only (fuel : nat) (output_filename : option string)
    (st1 st2 : State) (filename : string) (st1' : State) :
  same_data (this st1) (this st2) -> same_constraints (this st1) (this st2) ->
  generate_resume rendered_sections fuel output_filename st1 = Ok (filename, st1') ->
  exists st2' new,
    generate_resume rendered_sections fuel output_filename st2 = Ok (filename, st2') /\
    this st2' = this st1' /\
    output st1' = output st1 ++ new /\
    output st2' = output st2 ++ new.
Proof.
  intros Hd Hc Hrun.
  destruct (generate_resume_transfer _ _ _ _ _ _ Hd Hc Hrun) as (new & Hrun2 & Hout).
  eexists _, new. split; [exact Hrun2|]. repeat split. exact Hout.
Qed.

(** X18: generating twice gives the same resume: a second pass on the
    generator the first one left returns the same file name, leaves the
    generator as it is, and writes the same events again. *)
Theorem second_pass_repeats_first (fuel : nat) (output_filename : option string)
    (st : State) :
  (3 <= fuel)%nat -> constraints_ok (this st) ->
  exists filename st' st'' new,
    generate_resume rendered_sections fuel output_filename st = Ok (filename, st') /\
    generate_resume rendered_sections fuel output_filename st' = Ok (filename, st'') /\
    this st'' = this st' /\
    output st' = output st ++ new /\
    output st'' = output st' ++ new.
Proof.
  intros Hfuel Hc.
  destruct (generate_resume_steps fuel output_filename st Hfuel Hc)
    as (pc & pc' & att' & stl & _ & _ & Hrun & _).
  destruct (generate_resume_same _ _ _ _ _ Hrun) as [Hd Hcons].
  apply same_data_sym in Hd. apply same_constraints_sym in Hcons.
  destruct (generate_resume_transfer _ _ _ _ _ _ Hd Hcons Hrun) as (new & Hrun2 & Hout).
  eexists _, _, _, new. split; [exact Hrun|]. split; [exact Hrun2|].
  repeat split. exact Hout.
Qed.

(** ** Shrinking over a whole pass *)

Lemma relayout_data_only (g0 g : ResumeGenerator) :
  renders_data_only rendered_sections -> same_data g g0 ->
  doc (relayout rendered_sections g) = laid_out g (rendered_sections g0).
Proof.
  intros Hr Hd. rewrite relayout_doc. f_equal. apply Hr.
  apply same_data_trans with (2 := Hd). repeat split.
Qed.

(** One more iteration never measures more than the one before. *)
Lemma shrink_step_estimate (g0 g : ResumeGenerator) (page_count page_count' : Q) :
  renders_data_only rendered_sections -> same_data g g0 ->
  constraints_ok g -> sizes_invariant g ->
  _estimate_page_count g (laid_out g (rendered_sections g0)) = Ok page_count ->
  _estimate_page_count (relayout rendered_sections (shrink_sizes g))
    (doc (relayout rendered_sections (shrink_sizes g))) = Ok page_count' ->
  page_count' <= page_count.
Proof.
  intros Hr Hd Hc Hs Hpc Hpc'.
  rewrite (relayout_data_only g0) in Hpc' by assumption.
  change (_estimate_page_count (relayout rendered_sections (shrink_sizes g)))
    with (_estimate_page_count (shrink_sizes g)) in Hpc'.
  destruct (shrink_sizes_descend g Hc Hs) as (Hn & Hh & Hb & Hm & _).
  pose proof (shrink_sizes_invariant g Hc Hs)
    as (Hb' & Hh1 & _ & Hn1 & _ & _ & Hm1 & _).
  destruct Hs as (_ & _ & _ & _ & _ & _ & _ & Hm2).
  destruct (smaller_profile_smaller_estimate g (shrink_sizes g)
              (rendered_sections g0)) as (p & p' & Hp & Hp' & Hle);
    try assumption; try lra.
  - unfold nonnegative_sizes. rewrite Hb'. repeat split; lra.
  - rewrite Hb. lra.
  - rewrite Hp in Hpc. rewrite Hp' in Hpc'.
    injection Hpc as <-. injection Hpc' as <-. exact Hle.
Qed.

Lemma shrink_loop_descends (fuel : nat) (g1 : ResumeGenerator) (o1 : list Event)
    (page_count page_count' : Q) (attempts' : Z) (st' : State) :
  renders_data_only rendered_sections ->
  constraints_ok g1 -> sizes_invariant g1 ->
  _estimate_page_count (relayout rendered_sections g1)
    (doc (relayout rendered_sections g1)) = Ok page_count ->
  shrink_loop rendered_sections fuel 3 page_count 0
    {| this := relayout rendered_sections g1; output := o1 |}
  = Ok ((page_count', attempts'), st') ->
  page_count' <= page_count.
Proof.
  intros Hr Hc1 Hs1 Hpc Hrun.
  pose (Inv := fun (pc : Q) (att : Z) (st : State) =>
    same_data (this st) g1 /\ constraints_ok (this st) /\
    sizes_invariant (this st) /\
    _estimate_page_count (this st) (laid_out (this st) (rendered_sections g1))
    = Ok pc /\
    pc <= page_count).
  assert (forall pc att st pc1,
            Py.gt pc 1 && (att <? 3)%Z = true -> Inv pc att st ->
            _estimate_page_count (relayout rendered_sections (shrink_sizes (this st)))
              (doc (relayout rendered_sections (shrink_sizes (this st)))) = Ok pc1 ->
            Inv pc1 (att + 1)%Z
              {| this := relayout rendered_sections (shrink_sizes (this st));
                 output :=
                   output st
                   ++ attempt_log (relayout rendered_sections (shrink_sizes (this st)))
                        (att + 1) pc1 |}) as Hstep.
  { intros pc att st pc1 _ (Hd & Hc & Hs & Hest & Hle) Hest1.
    unfold Inv. cbn [this output].
    assert (same_data (shrink_sizes (this st)) g1) as Hd'
      by (apply same_data_trans with (2 := Hd); repeat split).
    split; [apply same_data_trans with (2 := Hd'); repeat split|].
    split; [exact Hc|].
    split; [exact (shrink_sizes_invariant _ Hc Hs)|].
    split.
    - rewrite (relayout_data_only g1) in Hest1 by assumption. exact Hest1.
    - pose proof (shrink_step_estimate g1 (this st) pc pc1 Hr Hd Hc Hs Hest Hest1).
      lra. }
  assert (Inv page_count 0%Z
            {| this := relayout rendered_sections g1; output := o1 |}) as Hinit.
  { unfold Inv. cbn [this output].
    split; [repeat split|]. split; [exact Hc1|]. split; [exact Hs1|].
    split; [|lra].
    rewrite (relayout_data_only g1) in Hpc by (try assumption; repeat split).
    exact Hpc. }
  destruct (shrink_loop_rule Inv 3 Hstep fuel _ _ _ _ _ _ Hinit Hrun)
    as [(_ & _ & _ & _ & Hle) _].
  exact Hle.
Qed.

(** X19: when the rendered paragraphs depend on the resume data only, the
    shrink attempts never make things worse: the estimate of the layout
    that is saved is at most the estimate of the first layout, the one for
    the tier. *)
Theorem final_estimate_at_most_first (fuel : nat)
    (output_filename : option string) (st : State) :
  renders_data_only rendered_sections ->
  (3 <= fuel)%nat -> constraints_ok (this st) ->
  exists first filename st' final,
    _estimate_page_count (first_layout rendered_sections (this st))
      (doc (first_layout rendered_sections (this st))) = Ok first /\
    generate_resume rendered_sections fuel output_filename st = Ok (filename, st') /\
    _estimate_page_count (this st') (doc (this st')) = Ok final /\
    final <= first.
Proof.
  intros Hr Hfuel Hc.
  destruct (generate_resume_steps fuel output_filename st Hfuel Hc)
    as (pc & pc' & att' & stl & Hpc & Hloop & Hrun & Hpc' & _).
  exists pc. eexists _, _, pc'.
  split; [exact Hpc|]. split; [exact Hrun|]. cbn [this].
  split; [exact Hpc'|].
  refine (shrink_loop_descends _ _ _ _ _ _ _ Hr _ _ Hpc Hloop).
  - apply (size_tier_well_sized (this st) _ Hc).
  - apply (size_tier_sizes_invariant (this st) _ Hc).
Qed.

End LayoutFitterFurther.

(** ** Keyword analysis *)

(** *** Characters and text *)

Lemma lower_char_not_capital (c : ascii) :
  between 65 90 (str.lower_char c) = false.
Proof. destruct c as [[] [] [] [] [] [] [] []]; vm_compute; reflexivity. Qed.

Lemma lower_char_idempotent (c : ascii) :
  str.lower_char (str.lower_char c) = str.lower_char c.
Proof. destruct c as [[] [] [] [] [] [] [] []]; vm_compute; reflexivity. Qed.

Lemma letter_word_char (c : ascii) : re.letter c = true -> re.word_char c = true.
Proof. destruct c as [[] [] [] [] [] [] [] []]; vm_compute; congruence. Qed.

Lemma lower_app (a b : string) :
  str.lower (a ++ b) = (str.lower a ++ str.lower b)%string.
Proof. induction a as [|c a IH]; [reflexivity|]. cbn [append str.lower]. rewrite IH. reflexivity. Qed.

Lemma lower_idempotent (s : string) : str.lower (str.lower s) = str.lower s.
Proof.
  induction s as [|c s IH]; [reflexivity|].
  cbn [str.lower]. rewrite lower_char_idempotent, IH. reflexivity.
Qed.

(** A piece of a lowered text is itself in lower case. *)
Lemma lower_piece (s before k after : string) :
  occurs_at before k after (str.lower s) -> str.lower k = k.
Proof.
  unfold occurs_at. revert s. induction before as [|c before IH]; intros s H.
  - cbn [append] in H. revert s H. induction k as [|c k IHk]; intros s H; [reflexivity|].
    destruct s as [|c0 s]; [discriminate H|].
    cbn [str.lower append] in H. injection H as Hc Hs.
    cbn [str.lower]. rewrite <- Hc, lower_char_idempotent, (IHk s Hs). reflexivity.
  - destruct s as [|c0 s]; [discriminate H|].
    cbn [str.lower append] in H. injection H as _ Hs. apply (IH s Hs).
Qed.

Lemma contains_unfold (sub s : string) :
  Py.contains sub s
  = prefix sub s || match s with
                    | EmptyString => false
                    | String _ s' => Py.contains sub s'
                    end.
Proof. destruct s; reflexivity. Qed.

Lemma prefix_app (k after : string) : prefix k (k ++ after) = true.
Proof.
  induction k as [|c k IH]; [destruct after; reflexivity|].
  cbn [append prefix]. destruct (ascii_dec c c); [exact IH | congruence].
Qed.

Lemma contains_app_prefix (sub before s : string) :
  Py.contains sub s = true -> Py.contains sub (before ++ s) = true.
Proof.
  intros H. induction before as [|c before IH]; [exact H|].
  cbn [append]. rewrite contains_unfold, IH. apply orb_true_r.
Qed.

(** A text contains whatever occurs in it. *)
Lemma contains_occurrence (before k after text : string) :
  occurs_at before k after text -> Py.contains k text = true.
Proof.
  intros ->. apply contains_app_prefix.
  rewrite contains_unfold, prefix_app. reflexivity.
Qed.

Lemma contains_within (sub before s after : string) :
  Py.contains sub s = true -> Py.contains sub (before ++ s ++ after) = true.
Proof. intros H. apply contains_app_prefix, contains_app_suffix, H. Qed.

(** *** The words of a text *)

Lemma last_char_cons (c : ascii) (s : string) :
  s <> EmptyString -> last_char (String c s) = last_char s.
Proof. destruct s; [congruence | reflexivity]. Qed.

(** The runs of [s]: the first one starts the text and ends before a
    character that is no word character; every later one lies between two
    such characters or the end. *)
Lemma word_runs_sound (s : string) :
  (exists run runs after,
     re.word_runs s = run :: runs /\ s = (run ++ after)%string /\
     no_word_char (first_char after) = true) /\
  (forall r, In r (tl (re.word_runs s)) ->
     exists before after,
       occurs_at before r after s /\ before <> EmptyString /\
       no_word_char (last_char before) = true /\
       no_word_char (first_char after) = true).
Proof.
  unfold occurs_at.
  induction s as [|c s [(run & runs & after & E & Es & Hafter) IHb]].
  - split; [exists EmptyString, [], EmptyString; repeat split|intros r []].
  - cbn [re.word_runs]. rewrite E in *. cbn [tl] in IHb.
    assert (forall r, In r runs ->
              exists before after0,
                String c s = (before ++ r ++ after0)%string /\
                before <> EmptyString /\
                no_word_char (last_char before) = true /\
                no_word_char (first_char after0) = true) as Hlater.
    { intros r Hr. destruct (IHb r Hr) as (before & after0 & Eb & Hne & Hl & Hf).
      exists (String c before), after0. cbn [append]. rewrite <- Eb.
      rewrite (last_char_cons c before Hne).
      split; [reflexivity|]. split; [discriminate|]. split; assumption. }
    destruct (re.word_char c) eqn:Hc.
    + split.
      * exists (String c run), runs, after. cbn [append]. rewrite <- Es.
        repeat split. exact Hafter.
      * cbn [tl]. exact Hlater.
    + split.
      * exists EmptyString, (run :: runs), (String c s).
        cbn [append first_char no_word_char]. rewrite Hc. repeat split.
      * cbn [tl]. intros r [<-|Hr]; [|exact (Hlater r Hr)].
        exists (String c EmptyString), after. cbn [append last_char no_word_char].
        rewrite Hc, <- Es. split; [reflexivity|]. split; [discriminate|].
        split; [reflexivity | exact Hafter].
Qed.

Lemma word_runs_head (t after : string) :
  re.all_letters t = true -> no_word_char (first_char after) = true ->
  re.word_runs (t ++ after) = t :: tl (re.word_runs after).
Proof.
  intros Ht Hafter. induction t as [|c t IH].
  - cbn [append]. destruct after as [|c after]; [reflexivity|].
    cbn [first_char no_word_char] in Hafter. apply negb_true_iff in Hafter.
    cbn [re.word_runs]. rewrite Hafter. reflexivity.
  - cbn [re.all_letters] in Ht. apply andb_true_iff in Ht. destruct Ht as [Hc Ht].
    cbn [append re.word_runs]. rewrite (letter_word_char c Hc), (IH Ht). reflexivity.
Qed.

Lemma in_tl {A} (x : A) (l : list A) : In x (tl l) -> In x l.
Proof. destruct l; [intros [] | intros H; right; exact H]. Qed.

Lemma word_runs_later (before x r : string) :
  before <> EmptyString -> no_word_char (last_char before) = true ->
  In r (re.word_runs x) -> In r (tl (re.word_runs (before ++ x))).
Proof.
  intros Hne Hlast Hr. induction before as [|c before IH]; [congruence|].
  destruct before as [|c2 before].
  - cbn [last_char no_word_char] in Hlast. apply negb_true_iff in Hlast.
    cbn [append re.word_runs]. rewrite Hlast. exact Hr.
  - assert (In r (tl (re.word_runs (String c2 before ++ x)))) as H
      by (apply IH; [discriminate | exact Hlast]).
    change (String c (String c2 before) ++ x)%string
      with (String c (String c2 before ++ x)).
    cbn [re.word_runs]. destruct (re.word_char c).
    + destruct (re.word_runs (String c2 before ++ x)); [destruct H | exact H].
    + cbn [tl]. apply in_tl, H.
Qed.

(** The words [findall_words] returns are the pieces of the text of two or
    more letters that neither follow nor precede a word character. *)
Lemma findall_words_whole_words (s w : string) :
  In w (re.findall_words s) <->
  exists before after,
    occurs_at before w after s /\
    no_word_char (last_char before) = true /\
    no_word_char (first_char after) = true /\
    re.all_letters w = true /\ (2 <= String.length w)%nat.
Proof.
  unfold re.findall_words. rewrite filter_In, andb_true_iff, Nat.leb_le. split.
  - intros [Hin [Hlen Hall]].
    destruct (word_runs_sound s) as [(run & runs & after & E & Es & Hafter) Hlater].
    rewrite E in Hin, Hlater. destruct Hin as [<-|Hin].
    + exists EmptyString, after. split_all; try assumption; reflexivity.
    + destruct (Hlater w Hin) as (before & after0 & Ho & _ & Hl & Hf).
      exists before, after0. split_all; assumption.
  - intros (before & after & -> & Hl & Hf & Hall & Hlen).
    split; [|split; assumption].
    pose proof (word_runs_head w after Hall Hf) as Hhead.
    destruct before as [|c before].
    + cbn [append]. rewrite Hhead. left. reflexivity.
    + apply in_tl, word_runs_later; [discriminate | exact Hl |].
      rewrite Hhead. left. reflexivity.
Qed.

(** *** Keywords, matches and score *)

Lemma first_occurrences_in (words : list string) (w : string) :
  In w (first_occurrences words) <-> In w words.
Proof.
  induction words as [|w0 words IH]; [reflexivity|].
  cbn [first_occurrences In]. rewrite filter_In, IH, negb_true_iff, String.eqb_neq.
  destruct (string_dec w0 w) as [->|Hne]; [tauto|].
  split; [tauto|]. intros [H|H]; [tauto|]. right. split; [exact H | congruence].
Qed.

Lemma first_occurrences_NoDup (words : list string) : NoDup (first_occurrences words).
Proof.
  induction words as [|w0 words IH]; [constructor|].
  cbn [first_occurrences]. constructor.
  - rewrite filter_In, String.eqb_refl. intros [_ H]. discriminate H.
  - apply NoDup_filter, IH.
Qed.

Lemma first_occurrences_iteration : set_iteration first_occurrences.
Proof.
  intros words. split; [apply first_occurrences_NoDup|].
  intros w. apply first_occurrences_in.
Qed.

Lemma reversed_iteration (order : list string -> list string) :
  set_iteration order -> set_iteration (fun words => rev (order words)).
Proof.
  intros H words. destruct (H words) as [Hn Hi].
  split; [apply NoDup_rev, Hn|].
  intros w. rewrite <- in_rev. apply Hi.
Qed.

(** The loop sorts the keywords into those found and the others, keeping
    their order. *)
Lemma sort_keywords_from (resume_text : string) (keywords m mi : list string) :
  fold_left
    (fun lists keyword =>
       let '(matched_keywords, missing_keywords) := lists in
       if Py.contains keyword (str.lower resume_text)
       then (matched_keywords ++ [keyword], missing_keywords)
       else (matched_keywords, missing_keywords ++ [keyword]))
    keywords (m, mi)
  = (m ++ filter (found_in resume_text) keywords,
     mi ++ filter (fun k => negb (found_in resume_text k)) keywords).
Proof.
  revert m mi. induction keywords as [|k keywords IH]; intros m mi.
  - cbn [fold_left filter]. rewrite !app_nil_r. reflexivity.
  - cbn [fold_left filter].
    change (found_in resume_text k) with (Py.contains k (str.lower resume_text)).
    destruct (Py.contains k (str.lower resume_text)); cbn [negb];
      rewrite IH, <- !app_assoc; reflexivity.
Qed.

Lemma sort_keywords_filter (resume_text : string) (keywords : list string) :
  sort_keywords resume_text keywords
  = (filter (found_in resume_text) keywords,
     filter (fun k => negb (found_in resume_text k)) keywords).
Proof. apply sort_keywords_from. Qed.

Lemma analysis_unfold (set_order : list string -> list string)
    (job_description resume_text : string) :
  ats_keyword_analysis set_order job_description resume_text
  = let keywords := job_keywords set_order job_description in
    let matched := filter (found_in resume_text) keywords in
    {| score :=
         if (Z.of_nat (List.length keywords) >? 0)%Z
         then inject_Z (Z.of_nat (List.length matched))
              / inject_Z (Z.of_nat (List.length keywords)) * 100
         else 0;
       matched_keywords := matched;
       missing_keywords :=
         filter (fun k => negb (found_in resume_text k)) keywords |}.
Proof.
  unfold ats_keyword_analysis. rewrite sort_keywords_filter. reflexivity.
Qed.

Lemma filter_split {A} (f : A -> bool) (l : list A) :
  Permutation (filter f l ++ filter (fun x => negb (f x)) l) l.
Proof.
  induction l as [|x l IH]; [constructor|].
  cbn [filter]. destruct (f x); cbn [negb app].
  - apply perm_skip, IH.
  - apply Permutation_sym, Permutation_cons_app, Permutation_sym, IH.
Qed.

Lemma filter_split_length {A} (f : A -> bool) (l : list A) :
  (List.length (filter f l) + List.length (filter (fun x => negb (f x)) l)
   = List.length l)%nat.
Proof.
  rewrite <- length_app. apply Permutation_length, filter_split.
Qed.

Lemma filter_Permutation {A} (f : A -> bool) (l l' : list A) :
  Permutation l l' -> Permutation (filter f l) (filter f l').
Proof.
  induction 1 as [|x l l' _ IH|x y l|l l' l'' _ IH1 _ IH2]; cbn [filter].
  - constructor.
  - destruct (f x); [apply perm_skip|]; exact IH.
  - destruct (f x), (f y); try apply perm_swap; apply Permutation_refl.
  - exact (Permutation_trans IH1 IH2).
Qed.

Lemma filter_all {A} (f : A -> bool) (l : list A) :
  (forall x, In x l -> f x = true) ->
  filter f l = l /\ filter (fun x => negb (f x)) l = [].
Proof.
  induction l as [|x l IH]; intros H; [split; reflexivity|].
  cbn [filter]. rewrite (H x (or_introl eq_refl)). cbn [negb].
  destruct IH as [-> ->]; [intros y Hy; apply H; right; exact Hy|].
  split; reflexivity.
Qed.

Lemma filter_length_monotone {A} (f g : A -> bool) (l : list A) :
  (forall x, f x = true -> g x = true) ->
  (List.length (filter f l) <= List.length (filter g l))%nat.
Proof.
  intros H. induction l as [|x l IH]; [apply le_n|].
  cbn [filter]. destruct (f x) eqn:Hf.
  - rewrite (H x Hf). cbn [List.length]. lia.
  - destruct (g x); cbn [List.length]; lia.
Qed.

(** The percentage of [m] out of [n]. *)
Lemma percentage (m n : nat) :
  (m <= n)%nat -> (0 < n)%nat ->
  let p := inject_Z (Z.of_nat m) / inject_Z (Z.of_nat n) * 100 in
  0 <= p /\ p <= 100 /\ (p == 100 <-> m = n) /\ (p == 0 <-> m = 0%nat) /\
  p * inject_Z (Z.of_nat n) == 100 * inject_Z (Z.of_nat m).
Proof.
  intros Hle Hpos. cbv zeta.
  assert (0 <= inject_Z (Z.of_nat m)) as HM
    by (change 0 with (inject_Z 0); rewrite <- Zle_Qle; lia).
  assert (inject_Z (Z.of_nat m) <= inject_Z (Z.of_nat n)) as HMN
    by (rewrite <- Zle_Qle; lia).
  assert (0 < inject_Z (Z.of_nat n)) as HN
    by (change 0 with (inject_Z 0); rewrite <- Zlt_Qlt; lia).
  assert (inject_Z (Z.of_nat m) / inject_Z (Z.of_nat n) * inject_Z (Z.of_nat n)
          == inject_Z (Z.of_nat m)) as Hq
    by (rewrite Qmult_comm; apply Qmult_div_r, Qnot_eq_sym, Qlt_not_eq, HN).
  assert (forall a b : nat, inject_Z (Z.of_nat a) == inject_Z (Z.of_nat b) -> a = b)
    as Hinj by (intros a b E; exact (Nat2Z.inj _ _ (proj1 (inject_Z_injective _ _) E))).
  revert Hq. generalize (inject_Z (Z.of_nat m) / inject_Z (Z.of_nat n)). intros q Hq.
  split; [nra|]. split; [nra|]. split; [|split].
  - split.
    + intros E. apply Hinj. nra.
    + intros ->. nra.
  - split.
    + intros E. apply (Hinj m 0%nat). change (inject_Z (Z.of_nat 0)) with 0. nra.
    + intros ->. change (inject_Z (Z.of_nat 0)) with 0 in Hq. nra.
  - nra.
Qed.

Lemma keyword_in (set_order : list string -> list string)
    (job_description k : string) :
  set_iteration set_order ->
  In k (job_keywords set_order job_description) <->
  In k (re.findall_words (str.lower job_description)) /\
  (4 <= String.length k)%nat.
Proof.
  intros Hset. unfold job_keywords. cbv zeta.
  rewrite filter_In, (proj2 (Hset _)). unfold Py.len.
  rewrite <- Zgt_is_gt_bool. split; intros [H1 H2]; (split; [exact H1 | lia]).
Qed.

Lemma keywords_NoDup (set_order : list string -> list string)
    (job_description : string) :
  set_iteration set_order -> NoDup (job_keywords set_order job_description).
Proof. intros Hset. apply NoDup_filter, Hset. Qed.

Lemma prefix_occurrence (k s : string) :
  prefix k s = true -> exists after, s = (k ++ after)%string.
Proof.
  revert s. induction k as [|c k IH]; intros s H.
  - exists s. reflexivity.
  - destruct s as [|c0 s]; [discriminate H|]. cbn [prefix] in H.
    destruct (ascii_dec c c0) as [<-|]; [|discriminate H].
    destruct (IH s H) as (after & ->). exists after. reflexivity.
Qed.

(** What a text contains occurs in it. *)
Lemma contains_occurs (k text : string) :
  Py.contains k text = true <-> exists before after, occurs_at before k after text.
Proof.
  split; [|intros (before & after & H); apply (contains_occurrence _ _ _ _ H)].
  unfold occurs_at. induction text as [|c text IH]; rewrite contains_unfold;
    intros H; apply orb_true_iff in H; destruct H as [H|H]; try discriminate H.
  - destruct (prefix_occurrence _ _ H) as (after & E). exists EmptyString, after. exact E.
  - destruct (prefix_occurrence _ _ H) as (after & E). exists EmptyString, after. exact E.
  - destruct (IH H) as (before & after & ->). exists (String c before), after. reflexivity.
Qed.

(** X20: the keywords of a job description, when the set yields every word
    once: no keyword occurs twice, and a string is a keyword exactly when
    it has four characters or more, all of them letters, and occurs in the
    lowered description as a whole word, neither after nor before a word
    character (a letter, a digit or an underscore).  Every keyword is in
    lower case. *)
Theorem keywords_are_whole_lowercase_words (set_order : list string -> list string)
    (job_description : string) :
  set_iteration set_order ->
  NoDup (job_keywords set_order job_description) /\
  (forall k, In k (job_keywords set_order job_description) <->
     (4 <= String.length k)%nat /\ re.all_letters k = true /\
     exists before after,
       occurs_at before k after (str.lower job_description) /\
       no_word_char (last_char before) = true /\
       no_word_char (first_char after) = true) /\
  (forall k, In k (job_keywords set_order job_description) -> str.lower k = k).
Proof.
  intros Hset. split; [apply keywords_NoDup, Hset|].
  assert (forall k, In k (job_keywords set_order job_description) <->
            (4 <= String.length k)%nat /\ re.all_letters k = true /\
            exists before after,
              occurs_at before k after (str.lower job_description) /\
              no_word_char (last_char before) = true /\
              no_word_char (first_char after) = true) as Hk.
  { intros k. rewrite (keyword_in _ _ _ Hset), findall_words_whole_words. split.
    - intros [(before & after & Ho & Hl & Hf & Hall & _) Hlen].
      split; [exact Hlen|]. split; [exact Hall|].
      exists before, after. split_all; assumption.
    - intros (Hlen & Hall & before & after & Ho & Hl & Hf).
      split; [|exact Hlen]. exists before, after. split_all; try assumption. lia. }
  split; [exact Hk|].
  intros k Hin. apply Hk in Hin.
  destruct Hin as (_ & _ & before & after & Ho & _).
  apply (lower_piece _ _ _ _ Ho).
Qed.

(** X21: every keyword lands in exactly one of the two lists: the matched
    keywords are, in keyword order, those found in the lowered resume text,
    the missing ones are the others, and the two lists together are a
    rearrangement of the keywords. *)
Theorem keywords_are_split (set_order : list string -> list string)
    (job_description resume_text : string) :
  let a := ats_keyword_analysis set_order job_description resume_text in
  let keywords := job_keywords set_order job_description in
  matched_keywords a = filter (found_in resume_text) keywords /\
  missing_keywords a = filter (fun k => negb (found_in resume_text k)) keywords /\
  Permutation (matched_keywords a ++ missing_keywords a) keywords /\
  (List.length (matched_keywords a) + List.length (missing_keywords a)
   = List.length keywords)%nat.
Proof.
  cbv zeta. rewrite analysis_unfold. cbv zeta.
  cbn [matched_keywords missing_keywords].
  split; [reflexivity|]. split; [reflexivity|].
  split; [apply filter_split | apply filter_split_length].
Qed.

(** X22: a keyword counts as matched as soon as it occurs anywhere in the
    lowered resume text, also inside a longer word: the matched keywords
    are the keywords that occur there, the missing ones those that do
    not. *)
Theorem matched_means_substring (set_order : list string -> list string)
    (job_description resume_text k : string) :
  let a := ats_keyword_analysis set_order job_description resume_text in
  (In k (matched_keywords a) <->
   In k (job_keywords set_order job_description) /\
   exists before after, occurs_at before k after (str.lower resume_text)) /\
  (In k (missing_keywords a) <->
   In k (job_keywords set_order job_description) /\
   ~ exists before after, occurs_at before k after (str.lower resume_text)).
Proof.
  cbv zeta. rewrite analysis_unfold. cbv zeta.
  cbn [matched_keywords missing_keywords].
  rewrite !filter_In, negb_true_iff, <- contains_occurs. fold (found_in resume_text k).
  split; [reflexivity|].
  destruct (found_in resume_text k); intuition congruence.
Qed.

Lemma analysis_score (set_order : list string -> list string)
    (job_description resume_text : string) :
  let a := ats_keyword_analysis set_order job_description resume_text in
  let n := List.length (job_keywords set_order job_description) in
  let m := List.length (matched_keywords a) in
  (m <= n)%nat /\
  (m + List.length (missing_keywords a) = n)%nat /\
  score a = if (Z.of_nat n >? 0)%Z
            then inject_Z (Z.of_nat m) / inject_Z (Z.of_nat n) * 100
            else 0.
Proof.
  cbv zeta. rewrite analysis_unfold. cbv zeta.
  cbn [score matched_keywords missing_keywords].
  split; [apply filter_length_le|]. split; [apply filter_split_length | reflexivity].
Qed.

(** X23: the score is a percentage: it lies between 0 and 100, times the
    number of keywords it is 100 times the number of matched ones, it is
    100 exactly when there is a keyword and none is missing, and 0 exactly
    when nothing is matched (so also when there is no keyword at all). *)
Theorem score_is_a_percentage (set_order : list string -> list string)
    (job_description resume_text : string) :
  let a := ats_keyword_analysis set_order job_description resume_text in
  let keywords := job_keywords set_order job_description in
  0 <= score a /\ score a <= 100 /\
  score a * inject_Z (Z.of_nat (List.length keywords))
  == 100 * inject_Z (Z.of_nat (List.length (matched_keywords a))) /\
  (score a == 100 <-> keywords <> [] /\ missing_keywords a = []) /\
  (score a == 0 <-> matched_keywords a = []).
Proof.
  cbv zeta.
  destruct (analysis_score set_order job_description resume_text)
    as (Hle & Hsum & ->).
  set (a := ats_keyword_analysis set_order job_description resume_text) in *.
  rewrite <- !length_zero_iff_nil.
  destruct (job_keywords set_order job_description) as [|k0 keywords].
  - cbn [List.length] in *. change (Z.of_nat 0 >? 0)%Z with false. cbv iota.
    assert (List.length (matched_keywords a) = 0%nat) as -> by lia.
    split; [lra|]. split; [lra|]. split; [reflexivity|].
    split; split; try reflexivity; try (intros H; discriminate H).
    intros [H _]. congruence.
  - set (n := List.length (k0 :: keywords)) in *.
    assert (0 < n)%nat as Hn by (unfold n; cbn [List.length]; lia).
    replace (Z.of_nat n >? 0)%Z with true by (symmetry; apply Z.gtb_lt; lia).
    destruct (percentage _ _ Hle Hn) as (H0 & H100 & Hfull & Hnone & Hprod).
    split; [exact H0|]. split; [exact H100|]. split; [exact Hprod|].
    split; [|exact Hnone].
    rewrite Hfull. split.
    + intros E. split; [discriminate|]. lia.
    + intros [_ E]. lia.
Qed.

(** X24: a resume text that holds the job description, in whatever letter
    case, misses no keyword: every keyword is matched, and the score is
    100 when there is a keyword. *)
Theorem description_inside_resume (set_order : list string -> list string)
    (job_description resume_text before after : string) :
  set_iteration set_order ->
  occurs_at before (str.lower job_description) after (str.lower resume_text) ->
  let a := ats_keyword_analysis set_order job_description resume_text in
  missing_keywords a = [] /\
  matched_keywords a = job_keywords set_order job_description /\
  (job_keywords set_order job_description <> [] -> score a == 100).
Proof.
  intros Hset Hocc. cbv zeta.
  destruct (analysis_score set_order job_description resume_text)
    as (Hle & Hsum & Hscore).
  revert Hle Hsum Hscore. rewrite analysis_unfold. cbv zeta.
  cbn [score matched_keywords missing_keywords].
  destruct (filter_all (found_in resume_text)
              (job_keywords set_order job_description)) as [Em Emi].
  { intros k Hk. apply (keyword_in _ _ _ Hset) in Hk. destruct Hk as [Hk _].
    apply findall_words_whole_words in Hk.
    destruct Hk as (b & a & Ho & _).
    unfold found_in. rewrite Hocc. apply contains_within.
    apply (contains_occurrence _ _ _ _ Ho). }
  rewrite Em, Emi. intros _ _ _.
  split; [reflexivity|]. split; [reflexivity|].
  intros Hne.
  destruct (job_keywords set_order job_description) as [|k0 keywords];
    [congruence|].
  replace (Z.of_nat (List.length (k0 :: keywords)) >? 0)%Z with true
    by (symmetry; apply Z.gtb_lt; cbn [List.length]; lia).
  apply (percentage (List.length (k0 :: keywords)) (List.length (k0 :: keywords)));
    cbn [List.length]; lia.
Qed.

(** X25: text added before or after the resume text never hurts: what was
    matched stays matched, nothing new goes missing, and the score does not
    drop. *)
Theorem more_resume_text_never_hurts (set_order : list string -> list string)
    (job_description resume_text before after : string) :
  let a := ats_keyword_analysis set_order job_description resume_text in
  let a' := ats_keyword_analysis set_order job_description
              (before ++ resume_text ++ after) in
  incl (matched_keywords a) (matched_keywords a') /\
  incl (missing_keywords a') (missing_keywords a) /\
  score a <= score a'.
Proof.
  cbv zeta.
  assert (forall k, found_in resume_text k = true ->
                    found_in (before ++ resume_text ++ after) k = true) as Hmore.
  { intros k. unfold found_in. rewrite !lower_app. apply contains_within. }
  destruct (analysis_score set_order job_description resume_text)
    as (Hle & _ & ->).
  destruct (analysis_score set_order job_description
              (before ++ resume_text ++ after)) as (Hle' & _ & ->).
  revert Hle Hle'. rewrite !analysis_unfold. cbv zeta.
  cbn [matched_keywords missing_keywords].
  set (keywords := job_keywords set_order job_description).
  intros Hle Hle'.
  split; [|split].
  - intros k. rewrite !filter_In. intros [Hk Hf]. split; [exact Hk | apply Hmore, Hf].
  - intros k. rewrite !filter_In, !negb_true_iff. intros [Hk Hf].
    split; [exact Hk|].
    destruct (found_in resume_text k) eqn:E; [|reflexivity].
    rewrite (Hmore k E) in Hf. discriminate Hf.
  - pose proof (filter_length_monotone _ _ keywords Hmore) as Hm.
    destruct (Z.of_nat (List.length keywords) >? 0)%Z eqn:Hn; [|lra].
    apply Z.gtb_lt in Hn.
    assert (0 < inject_Z (Z.of_nat (List.length keywords))) as HN
      by (change 0 with (inject_Z 0); rewrite <- Zlt_Qlt; lia).
    assert (inject_Z (Z.of_nat (List.length (filter (found_in resume_text) keywords)))
            <= inject_Z (Z.of_nat (List.length
                 (filter (found_in (before ++ resume_text ++ after)) keywords))))
      as HM by (rewrite <- Zle_Qle; lia).
    apply Qmult_le_compat_r; [|lra].
    apply Qmult_le_compat_r; [exact HM|].
    apply Qlt_le_weak, Qinv_lt_0_compat, HN.
Qed.

(** X26: the order in which the set yields the words does not matter for
    the result: two orders give the same score and the same matched and
    missing keywords, up to their order in the lists. *)
Theorem set_order_is_irrelevant (order1 order2 : list string -> list string)
    (job_description resume_text : string) :
  set_iteration order1 -> set_iteration order2 ->
  let a1 := ats_keyword_analysis order1 job_description resume_text in
  let a2 := ats_keyword_analysis order2 job_description resume_text in
  score a1 == score a2 /\
  Permutation (matched_keywords a1) (matched_keywords a2) /\
  Permutation (missing_keywords a1) (missing_keywords a2).
Proof.
  intros H1 H2. cbv zeta.
  assert (Permutation (job_keywords order1 job_description)
            (job_keywords order2 job_description)) as Hperm.
  { apply NoDup_Permutation; try (apply keywords_NoDup; assumption).
    intros k. rewrite (keyword_in _ _ _ H1), (keyword_in _ _ _ H2). reflexivity. }
  rewrite !analysis_unfold. cbv zeta. cbn [score matched_keywords missing_keywords].
  pose proof (filter_Permutation (found_in resume_text) _ _ Hperm) as Hm.
  pose proof (filter_Permutation (fun k => negb (found_in resume_text k)) _ _ Hperm)
    as Hmi.
  rewrite (Permutation_length Hperm), (Permutation_length Hm).
  split; [reflexivity|]. split; assumption.
Qed.

(** X27: the analysis ignores letter case: lowering the job description and
    the resume text beforehand changes nothing. *)
Theorem analysis_ignores_case (set_order : list string -> list string)
    (job_description resume_text : string) :
  ats_keyword_analysis set_order (str.lower job_description)
    (str.lower resume_text)
  = ats_keyword_analysis set_order job_description resume_text.
Proof.
  unfold ats_keyword_analysis, job_keywords, sort_keywords.
  rewrite !lower_idempotent. reflexivity.
Qed.

(** ** Loading the data *)

Lemma check_fields_object (members : list (string * JSON)) (fields : list string) :
  (Forall (has_key members) fields ->
   check_fields fields (JObject members) = None) /\
  (forall present field rest,
     fields = present ++ field :: rest ->
     Forall (has_key members) present -> ~ has_key members field ->
     check_fields fields (JObject members) = Some (MissingField field)).
Proof.
  assert (forall f, existsb (String.eqb f) (map fst members) = true
                    <-> has_key members f) as Hkey.
  { intros f. unfold has_key. rewrite existsb_exists. split.
    - intros (k & Hin & E). apply String.eqb_eq in E. subst k. exact Hin.
    - intros Hin. exists f. split; [exact Hin | apply String.eqb_refl]. }
  induction fields as [|f fields [IH1 IH2]].
  - split; [reflexivity|]. intros [|] ? ? E; discriminate E.
  - split.
    + intros H. inversion H as [|? ? Hf Hrest]; subst.
      cbn [check_fields json_in]. rewrite (proj2 (Hkey f) Hf). apply IH1, Hrest.
    + intros present field rest E Hpresent Hmissing.
      cbn [check_fields json_in].
      destruct present as [|p present]; cbn [app] in E; injection E as -> ->.
      * destruct (existsb (String.eqb field) (map fst members)) eqn:Ex;
          [|reflexivity].
        apply Hkey in Ex. contradiction.
      * inversion Hpresent as [|? ? Hp Hrest]; subst.
        rewrite (proj2 (Hkey p) Hp).
        apply (IH2 present field rest eq_refl Hrest Hmissing).
Qed.

Lemma check_fields_none (fields : list string) (data : JSON) :
  check_fields fields data = None <->
  forall field, In field fields -> json_in field data = Some true.
Proof.
  induction fields as [|f fields IH]; cbn [check_fields].
  - split; [intros _ field [] | reflexivity].
  - destruct (json_in f data) as [[|]|] eqn:E.
    + rewrite IH. split.
      * intros H field [<-|Hin]; [exact E | apply H, Hin].
      * intros H field Hin. apply H. right. exact Hin.
    + split; [discriminate|]. intros H.
      specialize (H f (or_introl eq_refl)). congruence.
    + split; [discriminate|]. intros H.
      specialize (H f (or_introl eq_refl)). congruence.
Qed.

(** X28: [load_resume_from_json] returns the parsed data after the success
    line, or prints one error line and exits with status 1.  It returns
    exactly when the file parses and each of the five required names is
    [in] the data.  For a JSON object this looks at the keys only, never at
    the values, and the error names the first missing key in the order
    name, contact_info, work_experience, technical_skills, education.  A
    JSON array that holds the five names as strings passes as well. *)
Theorem load_checks_presence_only (read_json : string -> Loaded)
    (json_file : string) :
  let call := load_resume_from_json read_json json_file in
  (forall data,
     call = (SuccessfullyLoaded json_file, Returned data) <->
     read_json json_file = Parsed data /\
     forall field, In field required_fields -> json_in field data = Some true) /\
  ((exists data, call = (SuccessfullyLoaded json_file, Returned data)) \/
   (exists message, call = (message, Exited 1))) /\
  (forall members,
     read_json json_file = Parsed (JObject members) ->
     (Forall (has_key members) required_fields ->
      call = (SuccessfullyLoaded json_file, Returned (JObject members))) /\
     (forall present field rest,
        required_fields = present ++ field :: rest ->
        Forall (has_key members) present -> ~ has_key members field ->
        call = (ErrorLoadingRaised (MissingField field), Exited 1))) /\
  (forall items,
     read_json json_file = Parsed (JArray items) ->
     (forall field, In field required_fields -> In (JString field) items) ->
     call = (SuccessfullyLoaded json_file, Returned (JArray items))).
Proof.
  cbv zeta. unfold load_resume_from_json.
  split; [|split; [|split]].
  - intros data. destruct (read_json json_file) as [d| |].
    + rewrite <- check_fields_none.
      destruct (check_fields required_fields d) eqn:E.
      * split; [discriminate|]. intros [H1 H2]. injection H1 as ->. congruence.
      * split.
        -- intros H. injection H as ->. split; [reflexivity | exact E].
        -- intros [H1 _]. injection H1 as ->. reflexivity.
    + split; [discriminate | intros [H _]; discriminate H].
    + split; [discriminate | intros [H _]; discriminate H].
  - destruct (read_json json_file) as [d| |].
    + destruct (check_fields required_fields d).
      * right. eexists. reflexivity.
      * left. eexists. reflexivity.
    + right. eexists. reflexivity.
    + right. eexists. reflexivity.
  - intros members ->.
    destruct (check_fields_object members required_fields) as [H1 H2].
    split.
    + intros H. rewrite (H1 H). reflexivity.
    + intros present field rest E Hp Hm. rewrite (H2 _ _ _ E Hp Hm). reflexivity.
  - intros items -> H.
    assert (check_fields required_fields (JArray items) = None) as ->;
      [|reflexivity].
    apply check_fields_none. intros field Hin. cbn [json_in]. f_equal.
    apply existsb_exists. exists (JString field).
    split; [apply H, Hin | apply String.eqb_refl].
Qed.

(** ** Filling the generator from the data *)

Lemma fold_work (jobs : list JobData) (resume : ResumeGenerator) :
  fold_left
    (fun resume job =>
       add_work_experience resume (data_title job) (data_company job)
         (data_location job) (data_start_date job) (data_end_date job)
         (data_responsibilities job) (get_or_empty (data_achievements job)))
    jobs resume
  = set_work_experience resume (work_experience resume ++ map job_of jobs).
Proof.
  revert resume. induction jobs as [|job jobs IH]; intros resume.
  - cbn [fold_left map]. rewrite app_nil_r. destruct resume; reflexivity.
  - cbn [fold_left map]. rewrite IH.
    unfold add_work_experience, set_work_experience.
    cbn [work_experience name contact_info professional_summary technical_skills
         education internships projects certifications doc min_font_size
         max_font_size min_margin max_margin name_font_size heading_font_size
         normal_font_size margin_size].
    rewrite <- app_assoc. unfold job_of.
    destruct (data_achievements job); reflexivity.
Qed.

Lemma fold_internships (jobs : list JobData) (resume : ResumeGenerator) :
  fold_left
    (fun resume internship =>
       add_internship resume (data_title internship) (data_company internship)
         (data_location internship) (data_start_date internship)
         (data_end_date internship) (data_responsibilities internship)
         (get_or_empty (data_achievements internship)))
    jobs resume
  = set_internships resume (internships resume ++ map job_of jobs).
Proof.
  revert resume. induction jobs as [|job jobs IH]; intros resume.
  - cbn [fold_left map]. rewrite app_nil_r. destruct resume; reflexivity.
  - cbn [fold_left map]. rewrite IH.
    unfold add_internship, set_internships.
    cbn [work_experience name contact_info professional_summary technical_skills
         education internships projects certifications doc min_font_size
         max_font_size min_margin max_margin name_font_size heading_font_size
         normal_font_size margin_size].
    rewrite <- app_assoc. unfold job_of.
    destruct (data_achievements job); reflexivity.
Qed.

Lemma fold_projects (l : list Project) (resume : ResumeGenerator) :
  fold_left
    (fun resume project =>
       add_project resume (project_name project) (description project)
         (technologies project) (project_url project)
         (project_start_date project) (project_end_date project))
    l resume
  = set_projects resume (projects resume ++ l).
Proof.
  revert resume. induction l as [|project l IH]; intros resume.
  - cbn [fold_left]. rewrite app_nil_r. destruct resume; reflexivity.
  - cbn [fold_left]. rewrite IH.
    unfold add_project, set_projects.
    cbn [work_experience name contact_info professional_summary technical_skills
         education internships projects certifications doc min_font_size
         max_font_size min_margin max_margin name_font_size heading_font_size
         normal_font_size margin_size].
    rewrite <- app_assoc. destruct project; reflexivity.
Qed.

Lemma fold_certifications (l : list Certification) (resume : ResumeGenerator) :
  fold_left
    (fun resume cert =>
       add_certification resume (certification_name cert) (issuer cert)
         (date cert) (expiration_date cert) (certification_url cert))
    l resume
  = set_certifications resume (certifications resume ++ l).
Proof.
  revert resume. induction l as [|cert l IH]; intros resume.
  - cbn [fold_left]. rewrite app_nil_r. destruct resume; reflexivity.
  - cbn [fold_left]. rewrite IH.
    unfold add_certification, set_certifications.
    cbn [work_experience name contact_info professional_summary technical_skills
         education internships projects certifications doc min_font_size
         max_font_size min_margin max_margin name_font_size heading_font_size
         normal_font_size margin_size].
    rewrite <- app_assoc. destruct cert; reflexivity.
Qed.

Lemma fold_education (l : list Education) (resume : ResumeGenerator) :
  fold_left
    (fun resume edu =>
       add_education resume (degree edu) (institution edu)
         (education_location edu) (graduation_date edu) (gpa edu)
         (relevant_courses edu))
    l resume
  = set_education resume (education resume ++ l).
Proof.
  revert resume. induction l as [|edu l IH]; intros resume.
  - cbn [fold_left]. rewrite app_nil_r. destruct resume; reflexivity.
  - cbn [fold_left]. rewrite IH.
    unfold add_education, set_education.
    cbn [work_experience name contact_info professional_summary technical_skills
         education internships projects certifications doc min_font_size
         max_font_size min_margin max_margin name_font_size heading_font_size
         normal_font_size margin_size].
    rewrite <- app_assoc. destruct edu; reflexivity.
Qed.

Lemma dict_set_new {V} (d : list (string * V)) (k : string) (v : V) :
  ~ In k (map fst d) -> dict_set d k v = d ++ [(k, v)].
Proof.
  induction d as [|[k0 v0] d IH]; intros Hk; [reflexivity|].
  cbn [dict_set app]. cbn [map fst In] in Hk.
  destruct (String.eqb_spec k0 k) as [->|_]; [tauto|].
  rewrite IH by tauto. reflexivity.
Qed.

Lemma fold_skills (l : list (string * list string)) (resume : ResumeGenerator) :
  NoDup (map fst (technical_skills resume ++ l)) ->
  fold_left
    (fun resume '(category, skills) => add_technical_skills resume category skills)
    l resume
  = set_technical_skills resume (technical_skills resume ++ l).
Proof.
  revert resume. induction l as [|[category skills] l IH]; intros resume Hd.
  - cbn [fold_left]. rewrite app_nil_r. destruct resume; reflexivity.
  - cbn [fold_left].
    assert (~ In category (map fst (technical_skills resume))) as Hnew.
    { rewrite map_app in Hd. cbn [map fst] in Hd.
      apply NoDup_remove_2 in Hd. intros Hin. apply Hd, in_or_app. left. exact Hin. }
    rewrite IH.
    + unfold add_technical_skills, set_technical_skills.
      cbn [work_experience name contact_info professional_summary technical_skills
           education internships projects certifications doc min_font_size
           max_font_size min_margin max_margin name_font_size heading_font_size
           normal_font_size margin_size].
      rewrite (dict_set_new _ _ _ Hnew), <- app_assoc. reflexivity.
    + unfold add_technical_skills, set_technical_skills.
      cbn [technical_skills].
      rewrite (dict_set_new _ _ _ Hnew), <- app_assoc. exact Hd.
Qed.

Lemma fold_reachable {A} (f : ResumeGenerator -> A -> ResumeGenerator)
    (l : list A) (resume : ResumeGenerator) :
  (forall r x, reachable r -> reachable (f r x)) ->
  reachable resume -> reachable (fold_left f l resume).
Proof.
  intros Hf. revert resume. induction l as [|x l IH]; intros resume Hr; [exact Hr|].
  cbn [fold_left]. apply IH, Hf, Hr.
Qed.

Lemma resume_from_data_reachable (data : ResumeData) :
  reachable (resume_from_data data).
Proof.
  unfold resume_from_data.
  apply fold_reachable; [intros; apply reach_education; assumption|].
  assert (forall (l : option (list Certification)) r,
            reachable r ->
            reachable
              match l with
              | Some certifications =>
                  fold_left
                    (fun resume cert =>
                       add_certification resume (certification_name cert)
                         (issuer cert) (date cert) (expiration_date cert)
                         (certification_url cert)) certifications r
              | None => r
              end) as Hcert.
  { intros [l|] r Hr; [|exact Hr].
    apply fold_reachable; [intros; apply reach_certification; assumption | exact Hr]. }
  apply Hcert.
  apply fold_reachable;
    [intros r [category skills] Hr; apply reach_skills; exact Hr|].
  destruct (data_projects data) as [l|];
    [apply fold_reachable; [intros; apply reach_project; assumption|]|];
    (destruct (data_internships data) as [l'|];
     [apply fold_reachable; [intros; apply reach_internship; assumption|]|];
     (apply fold_reachable; [intros; apply reach_work; assumption|];
      apply reach_init)).
Qed.

(** X29: the generator [create_resume_from_json] fills holds the loaded
    data as it is: name, contact details and summary; the work entries and
    internships in their order, a missing [achievements] read as the empty
    list; projects, certifications and education in their order; the
    skills dictionary with its categories in their order.  A missing
    [internships], [projects] or [certifications] key leaves that list
    empty.  The sections do not disturb one another, though they are
    filled in another order than the one they are rendered in. *)
Theorem resume_from_data_holds_the_data (data : ResumeData) :
  NoDup (map fst (data_technical_skills data)) ->
  let resume := resume_from_data data in
  name resume = data_name data /\
  contact_info resume = data_contact_info data /\
  professional_summary resume = data_professional_summary data /\
  work_experience resume = map job_of (data_work_experience data) /\
  internships resume = map job_of (or_empty (data_internships data)) /\
  projects resume = or_empty (data_projects data) /\
  technical_skills resume = data_technical_skills data /\
  certifications resume = or_empty (data_certifications data) /\
  education resume = data_education data /\
  reachable resume.
Proof.
  intros Hd. cbv zeta.
  split_all; try apply resume_from_data_reachable;
    unfold resume_from_data;
    rewrite fold_education, fold_work;
    destruct (data_internships data) as [li|];
    destruct (data_projects data) as [lp|];
    destruct (data_certifications data) as [lc|];
    rewrite ?fold_internships, ?fold_projects, ?fold_certifications;
    rewrite fold_skills by exact Hd;
    rewrite ?fold_certifications; reflexivity.
Qed.

Lemma fold_skills_name (l : list (string * list string)) (resume : ResumeGenerator) :
  name (fold_left
          (fun resume '(category, skills) =>
             add_technical_skills resume category skills) l resume)
  = name resume.
Proof.
  revert resume. induction l as [|[category skills] l IH]; intros resume;
    [reflexivity|].
  cbn [fold_left]. rewrite IH. reflexivity.
Qed.

Lemma resume_from_data_name (data : ResumeData) :
  name (resume_from_data data) = data_name data.
Proof.
  unfold resume_from_data.
  rewrite fold_education, fold_work.
  destruct (data_internships data) as [li|];
    destruct (data_projects data) as [lp|];
    destruct (data_certifications data) as [lc|];
    rewrite ?fold_internships, ?fold_projects, ?fold_certifications;
    cbn [name set_education set_certifications];
    rewrite fold_skills_name; reflexivity.
Qed.

(** X30: for loaded data of the expected types [create_resume_from_json]
    never fails: it returns the file name, which is the [output_filename]
    of the data if there is a non-empty one and otherwise the name of the
    data with underscores for spaces and [_Resume.docx] added; the
    generator still holds the data filled in, its sizes are within the
    invariant, and what was printed before is kept. *)
Theorem create_resume_from_json_returns
    (rendered_sections : ResumeGenerator -> list Paragraph) (fuel : nat)
    (data : ResumeData) (printed : list Event) :
  (3 <= fuel)%nat ->
  exists filename st',
    create_resume_from_json rendered_sections fuel data printed
    = Ok (filename, st') /\
    (forall c f, data_output_filename data = Some (String c f) ->
                 filename = String c f) /\
    (data_output_filename data = None \/
     data_output_filename data = Some EmptyString ->
     filename = (Py.replace_space (data_name data) ++ "_Resume.docx")%string) /\
    same_data (this st') (resume_from_data data) /\
    sizes_invariant (this st') /\
    exists new, output st' = printed ++ new.
Proof.
  intros Hfuel. unfold create_resume_from_json.
  set (st := {| this := resume_from_data data; output := printed |}).
  assert (constraints_ok (this st)) as Hc
    by (apply reachable_constraints, resume_from_data_reachable).
  destruct (generate_resume_steps rendered_sections fuel
              (data_output_filename data) st Hfuel Hc)
    as (pc & pc' & att' & stl & _ & Hloop & Hrun & _ & _ & Hs).
  destruct (generate_resume_same _ _ _ _ _ _ Hrun) as [Hd _].
  destruct (shrink_loop_keeps _ _ _ _ _ _ _ _ Hloop)
    as (_ & _ & _ & _ & (evs & Hout & _) & _).
  eexists _, _. split; [exact Hrun|]. subst st. cbn [this output] in *.
  split; [intros c f E; unfold output_name; rewrite E; reflexivity|].
  split.
  { intros E. unfold output_name. rewrite resume_from_data_name.
    destruct E as [-> | ->]; reflexivity. }
  split; [exact Hd|]. split; [exact Hs|].
  rewrite Hout, <- !app_assoc. eexists. reflexivity.
Qed.

(** ** The further theorems at sample inputs *)



Lemma first_layout_that_fits_is_kept_witness :
  exists page_count,
    _estimate_page_count (first_layout sample_sections (this fresh))
      (doc (first_layout sample_sections (this fresh))) = Ok page_count /\
    page_count <= 1 /\
    exists st',
      generate_resume sample_sections 3 None fresh
      = Ok (output_name (this fresh) None, st') /\
      this st' = first_layout sample_sections (this fresh).
Proof.
  pose (pc := match _estimate_page_count (first_layout sample_sections (this fresh))
                      (doc (first_layout sample_sections (this fresh))) with
              | Ok p => p
              | _ => 0
              end).
  assert (_estimate_page_count (first_layout sample_sections (this fresh))
            (doc (first_layout sample_sections (this fresh))) = Ok pc) as Hest
    by (vm_compute; reflexivity).
  assert (pc <= 1) as Hfit by (vm_compute; discriminate).
  exists pc. split; [exact Hest|]. split; [exact Hfit|].
  eexists. split.
  - exact (first_layout_that_fits_is_kept sample_sections 3 None fresh pc Hest Hfit).
  - reflexivity.
Defined.


Lemma generate_resume_keeps_data_witness :
  (3 <= 3)%nat /\ constraints_ok (this fresh) /\
  exists filename st',
    generate_resume crowded_sections 3 None fresh = Ok (filename, st') /\
    same_data (this st') (this fresh) /\
    same_constraints (this st') (this fresh).
Proof.
  split; [lia|]. split; [repeat split|].
  apply (generate_resume_keeps_data crowded_sections 3 None fresh).
  - lia.
  - repeat split.
Defined.

Lemma generate_resume_log_witness :
  (3 <= 3)%nat /\ constraints_ok (this fresh) /\
  exists filename st' pages trials,
    generate_resume crowded_sections 3 None fresh = Ok (filename, st') /\
    _estimate_page_count (this st') (doc (this st')) = Ok pages /\
    output st'
    = output fresh
      ++ tier_log (size_tier (this fresh) (_estimate_content_volume (this fresh)))
           (_estimate_content_volume (this fresh))
      ++ [Save (doc (first_layout crowded_sections (this fresh))) temp_file]
      ++ trials
      ++ (if Py.gt pages 1 then [Print OverflowWarning] else [])
      ++ [Unlink temp_file; Save (doc (this st')) (output_file filename);
          Print (SuccessfullyGenerated filename)] /\
    Forall trial_event trials /\
    (List.length trials = 4 * shrink_attempts trials)%nat /\
    (shrink_attempts trials <= 3)%nat.
Proof.
  split; [lia|]. split; [repeat split|].
  apply (generate_resume_log crowded_sections 3 None fresh).
  - lia.
  - repeat split.
Defined.

Lemma pass_depends_on_data_only_witness :
  let st2 := {| this := shrink_sizes (this fresh);
                output := [Print OverflowWarning] |} in
  same_data (this fresh) (this st2) /\
  same_constraints (this fresh) (this st2) /\
  exists filename st1',
    generate_resume sample_sections 3 None fresh = Ok (filename, st1') /\
    exists st2' new,
      generate_resume sample_sections 3 None st2 = Ok (filename, st2') /\
      this st2' = this st1' /\
      output st1' = output fresh ++ new /\
      output st2' = output st2 ++ new.
Proof.
  cbv zeta.
  pose (r := match generate_resume sample_sections 3 None fresh with
             | Ok r => r
             | _ => (EmptyString, fresh)
             end).
  assert (generate_resume sample_sections 3 None fresh = Ok (fst r, snd r)) as Hrun
    by (vm_compute; reflexivity).
  assert (same_data (this fresh) (shrink_sizes (this fresh))) as Hd
    by (repeat split).
  assert (same_constraints (this fresh) (shrink_sizes (this fresh))) as Hc
    by (repeat split).
  split; [exact Hd|]. split; [exact Hc|].
  exists (fst r), (snd r). split; [exact Hrun|].
  exact (pass_depends_on_data_only sample_sections 3 None fresh
           {| this := shrink_sizes (this fresh); output := [Print OverflowWarning] |}
           (fst r) (snd r) Hd Hc Hrun).
Defined.

Lemma second_pass_repeats_first_witness :
  (3 <= 3)%nat /\ constraints_ok (this fresh) /\
  exists filename st' st'' new,
    generate_resume crowded_sections 3 None fresh = Ok (filename, st') /\
    generate_resume crowded_sections 3 None st' = Ok (filename, st'') /\
    this st'' = this st' /\
    output st' = output fresh ++ new /\
    output st'' = output st' ++ new.
Proof.
  split; [lia|]. split; [repeat split|].
  apply (second_pass_repeats_first crowded_sections 3 None fresh).
  - lia.
  - repeat split.
Defined.

Lemma final_estimate_at_most_first_witness :
  renders_data_only crowded_sections /\
  (3 <= 3)%nat /\ constraints_ok (this fresh) /\
  exists first filename st' final,
    _estimate_page_count (first_layout crowded_sections (this fresh))
      (doc (first_layout crowded_sections (this fresh))) = Ok first /\
    generate_resume crowded_sections 3 None fresh = Ok (filename, st') /\
    _estimate_page_count (this st') (doc (this st')) = Ok final /\
    final <= first.
Proof.
  assert (renders_data_only crowded_sections) as Hr by (intros g g' _; reflexivity).
  split; [exact Hr|]. split; [lia|]. split; [repeat split|].
  apply (final_estimate_at_most_first crowded_sections 3 None fresh Hr).
  - lia.
  - repeat split.
Defined.

Lemma keywords_are_whole_lowercase_words_witness :
  set_iteration first_occurrences /\
  NoDup (job_keywords first_occurrences sample_description) /\
  (forall k, In k (job_keywords first_occurrences sample_description) <->
     (4 <= String.length k)%nat /\ re.all_letters k = true /\
     exists before after,
       occurs_at before k after (str.lower sample_description) /\
       no_word_char (last_char before) = true /\
       no_word_char (first_char after) = true) /\
  (forall k, In k (job_keywords first_occurrences sample_description) ->
     str.lower k = k).
Proof.
  split; [exact first_occurrences_iteration|].
  exact (keywords_are_whole_lowercase_words first_occurrences sample_description
           first_occurrences_iteration).
Defined.

Lemma description_inside_resume_witness :
  set_iteration first_occurrences /\
  occurs_at "" (str.lower "Data Science") ", ml" (str.lower "DATA SCIENCE, ML") /\
  let a := ats_keyword_analysis first_occurrences "Data Science" "DATA SCIENCE, ML" in
  missing_keywords a = [] /\
  matched_keywords a = job_keywords first_occurrences "Data Science" /\
  (job_keywords first_occurrences "Data Science" <> [] -> score a == 100).
Proof.
  split; [exact first_occurrences_iteration|].
  split; [reflexivity|].
  exact (description_inside_resume first_occurrences "Data Science"
           "DATA SCIENCE, ML" "" ", ml" first_occurrences_iteration eq_refl).
Defined.

Lemma set_order_is_irrelevant_witness :
  set_iteration first_occurrences /\
  set_iteration (fun words => rev (first_occurrences words)) /\
  let a1 := ats_keyword_analysis first_occurrences sample_description
              sample_resume in
  let a2 := ats_keyword_analysis (fun words => rev (first_occurrences words))
              sample_description sample_resume in
  score a1 == score a2 /\
  Permutation (matched_keywords a1) (matched_keywords a2) /\
  Permutation (missing_keywords a1) (missing_keywords a2).
Proof.
  split; [exact first_occurrences_iteration|].
  split; [exact (reversed_iteration _ first_occurrences_iteration)|].
  exact (set_order_is_irrelevant first_occurrences
           (fun words => rev (first_occurrences words))
           sample_description sample_resume first_occurrences_iteration
           (reversed_iteration _ first_occurrences_iteration)).
Defined.

Lemma resume_from_data_holds_the_data_witness :
  NoDup (map fst (data_technical_skills sample_data)) /\
  let resume := resume_from_data sample_data in
  name resume = data_name sample_data /\
  contact_info resume = data_contact_info sample_data /\
  professional_summary resume = data_professional_summary sample_data /\
  work_experience resume = map job_of (data_work_experience sample_data) /\
  internships resume = map job_of (or_empty (data_internships sample_data)) /\
  projects resume = or_empty (data_projects sample_data) /\
  technical_skills resume = data_technical_skills sample_data /\
  certifications resume = or_empty (data_certifications sample_data) /\
  education resume = data_education sample_data /\
  reachable resume.
Proof.
  assert (NoDup (map fst (data_technical_skills sample_data))) as Hd
    by (repeat constructor; intros []).
  split; [exact Hd|].
  exact (resume_from_data_holds_the_data sample_data Hd).
Defined.

Lemma create_resume_from_json_returns_witness :
  (3 <= 3)%nat /\
  exists filename st',
    create_resume_from_json sample_sections 3 sample_data [] = Ok (filename, st') /\
    (forall c f, data_output_filename sample_data = Some (String c f) ->
                 filename = String c f) /\
    (data_output_filename sample_data = None \/
     data_output_filename sample_data = Some EmptyString ->
     filename
     = (Py.replace_space (data_name sample_data) ++ "_Resume.docx")%string) /\
    same_data (this st') (resume_from_data sample_data) /\
    sizes_invariant (this st') /\
    exists new, output st' = [] ++ new.
Proof.
  split; [lia|].
  apply (create_resume_from_json_returns sample_sections 3 sample_data []). lia.
Defined.
